(* ===== verification/_CoqProject ===== *)
-Q . S2P
Prelude.v
Timers.v
Radio.v
Handler.v
Trace.v
HandlerFacts.v
Methods.v
Serial.v
Machine.v
Invariants.v
Logging.v
Safety.v
Quiescence.v
Liveness.v
Termination.v
Lifecycle.v
Tasks.v
Interleaving.v
Races.v
Scenarios.v
Abstract.v
Refinement.v
