(* ===== verification/Prelude.v ===== *)
(** * EspSimpleWifiHandler: a verification development

    The program (src/src/EspSimpleWifiHandler.h, src/src/EspSimpleWifiHandler.cpp)
    is one C++ class that keeps a station-mode WiFi connection alive on an
    ESP8266 or an ESP32.  It owns two one-shot timers, registers two radio
    event callbacks, and exposes [beginConnection], [disconnect] and a few
    setters.  Every method is short; what is delicate is the interplay of
    timer expiries, radio events and user calls, which arrive in any order.

    ** Files, in dependency order

    - [Prelude] (this file): the state monad in which the methods are
      written ([M], [ret], [bind], notations in [st_scope]) with its Hoare
      rules, the C string length [strlen_P], the tactics and the hint
      databases shared by all files.
    - [Timers]: the platform's one-shot timers.  [Ticker] is the state of one
      timer handle; [once]/[detach] are the ESP8266 Ticker methods,
      [xTimerCreate]/[xTimerStart]/[xTimerStop]/[xTimerDelete] the FreeRTOS
      calls of the ESP32 build, [pdMS_TO_TICKS] the tick conversion in 32-bit
      arithmetic.  The class [OneShot] states what the handler relies on
      (arming, disarming, elapsing, expiring); both platforms are instances.
    - [Radio]: the WiFi driver object as far as the handler uses it: the
      record [WiFiClass] (mode bit mask as a [Z], connection status, station
      configuration, host name, registered handlers), the calls [WiFiCall]
      and their effect [WiFi_exec].
    - [Handler]: the class itself.  The record [EspSimpleWifiHandler] has the
      private members of the header; [World] is the handler together with the
      global [WiFi] object, the clock [millis] and the observable [trace].
      There is one definition per method, written in the monad, with the
      preprocessor branches of the source as [match] on the [Target].
      User callbacks ([Callback]) are scripts of public API calls
      ([ApiCall]), run by [invoke] and [runScript] where the source invokes
      them.
    - [Trace]: readings of the trace (the driver calls, the connect
      requests, the callbacks run) and the predicates the safety theorems
      are about ([begin_ok], [debounced], [chrono]), with their behaviour
      when a method appends entries.
    - [HandlerFacts]: symbolic execution of the methods ([hrun]); the guard
      [_canConnectToWifi] and [_connect] on every branch; the relation
      [advances] that every method except [_connect] satisfies (no connect
      request, clock untouched, well-formed timers, the connect timer
      disarmed or armed for the full delay or untouched without a reset)
      and [attempts], which [_connect] satisfies.
    - [Methods]: what [_reset], [_scheduleConnection], [beginConnection],
      [disconnect], the two event handlers and the constructor do, branch by
      branch: driver calls in order, effect on the driver, timers.  The
      section [Portable] proves the timer facts once against [OneShot].
    - [Serial]: the characters the print statements send to the serial
      port ([printf], [put_print], [serial]), the arguments a format asks
      for ([print_ok]), and readers of the printed text ([read_connected]).
    - [Machine]: the system as a labelled transition system.  A [Label] is a
      user call, the passing of time, the expiry of a timer, a radio event or
      a change of the radio's status; [step] is the executable transition
      function, [Step] the same as an inductive relation, [reachable] the
      states reached from a constructed handler.
    - [Invariants]: invariants proved with the Hoare rules of this file
      along the structure of the methods ([hstep]).  The section [Kept]
      shows once that what the primitives keep every method keeps; its
      instances are the radio mode, which stays within [wifi_mode_t], and
      the print statements, whose arguments fit their formats.  The third
      invariant is the configuration, changed by its setters only.
    - [Logging]: the equivalence of worlds up to logging, with [Proper]
      instances for the methods and for [step].
    - [Safety]: the invariant [Inv] of reachable states, proved by
      induction on [reachable], and the safety theorems read off it.
    - [Quiescence]: after [disconnect] the handler stays silent.
    - [Liveness]: armed timers, left alone, lead to the connect request;
      with no timer armed nothing happens.
    - [Termination]: the timers' own activity is finite: the measure
      [rank], the dispatch loop [settle] of the timer service and its
      termination.
    - [Lifecycle]: the destruction of the handler ([destroy]) and the
      system over the whole life of the object ([Sys], [sys_step]), with
      the fault of a platform that calls into a destroyed object.
    - [Tasks]: the methods once more as programs with yield points
      ([Task]), one step per statement, proved equal to the methods of
      [Handler] when they are not interrupted ([atomic]).
    - [Interleaving]: the machine in which the sketch's task, the timer
      service task and the event task of the ESP32 interleave ([Conc],
      [cstep]); its serial schedules; invariants under interleaving
      ([keeps]).
    - [Races]: what interruption breaks (three schedules of the ESP32) and
      what it leaves (a quiet handler stays quiet).
    - [Scenarios]: the scenarios of section 8 of the specification and the
      runs in which the code departs from the specification, by evaluation.
    - [Abstract]: the supervisor of the specification as a state machine of
      its own ([AState], [astep]) with the phases of its section 4
      ([Phase], [phase]); it has no driver, no trace and no platform.
    - [Refinement]: the abstraction [abs] from a [World] to an [AState] and
      the proof that every method commutes with it, so that [step] on
      either platform refines [astep].

    ** Correspondence with the source

    In [Handler], with the lines of src/src/EspSimpleWifiHandler.cpp (.h
    where said):
    - [EspSimpleWifiHandler], [member_init]: the private members and their
      default initialisers (.h 33-57);
    - [constructor], [default_constructor], [destructor]: the two
      constructors (5-74) and the destructor (76-81); [new] is a
      constructed handler on a given driver at a given time;
    - [beginConnection] (85-114), [disconnect] (116-134), with
      [stopTimers] for the block both share (91-98, 123-130);
    - [_onWifiConnected] (138-144), [_onWifiDisconnected] (146-155), with
      [invoke] for [if (callback) callback();];
    - [_scheduleConnection] (159-170), [_reset] (172-185), [_connect]
      (187-199), [_canConnectToWifi] (201-217);
    - [enableDebuggingMessages], [isConnected], [setWifiInfos],
      [setHostname], [setAutoReconnect], [onConnectionEstablished],
      [onConnectionLost]: the inline members (.h 74-96);
    - [timerCallback], [wifiEventHandler]: the lambdas the constructor
      hands to the timers (25-38) and to the driver (44-63);
    - [api]: one call of the public interface, as user code makes it;
    - [Print], [log]: the print statements, [Println] for
      [Serial.println] (101, 119) and [Printf] for [Serial.printf] (140,
      148, 193, 205, 212), under [if (_enableSerialLogs)].
    In [Serial]: [put_seconds] is [millis() / 1000.0] under [%f] (140,
    148), [put_ip] is [WiFi.localIP().toString()] under [%s] (140), [c_str]
    is [_wifiSsid] under [%s] (193).  In [Lifecycle]: [destroy] is the
    destructor (76-81) followed by [destroy_members], the destructors of
    the members declared in the header (.h 45-57).  In [Tasks]:
    [task_guard], [task_connect], [task_reset] and the other [task_]
    definitions are the methods of the same name, with one step per
    statement of the lines given above for the method.
    The timer service ([Timers]), the driver ([Radio]) and the dispatch of
    timers and events ([Machine]) are not in the repository; they are
    modelled from the documented behaviour of the two platforms and from
    the specification's description of the collaborators.

    ** Modelling choices

    - Platform: [Target] is [ESP8266] or [ESP32]; each [#ifdef] block of the
      source is a [match] on it, so every theorem is stated for both builds
      unless it names one.  (The destructor tests [ESP32] where the rest of
      the source tests [ESP8266]; with two targets the tests agree.)
    - Strings: a [const char *] is [option string] ([None] is [nullptr]); the
      handler stores the pointers it is given, and the model assumes the
      pointed-to text does not change afterwards.
    - Time is in milliseconds, a [nat].  One FreeRTOS tick is one
      millisecond ([configTICK_RATE_HZ] is 1000, the Arduino-ESP32 setting),
      so both platforms count the same unit.  A timer may fire late but not
      early: [LElapse] subtracts with saturation and [LExpire] needs a
      remaining time of zero.  The theorems hold for every duration; the
      runs that instantiate them use a few seconds, since a [nat] is
      evaluated in unary.
    - Timer commands take effect at once (the FreeRTOS command queue is not
      modelled).  In [Machine] and in every file but [Tasks],
      [Interleaving] and [Races] a handler method runs to completion
      without preemption, as the specification assumes and as the ESP8266
      dispatches.
    - Interleaving: in [Tasks] a method can be interrupted after
      each statement that reads or writes the object or calls the driver
      (a driver call, a print statement and an assignment are one step
      each).  Three contexts run at most one activation each; the
      scheduler is any sequence of [CStart] and [CResume] labels, so every
      interleaving at this granularity is covered and none is assumed
      fair.  The counterexample schedules are for the ESP32, the platform
      on which the three contexts are different tasks.
    - Fuel: the only loop is [settle], the dispatch loop of the timer
      service, which recurses on fuel.  Three units are enough from every
      state with well-formed timers, because each round lowers [rank],
      which is at most 3 ([settle_terminates]); more fuel gives the same
      result.  Every method is straight-line code, a callback script is a
      finite list, and [run] recurses on its labels.
    - The clock [millis] of a [World] is the uptime and does not wrap;
      [millis()] as the program reads it for printing is [millis32], the
      uptime modulo 2^32.
    - Destruction: a destroyed object is [Dead]; [this] then holds what the
      storage last held, and any call of the platform into it is a
      [Fault].  User code cannot name a destroyed object, so no [LCall] is
      enabled after destruction.
    - The radio environment is the most general one: its status may change
      to any value at any moment and either event may be delivered at any
      moment.  A safety theorem proved here therefore holds for every real
      radio; theorems that need the radio to cooperate say so in a
      hypothesis.
    - The trace is ghost state: each driver call, printed line and callback
      invocation is recorded with the time and with whether the driver
      reported a connection at that moment.  No method reads it.
    - Logging: a print statement is an entry of the trace that records the
      statement as written (the literal with its escape sequences, the
      arguments as values); [Serial] turns it into characters.

    ** What the theorems show

    - [HandlerFacts], [Methods]: the functional behaviour of every method,
      including the silent error paths (SSID unset, already connected).
    - [Safety]: in every reachable state, on both platforms, every connect
      request was issued while the driver reported no connection and at
      least [WIFI_DELAY_BETWEEN_CONNECTIONS] seconds after the radio reset
      before it; the timers are the one-shot timers of the constructor and
      an expiry disarms them; the first-connection timer is never armed
      again; the event handlers stay registered.
    - [Quiescence]: [disconnect] is final until user code asks otherwise,
      also when it is called from the connection-lost callback, where it
      cancels the retry scheduled just before.
    - [Liveness]: the first attempt of a handler built with automatic
      connection, the attempt after [beginConnection], and the retry after
      a lost connection happen, at the stated time, with the stated driver
      calls; the runs are proved enabled.  Without an armed timer the
      handler waits for ever (there is no watchdog).
    - [Invariants]: the mode mask stays in range along every run; every
      [printf] is given the arguments its format asks for (no null pointer
      under [%s]); the handler never changes the SSID, the password or the
      host name.
    - [Serial]: the line printed on connection reads back as the time and
      the address it was printed from.
    - [Termination]: a run of the timers alone contains at most three
      expiries and at most two connect requests; the dispatch loop
      terminates, within [WIFI_DELAY_BEFORE_FIRST_CONNECTION +
      WIFI_DELAY_BETWEEN_CONNECTIONS] seconds, on an idle handler.
    - [Lifecycle]: no timer callback ever runs on a destroyed object; on
      the ESP8266 nothing does; on the ESP32 the event handlers outlive the
      object and the first event after destruction is a use of the
      destroyed object; a destroyed handler makes no driver call.
    - [Logging]: enabling debugging messages changes no driver call, no
      timer, no callback and no flag, along any run.
    - [Refinement]: a forward simulation from the code to the abstract
      supervisor ([refinement]), its converse on enabledness
      ([refinement_complete]), and a property proved on the abstract
      machine and carried to the code: connect requests are made at the
      expiry of the connect timer and nowhere else.
    - [Tasks], [Interleaving]: a method that is not interrupted is the
      method of [Handler]; run one activation after the other, the
      interleaved machine is the machine of [Machine]; the mode mask stays
      in range and the timers stay well formed under every interleaving.
    - [Races]: [disconnect] is final under every interleaving that starts
      with no activation in flight; but on the ESP32 three theorems above
      need
      activations to be atomic and fail without it: a connect request that
      has passed its guard is made after a complete [disconnect], is made
      while the driver reports a connection if the radio associates in
      between, and prints a null SSID if the credentials are cleared in
      between.
    - [Scenarios]: the scenarios of the specification hold.  Four runs show
      the code departing from the specification's wording: both timers can
      be armed at once; [beginConnection] during an attempt restarts the
      attempt; the first-connection timer can tear down an attempt in
      progress; the ESP8266 reset does not preserve the radio mode.

    ** Not modelled

    The radio driver's internals (scan, association, DHCP), the UART behind
    [Serial], the FreeRTOS scheduler (priorities, time slices) and its
    timer command queue, preemption inside a driver call or inside a
    single statement, the memory model of the two cores of the ESP32, and
    user callbacks that do anything but call the handler's interface. *)

From Stdlib Require Import ZArith Lia String Ascii List Bool.
From stdpp Require Import base tactics option list.
Import ListNotations.

(** ** The state monad of the handler's methods *)

Section StateMonad.
Context {S : Type}.

Definition M (A : Type) : Type := S -> A * S.

Definition ret {A} (a : A) : M A := fun s => (a, s).

Definition bind {A B} (m : M A) (k : A -> M B) : M B :=
  fun s => let '(a, s') := m s in k a s'.

Definition get : M S := fun s => (s, s).

Definition gets {A} (f : S -> A) : M A := fun s => (f s, s).

Definition modify (f : S -> S) : M unit := fun s => (tt, f s).

(** [if (b) m;] *)
Definition when (b : bool) (m : M unit) : M unit :=
  if b then m else ret tt.

Definition exec {A} (m : M A) (s : S) : S := snd (m s).

Definition eval {A} (m : M A) (s : S) : A := fst (m s).

(** [hoare P m Q]: from a state that satisfies [P], [m] returns a value and a
    state related by [Q].  The monad is total, so this is total correctness. *)
Definition hoare {A} (P : S -> Prop) (m : M A) (Q : A -> S -> Prop) : Prop :=
  forall s, P s -> Q (eval m s) (exec m s).

(** [m] keeps the invariant [I]. *)
Definition preserves {A} (I : S -> Prop) (m : M A) : Prop :=
  hoare I m (fun _ => I).

End StateMonad.

Arguments M : clear implicits.

Declare Scope st_scope.
Delimit Scope st_scope with st.
Notation "x <- c ;; k" := (bind c (fun x => k))
  (at level 100, c at next level, right associativity) : st_scope.
Notation "c ;; k" := (bind c (fun _ => k))
  (at level 100, right associativity) : st_scope.
Open Scope st_scope.

(** ** C strings *)

(** [strlen_P]: the number of characters before the first NUL. *)
Fixpoint strlen_P (s : string) : nat :=
  match s with
  | EmptyString => 0
  | String c s' => if Ascii.eqb c Ascii.zero then 0 else S (strlen_P s')
  end.

(** [!p || strlen_P(p) == 0] for a [const char *p]. *)
Definition null_or_empty (p : option string) : bool :=
  match p with
  | None => true
  | Some s => strlen_P s =? 0
  end.

(** [p && strlen_P(p) > 0] for a [const char *p]. *)
Definition nonempty (p : option string) : bool :=
  match p with
  | Some s => 0 <? strlen_P s
  | None => false
  end.

(** ** Hint databases and tactics *)

Create HintDb wifi discriminated.
Create Rewrite HintDb wifi.

(** Case analysis on a scrutinee of the goal that is not itself a [match]:
    the innermost condition a computation is stuck on. *)
Ltac case_atom :=
  match goal with
  | |- context [match ?x with _ => _ end] =>
      lazymatch x with
      | context [match _ with _ => _ end] => fail
      | _ => destruct x eqn:?
      end
  end.

(** ** Laws of the monad *)

Section MonadLaws.
Context {S A B C : Type}.
Implicit Types (s : S) (m : M S A).

Lemma bind_ret_l (a : A) (k : A -> M S B) s : bind (ret a) k s = k a s.
Proof. reflexivity. Qed.

Lemma bind_ret_r m s : bind m ret s = m s.
Proof. unfold bind, ret. by destruct (m s). Qed.

Lemma bind_assoc m (k : A -> M S B) (h : B -> M S C) s :
  bind (bind m k) h s = bind m (fun a => bind (k a) h) s.
Proof. unfold bind. by destruct (m s). Qed.

Lemma exec_bind m (k : A -> M S B) s :
  exec (bind m k) s = exec (k (eval m s)) (exec m s).
Proof. unfold exec, eval, bind. by destruct (m s). Qed.

Lemma eval_bind m (k : A -> M S B) s :
  eval (bind m k) s = eval (k (eval m s)) (exec m s).
Proof. unfold exec, eval, bind. by destruct (m s). Qed.

Lemma exec_ret (a : A) s : exec (ret a) s = s.
Proof. reflexivity. Qed.

Lemma exec_modify (f : S -> S) s : exec (modify f) s = f s.
Proof. reflexivity. Qed.

Lemma exec_gets (f : S -> A) s : exec (gets f) s = s.
Proof. reflexivity. Qed.

Lemma eval_gets (f : S -> A) s : eval (gets f) s = f s.
Proof. reflexivity. Qed.

Lemma exec_when (b : bool) (m' : M S unit) s :
  exec (when b m') s = if b then exec m' s else s.
Proof. by destruct b. Qed.

End MonadLaws.

#[export] Hint Rewrite @exec_bind @eval_bind @exec_ret @exec_modify
  @exec_gets @eval_gets @exec_when : wifi.

(** ** Rules of the program logic *)

Section HoareRules.
Context {S A' : Type}.
Implicit Types (P I : S -> Prop).

Lemma hoare_ret {A} P (a : A) (Q : A -> S -> Prop) :
  (forall s, P s -> Q a s) -> hoare P (ret a) Q.
Proof. intros H s Hs. by apply H. Qed.

Lemma hoare_bind {A B} P (m : M S A) (k : A -> M S B) (R : A -> S -> Prop) Q :
  hoare P m R -> (forall a, hoare (R a) (k a) Q) -> hoare P (bind m k) Q.
Proof.
  intros Hm Hk s Hs. rewrite eval_bind, exec_bind. apply Hk, Hm, Hs.
Qed.

Lemma hoare_conseq {A} P P' (m : M S A) (Q Q' : A -> S -> Prop) :
  hoare P' m Q' -> (forall s, P s -> P' s) -> (forall a s, Q' a s -> Q a s) ->
  hoare P m Q.
Proof. intros Hm HP HQ s Hs. apply HQ, Hm, HP, Hs. Qed.

Lemma hoare_gets {A} P (f : S -> A) (Q : A -> S -> Prop) :
  (forall s, P s -> Q (f s) s) -> hoare P (gets f) Q.
Proof. intros H s Hs. by apply H. Qed.

Lemma hoare_modify P (f : S -> S) (Q : unit -> S -> Prop) :
  (forall s, P s -> Q tt (f s)) -> hoare P (modify f) Q.
Proof. intros H s Hs. by apply H. Qed.

Lemma preserves_ret {A} I (a : A) : preserves I (ret a).
Proof. by apply hoare_ret. Qed.

Lemma preserves_gets {A} I (f : S -> A) : preserves I (gets f).
Proof. by apply hoare_gets. Qed.

Lemma preserves_modify I (f : S -> S) :
  (forall s, I s -> I (f s)) -> preserves I (modify f).
Proof. intros H. by apply hoare_modify. Qed.

Lemma preserves_bind {A B} I (m : M S A) (k : A -> M S B) :
  preserves I m -> (forall a, preserves I (k a)) -> preserves I (bind m k).
Proof. intros Hm Hk. eapply hoare_bind; [apply Hm | apply Hk]. Qed.

Lemma preserves_when I (b : bool) (m : M S unit) :
  preserves I m -> preserves I (when b m).
Proof. destruct b; [done | intros _; apply preserves_ret]. Qed.

Lemma preserves_if {A} I (b : bool) (m1 m2 : M S A) :
  preserves I m1 -> preserves I m2 -> preserves I (if b then m1 else m2).
Proof. by destruct b. Qed.

Lemma preserves_exec {A} I (m : M S A) s : preserves I m -> I s -> I (exec m s).
Proof. intros H. apply H. Qed.

(** A fact that does not depend on the state moves out of the precondition. *)
Lemma hoare_pure {A} P (phi : Prop) (m : M S A) (Q : A -> S -> Prop) :
  (phi -> hoare P m Q) -> hoare (fun s => P s /\ phi) m Q.
Proof. intros H s [Hs Hphi]. by apply H. Qed.

(** The value read is known in the continuation. *)
Lemma preserves_bind_gets {B} I (f : S -> A') (k : A' -> M S B) :
  (forall s, I s -> preserves I (k (f s))) -> preserves I (bind (gets f) k).
Proof. intros H s Hs. unfold preserves, hoare in *. rewrite exec_bind. by apply (H s). Qed.

(** Invariants may be proved one conjunct at a time. *)
Lemma preserves_and {A} I J (m : M S A) :
  preserves I m -> preserves J m -> preserves (fun s => I s /\ J s) m.
Proof. intros HI HJ s [? ?]. split; [by apply HI | by apply HJ]. Qed.

End HoareRules.

#[export] Hint Resolve preserves_ret preserves_gets preserves_bind
  preserves_when preserves_if : wifi.

(** ** Strings and time *)

Lemma strlen_P_empty : strlen_P "" = 0.
Proof. reflexivity. Qed.

Lemma nonempty_Some (p : option string) :
  nonempty p = true <-> exists s, p = Some s /\ strlen_P s <> 0.
Proof.
  destruct p as [s|]; simpl.
  - rewrite Nat.ltb_lt. split; [intros; exists s; split; [done | lia] |].
    intros (? & [= <-] & ?). lia.
  - split; [done | by intros (? & ? & ?)].
Qed.

Lemma nonempty_None : nonempty None = false.
Proof. reflexivity. Qed.

Lemma null_or_empty_nonempty (p : option string) : null_or_empty p = negb (nonempty p).
Proof.
  destruct p as [s|]; simpl; [|done].
  destruct (strlen_P s); reflexivity.
Qed.

Lemma null_or_empty_false (p : option string) :
  null_or_empty p = false <-> exists s, p = Some s /\ strlen_P s <> 0.
Proof.
  rewrite null_or_empty_nonempty, negb_false_iff. apply nonempty_Some.
Qed.

(** Time that has run out stays run out: saturating subtraction composes. *)
Lemma sub_sub_add (r d1 d2 : nat) : r - d1 - d2 = r - (d1 + d2).
Proof. lia. Qed.
