(* ===== verification/Timers.v ===== *)
(** * Timers: the one-shot timers of the two platforms

    The handler keeps two timer handles.  On the ESP8266 a handle is a
    [Ticker] object ([once], [detach]); on the ESP32 the header defines
    [Ticker] as [TimerHandle_t] and the handler calls the FreeRTOS software
    timer API ([xTimerCreate], [xTimerStart], [xTimerStop], [xTimerDelete]).
    Both are modelled by one state type: the handle either points to no
    timer or to a timer with a period, a reload flag, a callback and, while
    it is armed, the time that remains until it expires.

    The timer service itself is [elapse] (time passes), [expired] (which
    callback is due) and [fired] (the timer after its callback ran).

    [OneShot] is the contract the handler is verified against; [Ticker_OneShot]
    and [FreeRTOS_OneShot] show that both platforms satisfy it. *)

From Stdlib Require Import ZArith Lia.
From stdpp Require Import base tactics option.
From S2P Require Import Prelude.

Section Timers.
Context {C : Type}.

(** The timer behind a handle. *)
Record SwTimer := mkSwTimer {
  tm_period : nat;              (* ms (ESP8266) or ticks (ESP32) *)
  tm_reload : bool;             (* periodic if [true], one-shot if [false] *)
  tm_callback : C;
  tm_remaining : option nat     (* [Some r]: armed, expires in [r]; [None]: dormant *)
}.

(** A handle: [None] is a [Ticker] with no timer attached, or a
    [TimerHandle_t] that does not point to a timer. *)
Definition Ticker : Type := option SwTimer.

(** A default-constructed [Ticker] member. *)
Definition Ticker_init : Ticker := None.

(** ** ESP8266: Ticker *)

(** [t.once(seconds, cb)]: (re)uses the timer and arms it once. *)
Definition once (seconds : nat) (cb : C) (t : Ticker) : Ticker :=
  Some {| tm_period := seconds * 1000; tm_reload := false;
          tm_callback := cb; tm_remaining := Some (seconds * 1000) |}.

(** [t.detach()]: disarms and releases the timer. *)
Definition detach (t : Ticker) : Ticker := None.

(** ** ESP32: FreeRTOS software timers *)

Definition configTICK_RATE_HZ : Z := 1000.

(** [pdMS_TO_TICKS(ms)], computed in [TickType_t], an unsigned 32-bit type. *)
Definition pdMS_TO_TICKS (ms : Z) : Z :=
  (((ms mod 2 ^ 32) * configTICK_RATE_HZ) mod 2 ^ 32) / 1000.

(** [xTimerCreate(name, period, autoReload, id, cb)]: a dormant timer; a
    period of zero ticks is refused. *)
Definition xTimerCreate (period : Z) (autoReload : bool) (cb : C) : Ticker :=
  if (period <=? 0)%Z then None
  else Some {| tm_period := Z.to_nat period; tm_reload := autoReload;
               tm_callback := cb; tm_remaining := None |}.

(** [xTimerStart(t, 0)]: arms the timer for one full period from now, also
    when it is already running. *)
Definition xTimerStart (t : Ticker) : Ticker :=
  match t with
  | Some tm => Some {| tm_period := tm_period tm; tm_reload := tm_reload tm;
                       tm_callback := tm_callback tm;
                       tm_remaining := Some (tm_period tm) |}
  | None => None
  end.

(** [xTimerStop(t, 0)]: the timer becomes dormant. *)
Definition xTimerStop (t : Ticker) : Ticker :=
  match t with
  | Some tm => Some {| tm_period := tm_period tm; tm_reload := tm_reload tm;
                       tm_callback := tm_callback tm; tm_remaining := None |}
  | None => None
  end.

(** [xTimerDelete(t, 0)]: the timer is freed. *)
Definition xTimerDelete (t : Ticker) : Ticker := None.

(** ** The timer service *)

(** What is pending on a handle: the remaining time and the callback. *)
Definition armed (t : Ticker) : option (nat * C) :=
  match t with
  | Some tm =>
      match tm_remaining tm with
      | Some r => Some (r, tm_callback tm)
      | None => None
      end
  | None => None
  end.

Definition is_armed (t : Ticker) : bool :=
  match armed t with Some _ => true | None => false end.

(** [d] time units pass. *)
Definition elapse (d : nat) (t : Ticker) : Ticker :=
  match t with
  | Some tm => Some {| tm_period := tm_period tm; tm_reload := tm_reload tm;
                       tm_callback := tm_callback tm;
                       tm_remaining := (fun r => r - d) <$> tm_remaining tm |}
  | None => None
  end.

(** The callback that is due now, if any. *)
Definition expired (t : Ticker) : option C :=
  match armed t with
  | Some (0, cb) => Some cb
  | _ => None
  end.

(** The timer once its callback has been taken: a one-shot timer becomes
    dormant, a periodic one starts its next period. *)
Definition fired (t : Ticker) : Ticker :=
  match t with
  | Some tm => Some {| tm_period := tm_period tm; tm_reload := tm_reload tm;
                       tm_callback := tm_callback tm;
                       tm_remaining := if tm_reload tm then Some (tm_period tm) else None |}
  | None => None
  end.

(** The handle points to a one-shot timer of [seconds] seconds that runs [cb]. *)
Definition created_for (seconds : nat) (cb : C) (t : Ticker) : Prop :=
  exists r, t = Some {| tm_period := seconds * 1000; tm_reload := false;
                        tm_callback := cb; tm_remaining := r |}.

(** The handle is empty or points to a one-shot timer of [seconds] seconds
    that runs [cb] and has at most its period left. *)
Definition timer_ok (seconds : nat) (cb : C) (t : Ticker) : Prop :=
  match t with
  | None => True
  | Some tm =>
      tm_period tm = seconds * 1000 /\ tm_reload tm = false /\ tm_callback tm = cb /\
      forall r, tm_remaining tm = Some r -> r <= seconds * 1000
  end.

(** ** The contract of a one-shot timer

    [arm seconds cb] schedules [cb] in [seconds] seconds, [disarm] cancels
    what is pending.  [ready seconds cb t] is what [arm seconds cb] needs of
    the handle (nothing for a Ticker; a FreeRTOS timer must have been created
    with that period and callback). *)
Class OneShot (arm : nat -> C -> Ticker -> Ticker) (disarm : Ticker -> Ticker)
    (ready : nat -> C -> Ticker -> Prop) : Prop := {
  armed_arm s cb t : ready s cb t -> armed (arm s cb t) = Some (s * 1000, cb);
  armed_disarm t : armed (disarm t) = None;
  arm_arm s cb s' cb' t : ready s cb t -> arm s cb (arm s' cb' t) = arm s cb t;
  oneshot_arm s cb t : ready s cb t -> armed (fired (arm s cb t)) = None;
  ready_arm s cb s' cb' t : ready s cb t -> ready s cb (arm s' cb' t);
  ready_disarm s cb t : ready s cb t -> ready s cb (disarm t);
  ready_elapse s cb d t : ready s cb t -> ready s cb (elapse d t);
  ready_fired s cb t : ready s cb t -> ready s cb (fired t)
}.

(** ** Facts about the timer service *)

Implicit Types (t : Ticker) (d r : nat) (cb : C).

Lemma armed_None : armed (None : Ticker) = None.
Proof. reflexivity. Qed.

Lemma armed_once s cb t : armed (once s cb t) = Some (s * 1000, cb).
Proof. reflexivity. Qed.

Lemma armed_detach t : armed (detach t) = None.
Proof. reflexivity. Qed.

Lemma armed_xTimerStop t : armed (xTimerStop t) = None.
Proof. by destruct t. Qed.

Lemma armed_xTimerDelete t : armed (xTimerDelete t) = None.
Proof. reflexivity. Qed.

Lemma armed_xTimerStart t :
  armed (xTimerStart t) = (fun tm => (tm_period tm, tm_callback tm)) <$> t.
Proof. by destruct t. Qed.

Lemma armed_xTimerStart_created s cb t :
  created_for s cb t -> armed (xTimerStart t) = Some (s * 1000, cb).
Proof. by intros [r ->]. Qed.

Lemma armed_elapse d t :
  armed (elapse d t) = (fun '(r, cb) => (r - d, cb)) <$> armed t.
Proof. destruct t as [[p a cb [r|]]|]; reflexivity. Qed.

Lemma elapse_0 t : elapse 0 t = t.
Proof.
  destruct t as [[p a cb [r|]]|]; simpl; try reflexivity.
  by rewrite Nat.sub_0_r.
Qed.

Lemma elapse_elapse d1 d2 t : elapse d2 (elapse d1 t) = elapse (d1 + d2) t.
Proof.
  destruct t as [[p a cb [r|]]|]; simpl; try reflexivity.
  by rewrite sub_sub_add.
Qed.

Lemma expired_armed t cb : expired t = Some cb <-> armed t = Some (0, cb).
Proof.
  unfold expired. destruct (armed t) as [[[|r] cb']|]; split; congruence.
Qed.

Lemma expired_None t : armed t = None -> expired t = None.
Proof. unfold expired. by intros ->. Qed.

Lemma armed_fired_oneshot t :
  (forall tm, t = Some tm -> tm_reload tm = false) -> armed (fired t) = None.
Proof.
  destruct t as [tm|]; [|done]. intros H. unfold fired, armed; simpl.
  by rewrite (H tm eq_refl).
Qed.

Lemma is_armed_true t : is_armed t = true <-> exists r cb, armed t = Some (r, cb).
Proof.
  unfold is_armed. destruct (armed t) as [[r cb]|].
  - split; [eauto | done].
  - split; [done | by intros (? & ? & ?)].
Qed.

Lemma is_armed_false t : is_armed t = false <-> armed t = None.
Proof. unfold is_armed. by destruct (armed t). Qed.

(** ** [created_for] is stable under every timer operation but creation *)

Lemma created_for_xTimerStart s cb t : created_for s cb t -> created_for s cb (xTimerStart t).
Proof. intros [r ->]. by eexists. Qed.

Lemma created_for_xTimerStop s cb t : created_for s cb t -> created_for s cb (xTimerStop t).
Proof. intros [r ->]. by eexists. Qed.

Lemma created_for_elapse s cb d t : created_for s cb t -> created_for s cb (elapse d t).
Proof. intros [r ->]. by eexists. Qed.

Lemma created_for_fired s cb t : created_for s cb t -> created_for s cb (fired t).
Proof. intros [r ->]. by eexists. Qed.

Lemma created_for_once s cb t : created_for s cb (once s cb t).
Proof. by eexists. Qed.

Lemma created_for_inj s cb s' cb' t :
  created_for s cb t -> created_for s' cb' t -> s * 1000 = s' * 1000 /\ cb = cb'.
Proof. intros [r ->] [r' [= ? ?]]. done. Qed.

Lemma created_for_armed s cb t r cb' :
  created_for s cb t -> armed t = Some (r, cb') -> cb' = cb.
Proof. intros [[r0|] ->]; simpl; congruence. Qed.

(** ** [timer_ok] is kept by every operation the handler uses *)

Lemma timer_ok_None s cb : timer_ok s cb None.
Proof. done. Qed.

Lemma timer_ok_once s cb t : timer_ok s cb (once s cb t).
Proof. repeat split. by intros r [= <-]. Qed.

Lemma timer_ok_detach s cb t : timer_ok s cb (detach t).
Proof. done. Qed.

Lemma timer_ok_xTimerDelete s cb t : timer_ok s cb (xTimerDelete t).
Proof. done. Qed.

Lemma timer_ok_xTimerStart s cb t : timer_ok s cb t -> timer_ok s cb (xTimerStart t).
Proof.
  destruct t as [tm|]; [|done]. intros (Hp & ? & ? & _).
  repeat split; try done. simpl. intros r [= <-]. by rewrite Hp.
Qed.

Lemma timer_ok_xTimerStop s cb t : timer_ok s cb t -> timer_ok s cb (xTimerStop t).
Proof. destruct t as [tm|]; [|done]. intros (? & ? & ? & _). by repeat split. Qed.

Lemma timer_ok_elapse s cb d t : timer_ok s cb t -> timer_ok s cb (elapse d t).
Proof.
  destruct t as [tm|]; [|done]. intros (? & ? & ? & Hr).
  repeat split; try done. simpl. destruct (tm_remaining tm) as [r0|]; [|done].
  intros r [= <-]. specialize (Hr r0 eq_refl). lia.
Qed.

Lemma timer_ok_fired s cb t : timer_ok s cb t -> timer_ok s cb (fired t).
Proof.
  destruct t as [tm|]; [|done]. intros (? & Hre & ? & _).
  repeat split; try done. simpl. by rewrite Hre.
Qed.

Lemma timer_ok_armed s cb t r cb' :
  timer_ok s cb t -> armed t = Some (r, cb') -> cb' = cb /\ r <= s * 1000.
Proof.
  destruct t as [tm|]; [|done]. intros (_ & _ & Hcb & Hr). unfold armed.
  destruct (tm_remaining tm) as [r0|]; [|done]. intros [= <- <-]. auto.
Qed.

Lemma timer_ok_created s cb tm : timer_ok s cb (Some tm) -> created_for s cb (Some tm).
Proof.
  destruct tm as [p a c r]. simpl. intros (-> & -> & -> & _). by eexists.
Qed.

Lemma timer_ok_armed_fired s cb t : timer_ok s cb t -> armed (fired t) = None.
Proof.
  intros H. apply armed_fired_oneshot. intros tm ->. apply H.
Qed.

Lemma timer_ok_armed_xTimerStart s cb t :
  timer_ok s cb t -> is_Some t -> armed (xTimerStart t) = Some (s * 1000, cb).
Proof.
  intros H [tm ->]. by apply armed_xTimerStart_created, timer_ok_created.
Qed.

Lemma is_Some_xTimerStart t : is_Some t -> is_Some (xTimerStart t).
Proof. intros [tm ->]. by eexists. Qed.

Lemma is_Some_xTimerStop t : is_Some t -> is_Some (xTimerStop t).
Proof. intros [tm ->]. by eexists. Qed.

Lemma is_Some_elapse d t : is_Some t -> is_Some (elapse d t).
Proof. intros [tm ->]. by eexists. Qed.

Lemma is_Some_fired t : is_Some t -> is_Some (fired t).
Proof. intros [tm ->]. by eexists. Qed.

Lemma armed_xTimerStart_stop t : armed (xTimerStart (xTimerStop t)) = armed (xTimerStart t).
Proof. by destruct t. Qed.

(** ** Both platforms implement the contract *)

#[export] Instance Ticker_OneShot : OneShot once detach (fun _ _ _ => True).
Proof. split; try done. Qed.

#[export] Instance FreeRTOS_OneShot :
  OneShot (fun _ _ => xTimerStart) xTimerStop created_for.
Proof.
  split.
  - intros s cb t. apply armed_xTimerStart_created.
  - apply armed_xTimerStop.
  - by intros s cb s' cb' t [r ->].
  - by intros s cb t [r ->].
  - intros s cb _ _ t. apply created_for_xTimerStart.
  - apply created_for_xTimerStop.
  - apply created_for_elapse.
  - apply created_for_fired.
Qed.

End Timers.

Arguments SwTimer : clear implicits.
Arguments timer_ok {C} seconds cb t : simpl never.
Arguments Ticker : clear implicits.

(** ** Tick conversion *)

(** Within the 32-bit range the conversion is exact: one tick per millisecond. *)
Lemma pdMS_TO_TICKS_exact (ms : Z) :
  (0 <= ms)%Z -> (ms * 1000 < 2 ^ 32)%Z -> pdMS_TO_TICKS ms = ms.
Proof.
  intros H0 H1. unfold pdMS_TO_TICKS, configTICK_RATE_HZ.
  rewrite (Z.mod_small ms) by lia.
  rewrite Z.mod_small by lia.
  apply Z.div_mul. lia.
Qed.

(** Past that range the multiplication wraps and the period comes out short. *)
Lemma pdMS_TO_TICKS_wraps : pdMS_TO_TICKS 4294968 = 0%Z.
Proof. reflexivity. Qed.

Lemma pdMS_TO_TICKS_range (ms : Z) : (0 <= pdMS_TO_TICKS ms < 2 ^ 32)%Z.
Proof.
  unfold pdMS_TO_TICKS.
  pose proof (Z.mod_pos_bound ((ms mod 2 ^ 32) * configTICK_RATE_HZ) (2 ^ 32)).
  split; [apply Z.div_pos; lia|].
  apply Z.div_lt_upper_bound; lia.
Qed.

(** A timer created with a period of [seconds] seconds, in the range where
    the tick conversion is exact, exists and is dormant. *)
Lemma xTimerCreate_seconds {C} (seconds : nat) (cb : C) :
  0 < seconds -> (Z.of_nat seconds * 1000000 < 2 ^ 32)%Z ->
  xTimerCreate (pdMS_TO_TICKS (Z.of_nat (seconds * 1000))) false cb =
  Some {| tm_period := seconds * 1000; tm_reload := false;
          tm_callback := cb; tm_remaining := None |}.
Proof.
  intros H0 H1. rewrite pdMS_TO_TICKS_exact by lia.
  unfold xTimerCreate. destruct (Z.leb_spec (Z.of_nat (seconds * 1000)) 0); [lia|].
  by rewrite Nat2Z.id.
Qed.

Lemma is_Some_xTimerCreate {C} (seconds : nat) (cb : C) :
  0 < seconds -> (Z.of_nat seconds * 1000000 < 2 ^ 32)%Z ->
  is_Some (xTimerCreate (pdMS_TO_TICKS (Z.of_nat (seconds * 1000))) false cb).
Proof. intros. by rewrite xTimerCreate_seconds. Qed.

Lemma timer_ok_xTimerCreate {C} (seconds : nat) (cb : C) :
  0 < seconds -> (Z.of_nat seconds * 1000000 < 2 ^ 32)%Z ->
  timer_ok seconds cb (xTimerCreate (pdMS_TO_TICKS (Z.of_nat (seconds * 1000))) false cb).
Proof.
  intros. rewrite xTimerCreate_seconds by done. unfold timer_ok. simpl. by repeat split.
Qed.

#[export] Hint Rewrite @armed_once @armed_detach @armed_xTimerStop
  @armed_xTimerDelete @armed_elapse @elapse_0 @elapse_elapse : wifi.
#[export] Hint Resolve created_for_xTimerStart created_for_xTimerStop
  created_for_elapse created_for_fired created_for_once
  timer_ok_None timer_ok_once timer_ok_detach timer_ok_xTimerDelete timer_ok_xTimerStart
  timer_ok_xTimerStop timer_ok_elapse timer_ok_fired
  is_Some_xTimerStart is_Some_xTimerStop is_Some_elapse is_Some_fired : wifi.
