(* ===== verification/Radio.v ===== *)
(** * Radio: the WiFi driver object as the handler uses it

    The handler talks to the global [WiFi] object of the Arduino core: it
    reads the connection status and the mode, and it calls [begin],
    [disconnect], [mode], [setHostname]/[hostname] and the event
    registration functions.  [WiFiClass] is the part of the driver's state
    those calls read or write; [WiFi_exec] is the effect of one call.

    The mode is the bit mask of the cores ([WIFI_MODE_STA] is bit 0,
    [WIFI_MODE_AP] bit 1), kept as a [Z] and operated on with [Z.land],
    [Z.lor] and [Z.ldiff].  How and when an association succeeds or is lost
    is not part of this file: the transition system lets the status change
    freely. *)

From Stdlib Require Import ZArith Lia String.
From stdpp Require Import base tactics option strings.
From S2P Require Import Prelude.

Local Open Scope Z_scope.

(** ** Status and mode *)

Inductive wl_status_t :=
| WL_NO_SHIELD
| WL_IDLE_STATUS
| WL_NO_SSID_AVAIL
| WL_SCAN_COMPLETED
| WL_CONNECTED
| WL_CONNECT_FAILED
| WL_CONNECTION_LOST
| WL_DISCONNECTED.

#[export] Instance wl_status_eq_dec : EqDecision wl_status_t.
Proof. solve_decision. Defined.

Definition WIFI_MODE_NULL : Z := 0.
Definition WIFI_MODE_STA : Z := 1.
Definition WIFI_MODE_AP : Z := 2.
Definition WIFI_MODE_APSTA : Z := 3.

(** The Arduino name of the station mode. *)
Definition WIFI_STA : Z := WIFI_MODE_STA.

(** The events the handler subscribes to. *)
Inductive WiFiEvent :=
| STA_GOT_IP
| STA_DISCONNECTED.

#[export] Instance WiFiEvent_eq_dec : EqDecision WiFiEvent.
Proof. solve_decision. Defined.

(** ** The driver's state *)

Record WiFiClass := mkWiFi {
  wifi_mode : Z;                                   (* current mode bit mask *)
  wifi_status : wl_status_t;                       (* what [WiFi.status()] returns *)
  wifi_config : option (string * option string);   (* station network and passphrase *)
  wifi_hostname : option string;
  wifi_localIP : Z;                                (* what [WiFi.localIP()] returns *)
  wifi_onGotIP : bool;                             (* a handler is registered for the event *)
  wifi_onDisconnected : bool
}.

(** ** The calls the handler makes *)

Inductive WiFiCall :=
| Begin (ssid : string) (passphrase : option string)
| Disconnect8266 (wifioff : bool)
| Disconnect32 (wifioff eraseap : bool)
| Mode (m : Z)
| SetHostname (name : string)
| Hostname (name : string)
| OnEvent (e : WiFiEvent)
| OnStationModeGotIP
| OnStationModeDisconnected.

#[export] Instance WiFiCall_eq_dec : EqDecision WiFiCall.
Proof. solve_decision. Defined.

(** [m & WIFI_MODE_STA] is non-zero. *)
Definition has_sta (m : Z) : bool := negb (Z.land m WIFI_MODE_STA =? 0).

(** An association, if there is one, is torn down. *)
Definition drop_link (s : wl_status_t) : wl_status_t :=
  match s with
  | WL_CONNECTED => WL_DISCONNECTED
  | _ => s
  end.

(** [WiFi.begin(ssid)] and [WiFi.begin(ssid, passphrase)]: station mode is
    enabled, the network is stored and the driver starts to associate; the
    outcome arrives later as an event. *)
Definition WiFi_begin (ssid : string) (passphrase : option string) (w : WiFiClass) : WiFiClass :=
  {| wifi_mode := Z.lor (wifi_mode w) WIFI_MODE_STA;
     wifi_status := wifi_status w;
     wifi_config := Some (ssid, passphrase);
     wifi_hostname := wifi_hostname w;
     wifi_localIP := wifi_localIP w;
     wifi_onGotIP := wifi_onGotIP w;
     wifi_onDisconnected := wifi_onDisconnected w |}.

(** ESP8266 [WiFi.disconnect(wifioff)]: leaves the network, clears the
    station configuration and, with [wifioff], disables station mode. *)
Definition WiFi_disconnect8266 (wifioff : bool) (w : WiFiClass) : WiFiClass :=
  {| wifi_mode := if wifioff then Z.ldiff (wifi_mode w) WIFI_MODE_STA else wifi_mode w;
     wifi_status := drop_link (wifi_status w);
     wifi_config := None;
     wifi_hostname := wifi_hostname w;
     wifi_localIP := wifi_localIP w;
     wifi_onGotIP := wifi_onGotIP w;
     wifi_onDisconnected := wifi_onDisconnected w |}.

(** ESP32 [WiFi.disconnect(wifioff, eraseap)]: does nothing unless station
    mode is enabled; then it leaves the network, clears the station
    configuration if [eraseap], and disables station mode if [wifioff]. *)
Definition WiFi_disconnect32 (wifioff eraseap : bool) (w : WiFiClass) : WiFiClass :=
  if has_sta (wifi_mode w) then
    {| wifi_mode := if wifioff then Z.ldiff (wifi_mode w) WIFI_MODE_STA else wifi_mode w;
       wifi_status := drop_link (wifi_status w);
       wifi_config := if eraseap then None else wifi_config w;
       wifi_hostname := wifi_hostname w;
       wifi_localIP := wifi_localIP w;
       wifi_onGotIP := wifi_onGotIP w;
       wifi_onDisconnected := wifi_onDisconnected w |}
  else w.

(** [WiFi.mode(m)]: the mode becomes [m]; without station mode there is no
    association. *)
Definition WiFi_mode (m : Z) (w : WiFiClass) : WiFiClass :=
  {| wifi_mode := m;
     wifi_status := if has_sta m then wifi_status w else drop_link (wifi_status w);
     wifi_config := wifi_config w;
     wifi_hostname := wifi_hostname w;
     wifi_localIP := wifi_localIP w;
     wifi_onGotIP := wifi_onGotIP w;
     wifi_onDisconnected := wifi_onDisconnected w |}.

(** ESP32 [WiFi.setHostname(name)], ESP8266 [WiFi.hostname(name)]. *)
Definition WiFi_setHostname (name : string) (w : WiFiClass) : WiFiClass :=
  {| wifi_mode := wifi_mode w;
     wifi_status := wifi_status w;
     wifi_config := wifi_config w;
     wifi_hostname := Some name;
     wifi_localIP := wifi_localIP w;
     wifi_onGotIP := wifi_onGotIP w;
     wifi_onDisconnected := wifi_onDisconnected w |}.

(** [WiFi.onEvent(f, e)], [WiFi.onStationModeGotIP(f)],
    [WiFi.onStationModeDisconnected(f)]: [f] will be called on the event. *)
Definition WiFi_onEvent (e : WiFiEvent) (w : WiFiClass) : WiFiClass :=
  {| wifi_mode := wifi_mode w;
     wifi_status := wifi_status w;
     wifi_config := wifi_config w;
     wifi_hostname := wifi_hostname w;
     wifi_localIP := wifi_localIP w;
     wifi_onGotIP := match e with STA_GOT_IP => true | _ => wifi_onGotIP w end;
     wifi_onDisconnected :=
       match e with STA_DISCONNECTED => true | _ => wifi_onDisconnected w end |}.

(** The effect of one call on the driver. *)
Definition WiFi_exec (c : WiFiCall) : WiFiClass -> WiFiClass :=
  match c with
  | Begin ssid pw => WiFi_begin ssid pw
  | Disconnect8266 wifioff => WiFi_disconnect8266 wifioff
  | Disconnect32 wifioff eraseap => WiFi_disconnect32 wifioff eraseap
  | Mode m => WiFi_mode m
  | SetHostname name => WiFi_setHostname name
  | Hostname name => WiFi_setHostname name
  | OnEvent e => WiFi_onEvent e
  | OnStationModeGotIP => WiFi_onEvent STA_GOT_IP
  | OnStationModeDisconnected => WiFi_onEvent STA_DISCONNECTED
  end.

(** [WiFi.status() == WL_CONNECTED]. *)
Definition WiFi_connected (w : WiFiClass) : bool :=
  bool_decide (wifi_status w = WL_CONNECTED).

(** The radio reports a new status (an association completed, was lost, or
    an attempt failed). *)
Definition WiFi_set_status (s : wl_status_t) (w : WiFiClass) : WiFiClass :=
  {| wifi_mode := wifi_mode w;
     wifi_status := s;
     wifi_config := wifi_config w;
     wifi_hostname := wifi_hostname w;
     wifi_localIP := wifi_localIP w;
     wifi_onGotIP := wifi_onGotIP w;
     wifi_onDisconnected := wifi_onDisconnected w |}.

(** A handler is registered with the driver for event [e]. *)
Definition registered (e : WiFiEvent) (r : WiFiClass) : bool :=
  match e with
  | STA_GOT_IP => wifi_onGotIP r
  | STA_DISCONNECTED => wifi_onDisconnected r
  end.

Definition is_begin (c : WiFiCall) : bool :=
  match c with Begin _ _ => true | _ => false end.

Definition is_disconnect (c : WiFiCall) : bool :=
  match c with Disconnect8266 _ | Disconnect32 _ _ => true | _ => false end.

(** The mode is one of the four values of [wifi_mode_t]. *)
Definition mode_ok (m : Z) : Prop := 0 <= m < 4.

(** ** Mode bits *)

Lemma mode_ok_cases m :
  mode_ok m <-> m = WIFI_MODE_NULL \/ m = WIFI_MODE_STA \/ m = WIFI_MODE_AP \/ m = WIFI_MODE_APSTA.
Proof. unfold mode_ok, WIFI_MODE_NULL, WIFI_MODE_STA, WIFI_MODE_AP, WIFI_MODE_APSTA. lia. Qed.

Lemma has_sta_testbit m : has_sta m = Z.testbit m 0.
Proof.
  unfold has_sta, WIFI_MODE_STA.
  change 1 with (Z.ones 1). rewrite Z.land_ones by lia.
  change (2 ^ 1) with 2. rewrite Zmod_odd, Z.bit0_odd.
  by destruct (Z.odd m).
Qed.

Lemma has_sta_lor m : has_sta (Z.lor m WIFI_MODE_STA) = true.
Proof.
  rewrite has_sta_testbit, Z.lor_spec. unfold WIFI_MODE_STA. simpl.
  apply orb_true_r.
Qed.

Lemma has_sta_ldiff m : has_sta (Z.ldiff m WIFI_MODE_STA) = false.
Proof.
  rewrite has_sta_testbit, Z.ldiff_spec. unfold WIFI_MODE_STA. simpl.
  apply andb_false_r.
Qed.

Lemma has_sta_WIFI_STA : has_sta WIFI_STA = true.
Proof. reflexivity. Qed.

Lemma mode_ok_lor m : mode_ok m -> mode_ok (Z.lor m WIFI_MODE_STA).
Proof. rewrite !mode_ok_cases. intros [-> | [-> | [-> | ->]]]; vm_compute; auto. Qed.

Lemma mode_ok_ldiff m : mode_ok m -> mode_ok (Z.ldiff m WIFI_MODE_STA).
Proof. rewrite !mode_ok_cases. intros [-> | [-> | [-> | ->]]]; vm_compute; auto. Qed.

Lemma mode_ok_WIFI_STA : mode_ok WIFI_STA.
Proof. unfold mode_ok, WIFI_STA, WIFI_MODE_STA. lia. Qed.

(** ** Status *)

Lemma drop_link_not_connected s : drop_link s <> WL_CONNECTED.
Proof. by destruct s. Qed.

Lemma drop_link_id s : s <> WL_CONNECTED -> drop_link s = s.
Proof. by destruct s. Qed.

Lemma WiFi_connected_true w : WiFi_connected w = true <-> wifi_status w = WL_CONNECTED.
Proof. apply bool_decide_eq_true. Qed.

Lemma WiFi_connected_false w : WiFi_connected w = false <-> wifi_status w <> WL_CONNECTED.
Proof. apply bool_decide_eq_false. Qed.

(** ** Effects of the calls *)

Lemma WiFi_connected_begin ssid pw w :
  WiFi_connected (WiFi_begin ssid pw w) = WiFi_connected w.
Proof. reflexivity. Qed.

Lemma wifi_status_begin ssid pw w : wifi_status (WiFi_begin ssid pw w) = wifi_status w.
Proof. reflexivity. Qed.

Lemma wifi_config_begin ssid pw w : wifi_config (WiFi_begin ssid pw w) = Some (ssid, pw).
Proof. reflexivity. Qed.

Lemma wifi_config_disconnect32 w :
  has_sta (wifi_mode w) = true -> wifi_config (WiFi_disconnect32 false true w) = None.
Proof. unfold WiFi_disconnect32. by intros ->. Qed.

Lemma wifi_exec_not_connected c w :
  wifi_status w <> WL_CONNECTED -> wifi_status (WiFi_exec c w) <> WL_CONNECTED.
Proof.
  intros H. destruct c; simpl; try done.
  - by rewrite drop_link_id.
  - unfold WiFi_disconnect32. case_atom; simpl; [by rewrite drop_link_id | done].
  - case_atom; [done | by rewrite drop_link_id].
Qed.

Lemma registered_exec e c w :
  registered e w = true -> registered e (WiFi_exec c w) = true.
Proof.
  destruct c as [| | | | | | e' | |], e; simpl; try done;
    unfold WiFi_disconnect32; try case_atom; simpl; try done;
    destruct e'; done.
Qed.

Lemma registered_set_status e s w : registered e (WiFi_set_status s w) = registered e w.
Proof. by destruct e. Qed.

#[export] Hint Resolve has_sta_lor has_sta_ldiff mode_ok_lor mode_ok_ldiff
  mode_ok_WIFI_STA drop_link_not_connected : wifi.
