(* ===== verification/Handler.v ===== *)
(** * Handler: the class EspSimpleWifiHandler

    One definition per member of the class, in the order of the source.
    The methods are programs of the state monad over [World]: the handler
    object ([this]), the global driver object ([WiFi]), the clock
    ([millis]) and the [trace] of what the handler did that can be observed
    from outside (driver calls, serial output, user callbacks invoked).

    A preprocessor branch of the source is a [match] on the [Target].  A
    user callback is a script of public API calls; the source invokes
    callbacks as the last statement of the two event handlers, and so does
    the model. *)

From Stdlib Require Import ZArith Lia String List.
From stdpp Require Import base tactics option list.
From S2P Require Import Prelude Timers Radio.
Import ListNotations.

#[local] Set Warnings "-register-all".

(** ** Build target and constants *)

(** The header selects the platform with [#ifdef ESP8266 ... #else]. *)
Inductive Target :=
| ESP8266
| ESP32.

Definition WIFI_DELAY_BEFORE_FIRST_CONNECTION : nat := 3.

Definition WIFI_DELAY_BETWEEN_CONNECTIONS : nat := 1.

(** ** Callbacks *)

(** What a timer runs when it expires: the two lambdas of the constructor,
    [this->beginConnection()] and [this->_connect()]. *)
Inductive TimerCallback :=
| CbBeginConnection
| CbConnect.

(** A call of the public interface, as user code may make it (from the
    sketch or from inside a callback). *)
Inductive ApiCall :=
| ApiEnableDebuggingMessages (enabled : bool)
| ApiIsConnected
| ApiSetWifiInfos (wifiSsid wifiPassword : option string)
| ApiSetHostname (hostname : option string)
| ApiSetAutoReconnect (autoReconnect : bool)
| ApiOnConnectionEstablished (callback : option (list ApiCall))
| ApiOnConnectionLost (callback : option (list ApiCall))
| ApiBeginConnection
| ApiDisconnect.

(** [std::function<void()>]: empty, or user code that calls the interface. *)
Definition Callback : Type := option (list ApiCall).

(** ** The object *)

Record EspSimpleWifiHandler := mkHandler {
  _wifiSsid : option string;
  _wifiPassword : option string;
  _hostname : option string;
  _autoReconnect : bool;
  _enableSerialLogs : bool;
  _connectionEstablishedCallback : Callback;
  _connectionLostCallback : Callback;
  _wifiConnectTimer : Ticker TimerCallback;
  _firstConnectionTimer : Ticker TimerCallback
}.

(** The default member initialisers of the class. *)
Definition member_init : EspSimpleWifiHandler :=
  {| _wifiSsid := None;
     _wifiPassword := None;
     _hostname := None;
     _autoReconnect := true;
     _enableSerialLogs := false;
     _connectionEstablishedCallback := None;
     _connectionLostCallback := None;
     _wifiConnectTimer := Ticker_init;
     _firstConnectionTimer := Ticker_init |}.

(** ** The world the methods run in *)

Inductive PrintArg :=
| ArgSeconds (ms : nat)         (* [millis() / 1000.0] *)
| ArgStr (s : option string)
| ArgIP (ip : Z).

(** A statement that writes to the serial port. *)
Inductive Print :=
| Println (text : string)                             (* [Serial.println(text)] *)
| Printf (fmt : string) (args : list PrintArg).       (* [Serial.printf(fmt, args...)] *)

Inductive CallbackSlot :=
| ConnectionEstablished
| ConnectionLost.

Inductive Obs :=
| ObsWiFi (c : WiFiCall)                              (* a call into the driver *)
| ObsPrint (p : Print)                                (* a line written to the serial port *)
| ObsCallback (slot : CallbackSlot).                  (* a user callback is invoked *)

(** One entry of the trace: what happened, when, and whether the driver
    reported a connection at that moment. *)
Record Entry := mkEntry {
  at_ms : nat;
  was_connected : bool;
  what : Obs
}.

Record World := mkWorld {
  this : EspSimpleWifiHandler;
  WiFi : WiFiClass;
  millis : nat;
  trace : list Entry            (* newest first *)
}.

(** *** Field updates *)

Definition set_this (h : EspSimpleWifiHandler) (w : World) : World :=
  {| this := h; WiFi := WiFi w; millis := millis w; trace := trace w |}.

Definition set_WiFi (r : WiFiClass) (w : World) : World :=
  {| this := this w; WiFi := r; millis := millis w; trace := trace w |}.

Definition set_millis (t : nat) (w : World) : World :=
  {| this := this w; WiFi := WiFi w; millis := t; trace := trace w |}.

Definition set_trace (tr : list Entry) (w : World) : World :=
  {| this := this w; WiFi := WiFi w; millis := millis w; trace := tr |}.

Definition set_wifiSsid (v : option string) (h : EspSimpleWifiHandler) :=
  mkHandler v (_wifiPassword h) (_hostname h) (_autoReconnect h) (_enableSerialLogs h)
    (_connectionEstablishedCallback h) (_connectionLostCallback h)
    (_wifiConnectTimer h) (_firstConnectionTimer h).

Definition set_wifiPassword (v : option string) (h : EspSimpleWifiHandler) :=
  mkHandler (_wifiSsid h) v (_hostname h) (_autoReconnect h) (_enableSerialLogs h)
    (_connectionEstablishedCallback h) (_connectionLostCallback h)
    (_wifiConnectTimer h) (_firstConnectionTimer h).

Definition set_hostname (v : option string) (h : EspSimpleWifiHandler) :=
  mkHandler (_wifiSsid h) (_wifiPassword h) v (_autoReconnect h) (_enableSerialLogs h)
    (_connectionEstablishedCallback h) (_connectionLostCallback h)
    (_wifiConnectTimer h) (_firstConnectionTimer h).

Definition set_autoReconnect (v : bool) (h : EspSimpleWifiHandler) :=
  mkHandler (_wifiSsid h) (_wifiPassword h) (_hostname h) v (_enableSerialLogs h)
    (_connectionEstablishedCallback h) (_connectionLostCallback h)
    (_wifiConnectTimer h) (_firstConnectionTimer h).

Definition set_enableSerialLogs (v : bool) (h : EspSimpleWifiHandler) :=
  mkHandler (_wifiSsid h) (_wifiPassword h) (_hostname h) (_autoReconnect h) v
    (_connectionEstablishedCallback h) (_connectionLostCallback h)
    (_wifiConnectTimer h) (_firstConnectionTimer h).

Definition set_connectionEstablishedCallback (v : Callback) (h : EspSimpleWifiHandler) :=
  mkHandler (_wifiSsid h) (_wifiPassword h) (_hostname h) (_autoReconnect h)
    (_enableSerialLogs h) v (_connectionLostCallback h)
    (_wifiConnectTimer h) (_firstConnectionTimer h).

Definition set_connectionLostCallback (v : Callback) (h : EspSimpleWifiHandler) :=
  mkHandler (_wifiSsid h) (_wifiPassword h) (_hostname h) (_autoReconnect h)
    (_enableSerialLogs h) (_connectionEstablishedCallback h) v
    (_wifiConnectTimer h) (_firstConnectionTimer h).

Definition set_wifiConnectTimer (v : Ticker TimerCallback) (h : EspSimpleWifiHandler) :=
  mkHandler (_wifiSsid h) (_wifiPassword h) (_hostname h) (_autoReconnect h)
    (_enableSerialLogs h) (_connectionEstablishedCallback h) (_connectionLostCallback h)
    v (_firstConnectionTimer h).

Definition set_firstConnectionTimer (v : Ticker TimerCallback) (h : EspSimpleWifiHandler) :=
  mkHandler (_wifiSsid h) (_wifiPassword h) (_hostname h) (_autoReconnect h)
    (_enableSerialLogs h) (_connectionEstablishedCallback h) (_connectionLostCallback h)
    (_wifiConnectTimer h) v.

(** *** Primitive actions *)

(** Read a member of [this]. *)
Definition member {A} (f : EspSimpleWifiHandler -> A) : M World A :=
  gets (fun w => f (this w)).

(** Assign to members of [this]. *)
Definition update (f : EspSimpleWifiHandler -> EspSimpleWifiHandler) : M World unit :=
  modify (fun w => set_this (f (this w)) w).

(** Apply a timer operation to [_wifiConnectTimer], to [_firstConnectionTimer]. *)
Definition on_wifiConnectTimer (f : Ticker TimerCallback -> Ticker TimerCallback) : M World unit :=
  update (fun h => set_wifiConnectTimer (f (_wifiConnectTimer h)) h).

Definition on_firstConnectionTimer (f : Ticker TimerCallback -> Ticker TimerCallback) : M World unit :=
  update (fun h => set_firstConnectionTimer (f (_firstConnectionTimer h)) h).

(** Append to the trace, stamped with the time and the connection status. *)
Definition observe (o : Obs) : M World unit :=
  modify (fun w =>
    set_trace ({| at_ms := millis w; was_connected := WiFi_connected (WiFi w);
                  what := o |} :: trace w) w).

(** Call the driver. *)
Definition call (c : WiFiCall) : M World unit :=
  observe (ObsWiFi c) ;;
  modify (fun w => set_WiFi (WiFi_exec c (WiFi w)) w).

(** [if (_enableSerialLogs) Serial.println(text)] and
    [if (_enableSerialLogs) Serial.printf(fmt, args...)]. *)
Definition log (p : Print) : M World unit :=
  enabled <- member _enableSerialLogs ;;
  when enabled (observe (ObsPrint p)).

(** The world a handler is constructed in: the driver in some state, the
    clock at some time, nothing observed yet. *)
Definition boot (wifi : WiFiClass) (now : nat) : World :=
  {| this := member_init; WiFi := wifi; millis := now; trace := [] |}.

(** ** Inline members of the header *)

Definition enableDebuggingMessages (enabled : bool) : M World unit :=
  update (set_enableSerialLogs enabled).

Definition isConnected : M World bool :=
  gets (fun w => WiFi_connected (WiFi w)).

Definition setWifiInfos (wifiSsid wifiPassword : option string) : M World unit :=
  update (set_wifiSsid wifiSsid) ;;
  update (set_wifiPassword wifiPassword).

Definition setHostname (hostname : option string) : M World unit :=
  update (set_hostname hostname).

Definition setAutoReconnect (autoReconnect : bool) : M World unit :=
  update (set_autoReconnect autoReconnect).

Definition onConnectionEstablished (callback : Callback) : M World unit :=
  update (set_connectionEstablishedCallback callback).

Definition onConnectionLost (callback : Callback) : M World unit :=
  update (set_connectionLostCallback callback).

(** ** Private methods *)

Definition _canConnectToWifi : M World bool :=
  ssid <- member _wifiSsid ;;
  if null_or_empty ssid then
    log (Printf "WiFi! Can't init a connection: WiFi not configured. \n" []) ;;
    ret false
  else
    connected <- isConnected ;;
    if connected then
      log (Printf "WiFi! Can't init a connection: WiFi already connected. \n" []) ;;
      ret false
    else
      ret true.

(** Connect to the network. *)
Definition _connect : M World unit :=
  ok <- _canConnectToWifi ;;
  if negb ok then ret tt
  else
    ssid <- member _wifiSsid ;;
    password <- member _wifiPassword ;;
    log (Printf "WiFi: Connecting to %s ... \n" [ArgStr ssid]) ;;
    match ssid with
    | Some s =>
        if nonempty password then call (Begin s password)
        else call (Begin s None)
    | None => ret tt
    end.

Section PerTarget.
Variable target : Target.

(** Disconnect, reset the radio and prepare for a new connection. *)
Definition _reset : M World unit :=
  match target with
  | ESP8266 =>
      call (Disconnect8266 true) ;;
      call (Mode WIFI_STA)
  | ESP32 =>
      m <- gets (fun w => wifi_mode (WiFi w)) ;;
      when (Z.land m WIFI_MODE_STA =? 0)%Z (call (Mode WIFI_STA)) ;;
      call (Disconnect32 false true) ;;
      when (Z.land m WIFI_MODE_STA =? 0)%Z (call (Mode m))
  end.

(** Reset the radio and schedule a connection. *)
Definition _scheduleConnection : M World unit :=
  _reset ;;
  match target with
  | ESP8266 => on_wifiConnectTimer (once WIFI_DELAY_BETWEEN_CONNECTIONS CbConnect)
  | ESP32 => on_wifiConnectTimer xTimerStart
  end.

(** "Ensure that no timer are running": the block shared by
    [beginConnection] and [disconnect]. *)
Definition stopTimers : M World unit :=
  match target with
  | ESP8266 =>
      on_firstConnectionTimer detach ;;
      on_wifiConnectTimer detach
  | ESP32 =>
      on_firstConnectionTimer xTimerStop ;;
      on_wifiConnectTimer xTimerStop
  end.

(** ** Public methods *)

(** Initialize a connection. *)
Definition beginConnection : M World unit :=
  ok <- _canConnectToWifi ;;
  if negb ok then ret tt
  else
    stopTimers ;;
    log (Println "WiFi: Initializing ...") ;;
    hostname <- member _hostname ;;
    match hostname with
    | Some name =>
        match target with
        | ESP32 => call (SetHostname name)
        | ESP8266 => call (Hostname name)
        end
    | None => ret tt
    end ;;
    _scheduleConnection.

(** Disconnect from the network and stop reconnecting. *)
Definition disconnect : M World unit :=
  log (Println "WiFi: Disconnecting ...") ;;
  update (set_autoReconnect false) ;;
  stopTimers ;;
  _reset.

(** One call of the public interface. *)
Definition api (a : ApiCall) : M World unit :=
  match a with
  | ApiEnableDebuggingMessages enabled => enableDebuggingMessages enabled
  | ApiIsConnected => isConnected ;; ret tt
  | ApiSetWifiInfos wifiSsid wifiPassword => setWifiInfos wifiSsid wifiPassword
  | ApiSetHostname hostname => setHostname hostname
  | ApiSetAutoReconnect autoReconnect => setAutoReconnect autoReconnect
  | ApiOnConnectionEstablished callback => onConnectionEstablished callback
  | ApiOnConnectionLost callback => onConnectionLost callback
  | ApiBeginConnection => beginConnection
  | ApiDisconnect => disconnect
  end.

(** The body of a user callback: its calls, in order. *)
Fixpoint runScript (body : list ApiCall) : M World unit :=
  match body with
  | [] => ret tt
  | a :: rest => api a ;; runScript rest
  end.

(** [if (callback) callback();] *)
Definition invoke (slot : CallbackSlot) (callback : Callback) : M World unit :=
  match callback with
  | Some body => observe (ObsCallback slot) ;; runScript body
  | None => ret tt
  end.

(** ** Connection state handling *)

Definition _onWifiConnected : M World unit :=
  now <- gets millis ;;
  ip <- gets (fun w => wifi_localIP (WiFi w)) ;;
  log (Printf "WiFi: Connected (%fs), ip : %s \n" [ArgSeconds now; ArgIP ip]) ;;
  callback <- member _connectionEstablishedCallback ;;
  invoke ConnectionEstablished callback.

Definition _onWifiDisconnected : M World unit :=
  now <- gets millis ;;
  log (Printf "WiFi! Lost connection (%fs). \n" [ArgSeconds now]) ;;
  autoReconnect <- member _autoReconnect ;;
  when autoReconnect _scheduleConnection ;;
  callback <- member _connectionLostCallback ;;
  invoke ConnectionLost callback.

(** What the platform runs when a timer expires, when an event arrives. *)
Definition timerCallback (cb : TimerCallback) : M World unit :=
  match cb with
  | CbBeginConnection => beginConnection
  | CbConnect => _connect
  end.

Definition wifiEventHandler (e : WiFiEvent) : M World unit :=
  match e with
  | STA_GOT_IP => _onWifiConnected
  | STA_DISCONNECTED => _onWifiDisconnected
  end.

(** ** Construction and destruction *)

Definition constructor (wifiSsid wifiPassword hostname : option string)
    (autoConnect : bool) : M World unit :=
  update (set_wifiSsid wifiSsid) ;;
  update (set_wifiPassword wifiPassword) ;;
  update (set_hostname hostname) ;;
  match target with
  | ESP8266 => ret tt
  | ESP32 =>
      on_firstConnectionTimer (fun _ =>
        xTimerCreate (pdMS_TO_TICKS (Z.of_nat (WIFI_DELAY_BEFORE_FIRST_CONNECTION * 1000)))
          false CbBeginConnection) ;;
      on_wifiConnectTimer (fun _ =>
        xTimerCreate (pdMS_TO_TICKS (Z.of_nat (WIFI_DELAY_BETWEEN_CONNECTIONS * 1000)))
          false CbConnect)
  end ;;
  match target with
  | ESP8266 =>
      call OnStationModeGotIP ;;
      call OnStationModeDisconnected
  | ESP32 =>
      call (OnEvent STA_GOT_IP) ;;
      call (OnEvent STA_DISCONNECTED)
  end ;;
  when autoConnect
    match target with
    | ESP8266 =>
        on_firstConnectionTimer (once WIFI_DELAY_BEFORE_FIRST_CONNECTION CbBeginConnection)
    | ESP32 => on_firstConnectionTimer xTimerStart
    end.

(** [EspSimpleWifiHandler()]: delegates with no credentials and no
    automatic connection. *)
Definition default_constructor : M World unit :=
  constructor None None None false.

Definition destructor : M World unit :=
  match target with
  | ESP32 =>
      on_firstConnectionTimer xTimerDelete ;;
      on_wifiConnectTimer xTimerDelete
  | ESP8266 => ret tt
  end.

(** A handler constructed on a platform in state [wifi] at time [now]. *)
Definition new (wifiSsid wifiPassword hostname : option string) (autoConnect : bool)
    (wifi : WiFiClass) (now : nat) : World :=
  exec (constructor wifiSsid wifiPassword hostname autoConnect) (boot wifi now).

End PerTarget.
