(* ===== verification/Trace.v ===== *)
(** * Trace: readings and invariants of the observable trace

    The trace of a [World] lists, newest first, the driver calls, the serial
    output and the user callbacks of a run, each stamped with the time and
    with the connection status at that moment.  This file defines what the
    safety theorems say about a trace and proves how these predicates behave
    when a method appends a segment of new entries. *)

From Stdlib Require Import ZArith Lia String List Bool.
From stdpp Require Import base tactics option list.
From S2P Require Import Prelude Timers Radio Handler.
Import ListNotations.

(** ** Readings *)

Definition is_begin_entry (e : Entry) : bool :=
  match what e with ObsWiFi c => is_begin c | _ => false end.

(** A radio reset: the driver is told to disconnect. *)
Definition is_reset_entry (e : Entry) : bool :=
  match what e with ObsWiFi c => is_disconnect c | _ => false end.

Definition is_callback_entry (e : Entry) : bool :=
  match what e with ObsCallback _ => true | _ => false end.

(** The connect requests issued, newest first. *)
Definition begins (tr : list Entry) : list Entry :=
  List.filter is_begin_entry tr.

(** The driver calls made, newest first. *)
Definition wifi_calls (tr : list Entry) : list WiFiCall :=
  omap (fun e => match what e with ObsWiFi c => Some c | _ => None end) tr.

(** The user callbacks invoked, newest first. *)
Definition callbacks_run (tr : list Entry) : list CallbackSlot :=
  omap (fun e => match what e with ObsCallback s => Some s | _ => None end) tr.

(** ** Predicates on a segment of new entries *)

Definition stamped (t : nat) (l : list Entry) : bool :=
  forallb (fun e => at_ms e =? t) l.

Definition no_begin (l : list Entry) : bool :=
  forallb (fun e => negb (is_begin_entry e)) l.

Definition no_reset (l : list Entry) : bool :=
  forallb (fun e => negb (is_reset_entry e)) l.

Definition no_callback (l : list Entry) : bool :=
  forallb (fun e => negb (is_callback_entry e)) l.

(** ** Invariants of a whole trace *)

(** The time of the most recent radio reset. *)
Fixpoint last_reset (tr : list Entry) : option nat :=
  match tr with
  | [] => None
  | e :: tr' => if is_reset_entry e then Some (at_ms e) else last_reset tr'
  end.

(** The delay every connect request keeps from the reset before it. *)
Definition settle_ms : nat := WIFI_DELAY_BETWEEN_CONNECTIONS * 1000.

(** Every connect request comes at least [settle_ms] after the most recent
    reset that precedes it. *)
Fixpoint debounced (tr : list Entry) : Prop :=
  match tr with
  | [] => True
  | e :: tr' =>
      (is_begin_entry e = true ->
       forall t, last_reset tr' = Some t -> t + settle_ms <= at_ms e) /\
      debounced tr'
  end.

(** Time stamps never exceed [now] and never increase towards the past. *)
Fixpoint chrono (now : nat) (tr : list Entry) : Prop :=
  match tr with
  | [] => True
  | e :: tr' => at_ms e <= now /\ chrono (at_ms e) tr'
  end.

(** Every connect request was issued while the driver reported no connection. *)
Definition begin_ok (tr : list Entry) : Prop :=
  Forall (fun e => is_begin_entry e = true -> was_connected e = false) tr.

Section TraceFacts.
Implicit Types (e : Entry) (tr new old : list Entry) (t now : nat).

(** ** Readings of an extended trace *)

Lemma wifi_calls_app new old : wifi_calls (new ++ old) = wifi_calls new ++ wifi_calls old.
Proof. apply omap_app. Qed.

Lemma callbacks_run_app new old :
  callbacks_run (new ++ old) = callbacks_run new ++ callbacks_run old.
Proof. apply omap_app. Qed.

Lemma begins_app new old : begins (new ++ old) = begins new ++ begins old.
Proof. unfold begins. apply List.filter_app. Qed.

Lemma begins_no_begin new : no_begin new = true -> begins new = [].
Proof.
  unfold no_begin, begins. induction new as [|e new IH]; simpl; [done|].
  rewrite andb_true_iff, negb_true_iff. intros [-> ?]. auto.
Qed.

Lemma callbacks_run_no_callback new : no_callback new = true -> callbacks_run new = [].
Proof.
  unfold no_callback, callbacks_run. induction new as [|e new IH]; simpl; [done|].
  rewrite andb_true_iff, negb_true_iff. unfold is_callback_entry.
  intros [He ?]. destruct (what e); try done; auto.
Qed.

Lemma wifi_calls_begins tr :
  length (begins tr) = length (List.filter is_begin (wifi_calls tr)).
Proof.
  unfold begins, wifi_calls, is_begin_entry.
  induction tr as [|e tr IH]; simpl; [done|].
  destruct (what e) as [c| |]; simpl; [|done..].
  destruct (is_begin c); simpl; auto.
Qed.

(** ** Segments *)

Lemma stamped_app t l1 l2 : stamped t (l1 ++ l2) = stamped t l1 && stamped t l2.
Proof. apply forallb_app. Qed.

Lemma no_begin_app l1 l2 : no_begin (l1 ++ l2) = no_begin l1 && no_begin l2.
Proof. apply forallb_app. Qed.

Lemma no_reset_app l1 l2 : no_reset (l1 ++ l2) = no_reset l1 && no_reset l2.
Proof. apply forallb_app. Qed.

Lemma no_callback_app l1 l2 : no_callback (l1 ++ l2) = no_callback l1 && no_callback l2.
Proof. apply forallb_app. Qed.

(** ** [last_reset] *)

Lemma last_reset_app_no_reset new old :
  no_reset new = true -> last_reset (new ++ old) = last_reset old.
Proof.
  unfold no_reset. induction new as [|e new IH]; simpl; [done|].
  rewrite andb_true_iff, negb_true_iff. intros [-> ?]. auto.
Qed.

Lemma last_reset_app_stamped t new old :
  stamped t new = true -> no_reset new = false -> last_reset (new ++ old) = Some t.
Proof.
  unfold stamped, no_reset. induction new as [|e new IH]; simpl; [done|].
  rewrite andb_true_iff, Nat.eqb_eq. intros [Ht Hs].
  destruct (is_reset_entry e); simpl; [by rewrite Ht | auto].
Qed.

Lemma last_reset_chrono now tr t : chrono now tr -> last_reset tr = Some t -> t <= now.
Proof.
  revert now. induction tr as [|e tr IH]; simpl; intros now; [done|].
  intros [Hle Hc]. destruct (is_reset_entry e); [by intros [= <-]|].
  intros Ht. specialize (IH _ Hc Ht). lia.
Qed.

(** A reset anywhere in a chronological trace is no later than the last one. *)
Lemma last_reset_newest now tr j e :
  chrono now tr -> tr !! j = Some e -> is_reset_entry e = true ->
  exists t, last_reset tr = Some t /\ at_ms e <= t.
Proof.
  revert now j. induction tr as [|e0 tr IH]; intros now j; [done|].
  simpl. intros [Hle Hc] Hj He. destruct j as [|j]; simpl in Hj.
  - simplify_eq. rewrite He. eauto.
  - destruct (IH _ _ Hc Hj He) as (t & Ht & Hlt).
    destruct (is_reset_entry e0); [|eauto].
    eexists; split; [done|]. pose proof (last_reset_chrono _ _ _ Hc Ht). lia.
Qed.

(** ** [chrono] *)

Lemma chrono_le now now' tr : chrono now tr -> now <= now' -> chrono now' tr.
Proof. destruct tr; simpl; [done|]. intros [? ?] ?. split; [lia | done]. Qed.

Lemma chrono_app t new old :
  stamped t new = true -> chrono t old -> chrono t (new ++ old).
Proof.
  unfold stamped. induction new as [|e new IH]; simpl; [done|].
  rewrite andb_true_iff, Nat.eqb_eq. intros [-> Hs] Hold. split; [done | auto].
Qed.

(** ** [debounced] *)

Lemma debounced_app_no_begin new old :
  no_begin new = true -> debounced old -> debounced (new ++ old).
Proof.
  unfold no_begin. induction new as [|e new IH]; simpl; [done|].
  rewrite andb_true_iff, negb_true_iff. intros [-> ?] ?. split; [done | auto].
Qed.

(** New entries without a reset keep the trace debounced when the last
    reset is [settle_ms] old. *)
Lemma debounced_app_settled now new old :
  stamped now new = true -> no_reset new = true ->
  (forall t, last_reset old = Some t -> t + settle_ms <= now) ->
  debounced old -> debounced (new ++ old).
Proof.
  unfold stamped, no_reset. induction new as [|e new IH]; simpl; [done|].
  rewrite !andb_true_iff, Nat.eqb_eq. intros [-> Hs] [_ Hn] Hold Hd.
  split; [|auto]. intros _ t. rewrite last_reset_app_no_reset by done. auto.
Qed.

(** The pairwise reading of [debounced]: a connect request and any reset
    before it are at least [settle_ms] apart. *)
Lemma debounced_pairwise now tr i j eb er :
  chrono now tr -> debounced tr ->
  tr !! i = Some eb -> tr !! j = Some er -> i < j ->
  is_begin_entry eb = true -> is_reset_entry er = true ->
  at_ms er + settle_ms <= at_ms eb.
Proof.
  revert now i j. induction tr as [|e tr IH]; intros now i j; [done|].
  simpl. intros [Hle Hc] [Hd Hds] Hi Hj Hij Hb Hr.
  destruct j as [|j]; [lia|]. simpl in Hj. destruct i as [|i]; simpl in Hi.
  - simplify_eq. destruct (last_reset_newest _ _ _ _ Hc Hj Hr) as (t & Ht & Hlt).
    specialize (Hd Hb t Ht). lia.
  - eapply (IH _ i j); eauto. lia.
Qed.

(** ** [begin_ok] *)

Lemma begin_ok_app new old : begin_ok new -> begin_ok old -> begin_ok (new ++ old).
Proof. unfold begin_ok. rewrite Forall_app. done. Qed.

Lemma begin_ok_no_begin new : no_begin new = true -> begin_ok new.
Proof.
  unfold no_begin, begin_ok. induction new as [|e new IH]; simpl; [by constructor|].
  rewrite andb_true_iff, negb_true_iff. intros [He ?].
  constructor; [congruence | auto].
Qed.

End TraceFacts.
