(* ===== verification/HandlerFacts.v ===== *)
(** * HandlerFacts: symbolic execution and the two kinds of method

    The methods of [Handler] are run symbolically ([hrun]).  This file
    states the guard [_canConnectToWifi] and the connect request of
    [_connect] branch by branch, and the two relations between the state
    before and after a method on which the invariant of [Safety] rests:
    [advances], which every method but [_connect] satisfies and which is a
    preorder closed under the monad's sequencing, and [attempts], which
    [_connect] satisfies.  The later files use these lemmas and rarely
    unfold a method again. *)

From Stdlib Require Import ZArith Lia String List Bool.
From stdpp Require Import base tactics option list.
From S2P Require Import Prelude Timers Radio Handler Trace.
Import ListNotations.

(** ** Vocabulary *)

(** The guard of [beginConnection] and [_connect], as a function of the state. *)
Definition can_connect (w : World) : bool :=
  negb (null_or_empty (_wifiSsid (this w))) && negb (WiFi_connected (WiFi w)).

Definition is_print (e : Entry) : Prop :=
  exists p, what e = ObsPrint p.

(** [w'] differs from [w] by serial output at most, and by none when
    logging is disabled. *)
Definition silent (w w' : World) : Prop :=
  this w' = this w /\ WiFi w' = WiFi w /\ millis w' = millis w /\
  exists l, trace w' = l ++ trace w /\ Forall is_print l /\
            (_enableSerialLogs (this w) = false -> l = []).

(** The network [_connect] asks for: the passphrase only if it is non-empty. *)
Definition requested (w : World) : option WiFiCall :=
  match _wifiSsid (this w) with
  | Some s =>
      Some (Begin s (if nonempty (_wifiPassword (this w)) then _wifiPassword (this w) else None))
  | None => None
  end.

(** Both timers of the handler are disarmed. *)
Definition timers_idle (h : EspSimpleWifiHandler) : Prop :=
  armed (_firstConnectionTimer h) = None /\ armed (_wifiConnectTimer h) = None.

(** The timers are what the constructor made of them: one-shot, with their
    own period and callback, and on the ESP32 both exist. *)
Definition wf (target : Target) (h : EspSimpleWifiHandler) : Prop :=
  timer_ok WIFI_DELAY_BEFORE_FIRST_CONNECTION CbBeginConnection (_firstConnectionTimer h) /\
  timer_ok WIFI_DELAY_BETWEEN_CONNECTIONS CbConnect (_wifiConnectTimer h) /\
  match target with
  | ESP8266 => True
  | ESP32 => is_Some (_firstConnectionTimer h) /\ is_Some (_wifiConnectTimer h)
  end.

(** [advances target w w']: [w'] comes from [w] by handler activity that
    issues no connect request.  Time stands still; the trace grows by a
    segment [new] stamped with the current time; well-formed timers stay
    well formed; the first-connection timer is never armed; and the connect
    timer is disarmed, or armed for the full delay, or untouched provided the
    radio was not reset. *)
Record advances (target : Target) (w w' : World) : Prop := {
  adv_millis : millis w' = millis w;
  adv_wf : wf target (this w) -> wf target (this w');
  adv_registered e : registered e (WiFi w) = true -> registered e (WiFi w') = true;
  adv_first :
    armed (_firstConnectionTimer (this w')) = None \/
    armed (_firstConnectionTimer (this w')) = armed (_firstConnectionTimer (this w));
  adv_trace : exists new,
    trace w' = new ++ trace w /\ stamped (millis w) new = true /\ no_begin new = true /\
    (armed (_wifiConnectTimer (this w')) = None \/
     (wf target (this w) ->
      armed (_wifiConnectTimer (this w')) = Some (settle_ms, CbConnect)) \/
     (armed (_wifiConnectTimer (this w')) = armed (_wifiConnectTimer (this w)) /\
      no_reset new = true))
}.

(** [attempts w w']: what [_connect] does.  The handler, the clock and the
    registrations are as before; the new entries are stamped with the
    current time, none is a reset, and a connect request among them was
    issued while the driver reported no connection. *)
Record attempts (w w' : World) : Prop := {
  att_this : this w' = this w;
  att_millis : millis w' = millis w;
  att_registered e : registered e (WiFi w) = true -> registered e (WiFi w') = true;
  att_trace : exists new,
    trace w' = new ++ trace w /\ stamped (millis w) new = true /\
    no_reset new = true /\ begin_ok new
}.

(** A program every run of which [advances]. *)
Definition advancing {A} (target : Target) (m : M World A) : Prop :=
  forall w, advances target w (exec m w).

(** *** Worlds used to instantiate the theorems *)

(** A driver that has just booted: no mode, idle, nothing stored. *)
Definition wifi_boot : WiFiClass :=
  mkWiFi WIFI_MODE_NULL WL_IDLE_STATUS None None 0 false false.

(** A driver that reports a connection in station mode. *)
Definition wifi_up : WiFiClass :=
  mkWiFi WIFI_MODE_STA WL_CONNECTED (Some ("net"%string, Some "pw"%string)) None 0 false false.

(** A handler built with credentials and automatic connection. *)
Definition world_net (target : Target) : World :=
  new target (Some "net"%string) (Some "pw"%string) None true wifi_boot 0.

(** The same while the driver reports a connection. *)
Definition world_up (target : Target) : World :=
  new target (Some "net"%string) (Some "pw"%string) None true wifi_up 0.

(** A handler built without credentials. *)
Definition world_unset (target : Target) : World :=
  new target None None None false wifi_boot 0.

(** ** Symbolic execution *)

(** Unfold the methods, the monad and the record updates. *)
Ltac hcbv :=
  cbv beta iota zeta delta [
    exec eval bind ret get gets modify when
    new boot constructor default_constructor destructor wifiEventHandler timerCallback
    _onWifiDisconnected _onWifiConnected invoke api disconnect beginConnection
    stopTimers _connect _scheduleConnection _reset _canConnectToWifi
    onConnectionLost onConnectionEstablished setAutoReconnect setHostname
    setWifiInfos isConnected enableDebuggingMessages log call observe
    on_firstConnectionTimer on_wifiConnectTimer update member
    this WiFi millis trace set_this set_WiFi set_millis set_trace
    _wifiSsid _wifiPassword _hostname _autoReconnect _enableSerialLogs
    _connectionEstablishedCallback _connectionLostCallback _wifiConnectTimer
    _firstConnectionTimer set_wifiSsid set_wifiPassword set_hostname set_autoReconnect
    set_enableSerialLogs set_connectionEstablishedCallback set_connectionLostCallback
    set_wifiConnectTimer set_firstConnectionTimer member_init
    can_connect requested timers_idle silent
    fst snd negb andb ] in *.

(** Run a method on a symbolic world, splitting on every condition met. *)
Ltac hrun := hcbv; repeat (case_atom; hcbv).

(** Close a [silent] goal whose trace grew by the entries found in it. *)
Ltac silent_tac :=
  split; [reflexivity | split; [reflexivity | split; [reflexivity |]]];
  first [ exists []; split; [reflexivity | split; [constructor | done]]
        | eexists [_]; split;
            [reflexivity
            | split; [repeat constructor; eexists; reflexivity | intros; congruence]] ].

(** The segment by which the trace of the goal grew. *)
Ltac prefix_of l tr :=
  lazymatch l with
  | tr => constr:(@nil Entry)
  | ?e :: ?l' => let p := prefix_of l' tr in constr:(e :: p)
  end.

Ltac give_prefix :=
  lazymatch goal with
  | |- exists new, ?l = new ++ ?tr /\ _ => let p := prefix_of l tr in exists p
  end.

(** ** Well-formed timers can be armed *)

Lemma wf_connect_restart (h : EspSimpleWifiHandler) :
  wf ESP32 h ->
  armed (xTimerStart (xTimerStop (_wifiConnectTimer h))) = Some (settle_ms, CbConnect).
Proof.
  intros (_ & Hc & _ & Hs). rewrite armed_xTimerStart_stop.
  by apply timer_ok_armed_xTimerStart.
Qed.

Lemma wf_connect_start (h : EspSimpleWifiHandler) :
  wf ESP32 h -> armed (xTimerStart (_wifiConnectTimer h)) = Some (settle_ms, CbConnect).
Proof. intros (_ & Hc & _ & Hs). by apply timer_ok_armed_xTimerStart. Qed.

Lemma wf_first_armed (target : Target) (h : EspSimpleWifiHandler) r cb :
  wf target h -> armed (_firstConnectionTimer h) = Some (r, cb) ->
  cb = CbBeginConnection /\ r <= WIFI_DELAY_BEFORE_FIRST_CONNECTION * 1000.
Proof. intros (Hf & _). by apply timer_ok_armed. Qed.

Lemma wf_connect_armed (target : Target) (h : EspSimpleWifiHandler) r cb :
  wf target h -> armed (_wifiConnectTimer h) = Some (r, cb) ->
  cb = CbConnect /\ r <= settle_ms.
Proof. intros (_ & Hc & _). by apply timer_ok_armed. Qed.

Lemma stamped_cons_refl t c o l :
  stamped t l = true -> stamped t (mkEntry t c o :: l) = true.
Proof. unfold stamped. simpl. by rewrite Nat.eqb_refl. Qed.

(** Close [wf] of the handler after a method from [wf] before it. *)
Ltac wf_tac :=
  first
    [ done
    | unfold wf in *; hcbv;
      repeat match goal with
      | H : _ /\ _ |- _ => destruct H
      end;
      (split; [|split]);
      [ eauto 6 with wifi | eauto 6 with wifi
      | first [done | split; eauto 6 with wifi] ] ].

(** Which case of [adv_trace] and of [adv_first] a method is in. *)
Ltac timer_tac :=
  first
    [ left; first [done | apply armed_xTimerStop]
    | right; left;
      first [ reflexivity
            | let H := fresh in
              intros H; first [exact (wf_connect_restart _ H) | exact (wf_connect_start _ H)] ]
    | right; right; split; [done | reflexivity] ].

Ltac first_timer_tac :=
  first [ left; first [done | apply armed_xTimerStop] | by right ].

(** [advances] for a method without callbacks: run it, read off the new
    segment of the trace, and discharge each field. *)
Ltac adv_tac :=
  intros;
  lazymatch goal with
  | |- advances _ ?w _ => destruct w as [[] ? ? ?]
  end;
  hrun;
  (split; hcbv;
   [ reflexivity
   | intros; wf_tac
   | intros []; intros; eauto using registered_exec
   | first_timer_tac
   | give_prefix; split; [reflexivity|]; split;
     [repeat (apply stamped_cons_refl); reflexivity|];
     split; [reflexivity | timer_tac]
   ]).

Section Facts.
Implicit Types (w : World) (target : Target) (h : EspSimpleWifiHandler).

(** ** [silent] *)

Lemma silent_refl w : silent w w.
Proof. hcbv. silent_tac. Qed.

Lemma silent_wifi_calls w w' : silent w w' -> wifi_calls (trace w') = wifi_calls (trace w).
Proof.
  intros (_ & _ & _ & l & -> & Hl & _). unfold wifi_calls. rewrite omap_app.
  induction Hl as [|e l [p He] _ IH]; [done|].
  simpl. by rewrite He.
Qed.

Lemma silent_callbacks_run w w' :
  silent w w' -> callbacks_run (trace w') = callbacks_run (trace w).
Proof.
  intros (_ & _ & _ & l & -> & Hl & _). unfold callbacks_run. rewrite omap_app.
  induction Hl as [|e l [p He] _ IH]; [done|].
  simpl. by rewrite He.
Qed.

Lemma silent_nolog w w' :
  silent w w' -> _enableSerialLogs (this w) = false -> w' = w.
Proof.
  intros (Ht & Hw & Hm & l & Htr & _ & Hl) Hlog. rewrite (Hl Hlog) in Htr.
  destruct w, w'; simpl in *. congruence.
Qed.

(** ** The guard *)

Lemma eval_canConnect w : eval _canConnectToWifi w = can_connect w.
Proof. hrun; done. Qed.

Lemma exec_canConnect_silent w : silent w (exec _canConnectToWifi w).
Proof. hrun; silent_tac. Qed.

Lemma exec_canConnect_ok w : can_connect w = true -> exec _canConnectToWifi w = w.
Proof. intros ?. hrun; done. Qed.

Lemma can_connect_true w :
  can_connect w = true <->
  (exists s, _wifiSsid (this w) = Some s /\ strlen_P s <> 0) /\
  wifi_status (WiFi w) <> WL_CONNECTED.
Proof.
  unfold can_connect.
  by rewrite andb_true_iff, !negb_true_iff, WiFi_connected_false, null_or_empty_false.
Qed.

Lemma can_connect_requested w :
  can_connect w = true -> exists c, requested w = Some c /\ is_begin c = true.
Proof.
  intros [[s [Hs _]] _]%can_connect_true. unfold requested. rewrite Hs. eauto.
Qed.

(** ** [_connect] *)

Lemma exec_connect_refused w : can_connect w = false -> silent w (exec _connect w).
Proof. intros ?. hrun; try done; silent_tac. Qed.

Lemma exec_connect_ok w c :
  can_connect w = true -> requested w = Some c ->
  let w' := exec _connect w in
  this w' = this w /\ millis w' = millis w /\
  WiFi w' = WiFi_exec c (WiFi w) /\
  wifi_calls (trace w') = c :: wifi_calls (trace w) /\
  callbacks_run (trace w') = callbacks_run (trace w).
Proof. intros ? ?. hrun; try done; by simplify_eq/=. Qed.

Lemma connect_attempts w : attempts w (exec _connect w).
Proof.
  destruct w as [[] ? ? ?]. hrun;
    (split; hcbv;
     [ reflexivity | reflexivity | intros []; intros; eauto using registered_exec
     | give_prefix; split; [reflexivity|]; split;
       [repeat (apply stamped_cons_refl); reflexivity|];
       split; [reflexivity | by repeat constructor] ]).
Qed.

(** ** [advances] is a preorder *)

Lemma advances_refl target w : advances target w w.
Proof.
  split; try done; [by right|].
  exists []. repeat split. right; right. done.
Qed.

Lemma advances_trans target w1 w2 w3 :
  advances target w1 w2 -> advances target w2 w3 -> advances target w1 w3.
Proof.
  intros [Hm1 Hwf1 Hr1 Hf1 (n1 & Ht1 & Hs1 & Hb1 & Hc1)]
         [Hm2 Hwf2 Hr2 Hf2 (n2 & Ht2 & Hs2 & Hb2 & Hc2)].
  split.
  - congruence.
  - auto.
  - auto.
  - destruct Hf2 as [? | ->]; [by left | done].
  - exists (n2 ++ n1). rewrite Ht2, Ht1, app_assoc, stamped_app, no_begin_app.
    rewrite Hm1 in Hs2. rewrite Hs1, Hs2, Hb1, Hb2. repeat split.
    destruct Hc2 as [? | [? | [-> Hn2]]]; [by left | right; left; auto |].
    destruct Hc1 as [? | [? | [-> Hn1]]]; [by left | right; left; auto |].
    right; right. by rewrite no_reset_app, Hn1, Hn2.
Qed.

Lemma advances_begins target w w' :
  advances target w w' -> begins (trace w') = begins (trace w).
Proof.
  intros [_ _ _ _ (new & -> & _ & Hnb & _)].
  by rewrite begins_app, (begins_no_begin _ Hnb).
Qed.

(** ** [advancing] programs compose *)

Lemma advancing_ret {A} target (a : A) : advancing target (ret a).
Proof. intros w. apply advances_refl. Qed.

Lemma advancing_gets {A} target (f : World -> A) : advancing target (gets f).
Proof. intros w. apply advances_refl. Qed.

Lemma advancing_member {A} target (f : EspSimpleWifiHandler -> A) :
  advancing target (member f).
Proof. intros w. apply advances_refl. Qed.

Lemma advancing_bind {A B} target (m : M World A) (k : A -> M World B) :
  advancing target m -> (forall a, advancing target (k a)) -> advancing target (bind m k).
Proof.
  intros Hm Hk w. rewrite exec_bind. eapply advances_trans; [apply Hm | apply Hk].
Qed.

Lemma advancing_when target (b : bool) (m : M World unit) :
  advancing target m -> advancing target (when b m).
Proof. destruct b; [done | intros _; apply advancing_ret]. Qed.

(** ** Every method but [_connect] advances *)

Local Ltac adv_bind :=
  lazymatch goal with
  | |- advancing _ (bind _ _) => apply advancing_bind; [|intros ?]
  end.

Lemma advancing_log target p : advancing target (log p).
Proof. intros w. adv_tac. Qed.

Lemma advancing_observe target o :
  match o with ObsWiFi _ => False | _ => True end -> advancing target (observe o).
Proof. intros Ho w. destruct o; [done|..]; adv_tac. Qed.

Lemma advancing_stopTimers target : advancing target (stopTimers target).
Proof. intros w. adv_tac. Qed.

Lemma advancing_scheduleConnection target : advancing target (_scheduleConnection target).
Proof. intros w. adv_tac. Qed.

Lemma advancing_beginConnection target : advancing target (beginConnection target).
Proof. intros w. adv_tac. Qed.

Lemma advancing_disconnect target : advancing target (disconnect target).
Proof. intros w. adv_tac. Qed.

Lemma advancing_api target a : advancing target (api target a).
Proof.
  destruct a; intros w; adv_tac.
Qed.

Lemma advancing_runScript target body : advancing target (runScript target body).
Proof.
  induction body as [|a body IH]; simpl; [apply advancing_ret|].
  apply advancing_bind; [apply advancing_api | done].
Qed.

Lemma advancing_invoke target slot callback : advancing target (invoke target slot callback).
Proof.
  destruct callback as [body|]; simpl; [|apply advancing_ret].
  apply advancing_bind; [by apply advancing_observe | intros _; apply advancing_runScript].
Qed.

Local Ltac adv_seq :=
  repeat adv_bind;
  auto using advancing_gets, advancing_log, advancing_member, advancing_invoke,
    advancing_when, advancing_scheduleConnection.

Lemma advancing_onWifiConnected target : advancing target (_onWifiConnected target).
Proof.
  unfold _onWifiConnected. adv_seq.
Qed.

Lemma advancing_onWifiDisconnected target : advancing target (_onWifiDisconnected target).
Proof.
  unfold _onWifiDisconnected. adv_seq.
Qed.

Lemma advancing_wifiEventHandler target e : advancing target (wifiEventHandler target e).
Proof.
  destruct e; [apply advancing_onWifiConnected | apply advancing_onWifiDisconnected].
Qed.

End Facts.

(** ** Properties of the guard and of the connect request *)

(** [_canConnectToWifi] answers true exactly when an SSID is set, its
    text is not empty, and the driver does not report WL_CONNECTED; in every
    case it changes nothing but the serial output. *)
Theorem canConnectToWifi_spec (w : World) :
  (eval _canConnectToWifi w = true <->
     (exists s, _wifiSsid (this w) = Some s /\ strlen_P s <> 0) /\
     wifi_status (WiFi w) <> WL_CONNECTED) /\
  silent w (exec _canConnectToWifi w).
Proof.
  split; [rewrite eval_canConnect; apply can_connect_true | apply exec_canConnect_silent].
Qed.

(** When the guard holds, [_connect] issues exactly one driver call,
    [WiFi.begin], with the stored SSID, and with the stored passphrase only
    if that is non-empty (an open network otherwise); the handler object is
    left as it was. *)
Theorem connect_issues_begin (w : World) (s : string) :
  _wifiSsid (this w) = Some s -> strlen_P s <> 0 ->
  wifi_status (WiFi w) <> WL_CONNECTED ->
  let pw := if nonempty (_wifiPassword (this w)) then _wifiPassword (this w) else None in
  let w' := exec _connect w in
  wifi_calls (trace w') = Begin s pw :: wifi_calls (trace w) /\
  wifi_config (WiFi w') = Some (s, pw) /\
  this w' = this w.
Proof.
  intros Hs Hlen Hst pw w'.
  assert (Hcan : can_connect w = true) by (apply can_connect_true; eauto).
  assert (Hreq : requested w = Some (Begin s pw)) by (unfold requested; by rewrite Hs).
  destruct (exec_connect_ok w _ Hcan Hreq) as (Ht & _ & Hw & Hc & _).
  subst w'. by rewrite Hw, Hc, Ht.
Qed.

Lemma connect_issues_begin_witness :
  wifi_calls (trace (exec _connect (world_net ESP32)))
  = Begin "net" (Some "pw"%string) :: wifi_calls (trace (world_net ESP32)) /\
  wifi_config (WiFi (exec _connect (world_net ESP32))) = Some ("net"%string, Some "pw"%string) /\
  this (exec _connect (world_net ESP32)) = this (world_net ESP32).
Proof.
  apply (connect_issues_begin (world_net ESP32) "net"); [reflexivity | discriminate..].
Defined.

(** When the guard fails (no SSID, an empty SSID, or the driver reports
    a connection), [_connect] makes no driver call and changes neither the
    handler nor the driver; with logging disabled it changes nothing at all. *)
Theorem connect_refused (w : World) :
  eval _canConnectToWifi w = false ->
  let w' := exec _connect w in
  this w' = this w /\ WiFi w' = WiFi w /\
  wifi_calls (trace w') = wifi_calls (trace w) /\
  (_enableSerialLogs (this w) = false -> w' = w).
Proof.
  rewrite eval_canConnect. intros Hcan w'.
  pose proof (exec_connect_refused w Hcan) as Hs.
  repeat split; try apply Hs; [by apply silent_wifi_calls | by apply silent_nolog].
Qed.

Lemma connect_refused_witness :
  this (exec _connect (world_up ESP8266)) = this (world_up ESP8266) /\
  WiFi (exec _connect (world_up ESP8266)) = WiFi (world_up ESP8266) /\
  wifi_calls (trace (exec _connect (world_up ESP8266))) = wifi_calls (trace (world_up ESP8266)) /\
  (_enableSerialLogs (this (world_up ESP8266)) = false ->
   exec _connect (world_up ESP8266) = world_up ESP8266).
Proof. apply (connect_refused (world_up ESP8266)). reflexivity. Defined.

(** C31: [_connect] on both branches.  It never changes the handler
    object.  When the guard holds (an SSID is set, its text is not empty,
    the driver reports no connection) it issues exactly one driver call,
    [WiFi.begin], with the stored SSID, and with the stored passphrase only
    if that is non-empty (an open network otherwise).  When the guard
    fails it makes no driver call and leaves the driver as it was; with
    logging disabled it changes nothing at all. *)
Theorem connect_spec (w : World) :
  let w' := exec _connect w in
  this w' = this w /\
  if can_connect w then
    exists s,
      _wifiSsid (this w) = Some s /\
      let pw := if nonempty (_wifiPassword (this w)) then _wifiPassword (this w) else None in
      wifi_calls (trace w') = Begin s pw :: wifi_calls (trace w) /\
      wifi_config (WiFi w') = Some (s, pw)
  else
    WiFi w' = WiFi w /\ wifi_calls (trace w') = wifi_calls (trace w) /\
    (_enableSerialLogs (this w) = false -> w' = w).
Proof.
  destruct (can_connect w) eqn:Hcan; cbv zeta.
  - pose proof Hcan as [(s & Hs & Hlen) Hst]%can_connect_true.
    destruct (connect_issues_begin w s Hs Hlen Hst) as (? & ? & ?). eauto.
  - rewrite <- eval_canConnect in Hcan. destruct (connect_refused w Hcan) as (? & ? & ? & ?).
    eauto.
Qed.
