(* ===== verification/Methods.v ===== *)
(** * Methods: what each method of the handler does, branch by branch

    For every method of [EspSimpleWifiHandler] that changes the handler or
    talks to the driver: the driver calls it makes, in order, their effect
    on the driver, and what it does to the two timers.  The guards
    ([_canConnectToWifi], [_autoReconnect], a callback being set) split
    each statement into the branches of the code. *)

From Stdlib Require Import ZArith Lia String List Bool.
From stdpp Require Import base tactics option list.
From S2P Require Import Prelude Timers Radio Handler Trace HandlerFacts.
Import ListNotations.

(** The driver calls of [_reset], newest first, when the mode is [m]. *)
Definition reset_calls (target : Target) (m : Z) : list WiFiCall :=
  match target with
  | ESP8266 => [Mode WIFI_STA; Disconnect8266 true]
  | ESP32 =>
      if (Z.land m WIFI_MODE_STA =? 0)%Z
      then [Mode m; Disconnect32 false true; Mode WIFI_STA]
      else [Disconnect32 false true]
  end.

(** The driver call by which [beginConnection] applies the host name. *)
Definition hostname_calls (target : Target) (hostname : option string) : list WiFiCall :=
  match hostname with
  | Some name =>
      [match target with ESP32 => SetHostname name | ESP8266 => Hostname name end]
  | None => []
  end.

(** The driver after the calls [cs], given newest first. *)
Definition WiFi_run (cs : list WiFiCall) (r : WiFiClass) : WiFiClass :=
  foldr WiFi_exec r cs.

(** The handler with both timers stopped. *)
Definition stopped (target : Target) (h : EspSimpleWifiHandler) : EspSimpleWifiHandler :=
  match target with
  | ESP8266 => set_wifiConnectTimer (detach (_wifiConnectTimer h))
                 (set_firstConnectionTimer (detach (_firstConnectionTimer h)) h)
  | ESP32 => set_wifiConnectTimer (xTimerStop (_wifiConnectTimer h))
               (set_firstConnectionTimer (xTimerStop (_firstConnectionTimer h)) h)
  end.

(** The handler with the connect timer started. *)
Definition scheduled (target : Target) (h : EspSimpleWifiHandler) : EspSimpleWifiHandler :=
  match target with
  | ESP8266 =>
      set_wifiConnectTimer (once WIFI_DELAY_BETWEEN_CONNECTIONS CbConnect (_wifiConnectTimer h)) h
  | ESP32 => set_wifiConnectTimer (xTimerStart (_wifiConnectTimer h)) h
  end.

(** Close a branch of a symbolic run: the conditions met are in the
    context; they contradict each other or decide the goal. *)
Ltac by_cases :=
  simpl in *; try congruence;
  repeat match goal with
  | H : ?x = _ |- context [?x] => rewrite H
  end;
  done.

(** ** The timers through their contract

    What scheduling and stopping need of a timer is what [OneShot]
    promises; the facts below are proved once against the contract and
    hold for the Ticker of the ESP8266 and the FreeRTOS timer of the ESP32
    alike. *)
Section Portable.
Context {arm : nat -> TimerCallback -> Ticker TimerCallback -> Ticker TimerCallback}
        {disarm : Ticker TimerCallback -> Ticker TimerCallback}
        {ready : nat -> TimerCallback -> Ticker TimerCallback -> Prop}
        `{!OneShot arm disarm ready}.
Implicit Types h : EspSimpleWifiHandler.

Definition schedule_with h : EspSimpleWifiHandler :=
  set_wifiConnectTimer (arm WIFI_DELAY_BETWEEN_CONNECTIONS CbConnect (_wifiConnectTimer h)) h.

Definition stop_with h : EspSimpleWifiHandler :=
  set_wifiConnectTimer (disarm (_wifiConnectTimer h))
    (set_firstConnectionTimer (disarm (_firstConnectionTimer h)) h).

Definition connect_ready h : Prop :=
  ready WIFI_DELAY_BETWEEN_CONNECTIONS CbConnect (_wifiConnectTimer h).

Lemma schedule_with_armed h :
  connect_ready h -> armed (_wifiConnectTimer (schedule_with h)) = Some (settle_ms, CbConnect).
Proof. intros Hr. destruct h. by apply armed_arm. Qed.

(** Scheduling while an attempt is scheduled starts the delay afresh: one
    timer, one pending callback. *)
Lemma schedule_with_idem h :
  connect_ready h -> schedule_with (schedule_with h) = schedule_with h.
Proof. intros Hr. destruct h. unfold schedule_with. simpl. by rewrite arm_arm. Qed.

Lemma schedule_with_oneshot h :
  connect_ready h -> armed (fired (_wifiConnectTimer (schedule_with h))) = None.
Proof. intros Hr. destruct h. by apply oneshot_arm. Qed.

Lemma schedule_with_ready h : connect_ready h -> connect_ready (schedule_with h).
Proof. unfold connect_ready. destruct h. simpl. apply ready_arm. Qed.

Lemma stop_with_idle h : timers_idle (stop_with h).
Proof. destruct h. split; simpl; apply armed_disarm. Qed.

Lemma stop_with_ready h : connect_ready h -> connect_ready (stop_with h).
Proof. unfold connect_ready. destruct h. simpl. apply ready_disarm. Qed.

End Portable.

(** The timer operations of each platform. *)
Definition arm_of (target : Target) :
    nat -> TimerCallback -> Ticker TimerCallback -> Ticker TimerCallback :=
  match target with
  | ESP8266 => once
  | ESP32 => fun _ _ => xTimerStart
  end.

Definition disarm_of (target : Target) : Ticker TimerCallback -> Ticker TimerCallback :=
  match target with
  | ESP8266 => detach
  | ESP32 => xTimerStop
  end.

Definition ready_of (target : Target) :
    nat -> TimerCallback -> Ticker TimerCallback -> Prop :=
  match target with
  | ESP8266 => fun _ _ _ => True
  | ESP32 => created_for
  end.

#[export] Instance target_OneShot (target : Target) :
  OneShot (arm_of target) (disarm_of target) (ready_of target).
Proof. destruct target; apply _. Qed.

Section Methods.
Variable target : Target.
Implicit Types (w : World) (h : EspSimpleWifiHandler) (r : WiFiClass).

(** ** [_reset] *)

Lemma exec_reset w :
  let w' := exec (_reset target) w in
  this w' = this w /\ millis w' = millis w /\
  WiFi w' = WiFi_run (reset_calls target (wifi_mode (WiFi w))) (WiFi w) /\
  wifi_calls (trace w') = reset_calls target (wifi_mode (WiFi w)) ++ wifi_calls (trace w) /\
  callbacks_run (trace w') = callbacks_run (trace w).
Proof.
  destruct target, w as [[] [] ? ?]; unfold reset_calls, stopped, scheduled; hrun; by_cases.
Qed.

Lemma WiFi_run_reset r :
  let r' := WiFi_run (reset_calls target (wifi_mode r)) r in
  WiFi_connected r' = false /\ wifi_config r' = None /\
  wifi_mode r' = match target with ESP8266 => WIFI_STA | ESP32 => wifi_mode r end.
Proof.
  destruct target, r as [m s c h ip g d]; unfold reset_calls;
    cbn [wifi_mode]; [by destruct s|].
  destruct (Z.land m WIFI_MODE_STA =? 0)%Z eqn:E;
    unfold WiFi_run, foldr, WiFi_exec, WiFi_mode, WiFi_disconnect32, has_sta;
    cbn [wifi_mode]; rewrite ?E; simpl; by destruct s.
Qed.

(** The handlers registered with the driver survive any driver call. *)
Lemma registered_run cs r e : registered e r = true -> registered e (WiFi_run cs r) = true.
Proof. induction cs; simpl; eauto using registered_exec. Qed.

(** ** Timers *)

Lemma scheduled_schedule_with h :
  scheduled target h = schedule_with (arm := arm_of target) h.
Proof. by destruct target. Qed.

Lemma stopped_stop_with h : stopped target h = stop_with (disarm := disarm_of target) h.
Proof. by destruct target. Qed.

(** A well-formed handler meets what its platform's timers need. *)
Lemma wf_connect_ready h : wf target h -> connect_ready (ready := ready_of target) h.
Proof.
  intros (_ & Hok & Hsome). destruct target; [done|]. destruct Hsome as [_ [tm Htm]].
  unfold connect_ready. rewrite Htm in *. by apply timer_ok_created.
Qed.

Lemma stopped_idle h : timers_idle (stopped target h).
Proof. rewrite stopped_stop_with. apply stop_with_idle. Qed.

Lemma scheduled_armed h :
  wf target h -> armed (_wifiConnectTimer (scheduled target h)) = Some (settle_ms, CbConnect).
Proof.
  intros Hwf. rewrite scheduled_schedule_with. by apply schedule_with_armed, wf_connect_ready.
Qed.

Lemma scheduled_idem h :
  wf target h -> scheduled target (scheduled target h) = scheduled target h.
Proof.
  intros Hwf. rewrite !scheduled_schedule_with. by apply schedule_with_idem, wf_connect_ready.
Qed.

Lemma scheduled_oneshot h :
  wf target h -> armed (fired (_wifiConnectTimer (scheduled target h))) = None.
Proof.
  intros Hwf. rewrite scheduled_schedule_with. by apply schedule_with_oneshot, wf_connect_ready.
Qed.

Lemma scheduled_first h :
  _firstConnectionTimer (scheduled target h) = _firstConnectionTimer h.
Proof. by destruct target, h. Qed.

Lemma wf_stopped h : wf target h -> wf target (stopped target h).
Proof. destruct target, h; intros; unfold stopped; wf_tac. Qed.

Lemma exec_stopTimers w :
  exec (stopTimers target) w = set_this (stopped target (this w)) w.
Proof. by destruct target, w as [[] ? ? ?]. Qed.

(** Stopping and starting timers changes no other member. *)
Lemma scheduled_members h :
  let h' := scheduled target h in
  _wifiSsid h' = _wifiSsid h /\ _wifiPassword h' = _wifiPassword h /\
  _hostname h' = _hostname h /\ _autoReconnect h' = _autoReconnect h /\
  _enableSerialLogs h' = _enableSerialLogs h /\
  _connectionEstablishedCallback h' = _connectionEstablishedCallback h /\
  _connectionLostCallback h' = _connectionLostCallback h.
Proof. by destruct target, h. Qed.

Lemma stopped_members h :
  let h' := stopped target h in
  _wifiSsid h' = _wifiSsid h /\ _wifiPassword h' = _wifiPassword h /\
  _hostname h' = _hostname h /\ _autoReconnect h' = _autoReconnect h /\
  _enableSerialLogs h' = _enableSerialLogs h /\
  _connectionEstablishedCallback h' = _connectionEstablishedCallback h /\
  _connectionLostCallback h' = _connectionLostCallback h.
Proof. by destruct target, h. Qed.

Lemma wf_scheduled h : wf target h -> wf target (scheduled target h).
Proof. destruct target, h; intros; unfold scheduled; wf_tac. Qed.

(** ** Driver calls in sequence *)

Lemma WiFi_run_app cs1 cs2 r : WiFi_run (cs1 ++ cs2) r = WiFi_run cs1 (WiFi_run cs2 r).
Proof. apply foldr_app. Qed.

Lemma wifi_mode_hostname_calls hostname r :
  wifi_mode (WiFi_run (hostname_calls target hostname) r) = wifi_mode r.
Proof. by destruct target, hostname. Qed.

(** After a reset, whatever came before, the driver reports no connection. *)
Lemma WiFi_run_reset_connected cs r :
  wifi_mode (WiFi_run cs r) = wifi_mode r ->
  WiFi_connected (WiFi_run (reset_calls target (wifi_mode r) ++ cs) r) = false.
Proof. intros <-. rewrite WiFi_run_app. apply WiFi_run_reset. Qed.

(** ** [_scheduleConnection] *)

Lemma exec_scheduleConnection w :
  let w' := exec (_scheduleConnection target) w in
  this w' = scheduled target (this w) /\ millis w' = millis w /\
  WiFi w' = WiFi_run (reset_calls target (wifi_mode (WiFi w))) (WiFi w) /\
  wifi_calls (trace w') = reset_calls target (wifi_mode (WiFi w)) ++ wifi_calls (trace w) /\
  callbacks_run (trace w') = callbacks_run (trace w).
Proof.
  destruct target, w as [[] [] ? ?]; unfold reset_calls, stopped, scheduled; hrun; by_cases.
Qed.

(** ** [beginConnection] *)

Lemma exec_beginConnection_refused w :
  can_connect w = false -> silent w (exec (beginConnection target) w).
Proof. intros ?. hrun; try done; silent_tac. Qed.

Lemma exec_beginConnection_ok w :
  can_connect w = true ->
  let w' := exec (beginConnection target) w in
  this w' = scheduled target (stopped target (this w)) /\ millis w' = millis w /\
  WiFi w' = WiFi_run (reset_calls target (wifi_mode (WiFi w)) ++
                      hostname_calls target (_hostname (this w))) (WiFi w) /\
  wifi_calls (trace w') =
    reset_calls target (wifi_mode (WiFi w)) ++
    hostname_calls target (_hostname (this w)) ++ wifi_calls (trace w) /\
  callbacks_run (trace w') = callbacks_run (trace w).
Proof.
  intros ?. destruct target, w as [[] [] ? ?]; unfold reset_calls, stopped, scheduled; hrun; by_cases.
Qed.

(** ** [disconnect] *)

Lemma exec_disconnect w :
  let w' := exec (disconnect target) w in
  this w' = set_autoReconnect false (stopped target (this w)) /\ millis w' = millis w /\
  WiFi w' = WiFi_run (reset_calls target (wifi_mode (WiFi w))) (WiFi w) /\
  wifi_calls (trace w') = reset_calls target (wifi_mode (WiFi w)) ++ wifi_calls (trace w) /\
  callbacks_run (trace w') = callbacks_run (trace w).
Proof.
  destruct target, w as [[] [] ? ?]; unfold reset_calls, stopped, scheduled; hrun; by_cases.
Qed.

(** ** Event handlers *)

Lemma exec_invoke slot callback w :
  exec (invoke target slot callback) w =
  match callback with
  | Some body => exec (runScript target body) (exec (observe (ObsCallback slot)) w)
  | None => w
  end.
Proof. by destruct callback. Qed.

Lemma exec_onWifiConnected w :
  exec (_onWifiConnected target) w =
  exec (invoke target ConnectionEstablished (_connectionEstablishedCallback (this w)))
    (exec (log (Printf "WiFi: Connected (%fs), ip : %s \n"
             [ArgSeconds (millis w); ArgIP (wifi_localIP (WiFi w))])) w).
Proof. destruct w as [[] [] ? ?]; hrun; done. Qed.

Lemma exec_onWifiDisconnected w :
  exec (_onWifiDisconnected target) w =
  exec (invoke target ConnectionLost (_connectionLostCallback (this w)))
    (exec (when (_autoReconnect (this w)) (_scheduleConnection target))
       (exec (log (Printf "WiFi! Lost connection (%fs). \n" [ArgSeconds (millis w)])) w)).
Proof. destruct target, w as [[] [] ? ?]; hrun; done. Qed.

Lemma exec_log_silent p w : silent w (exec (log p) w).
Proof. hrun; silent_tac. Qed.

(** The disassociation handler when reconnection is on and no callback is
    registered: a reset and a scheduled attempt. *)
Lemma exec_onWifiDisconnected_retry w :
  _autoReconnect (this w) = true -> _connectionLostCallback (this w) = None ->
  let w' := exec (_onWifiDisconnected target) w in
  this w' = scheduled target (this w) /\ millis w' = millis w /\
  WiFi w' = WiFi_run (reset_calls target (wifi_mode (WiFi w))) (WiFi w) /\
  wifi_calls (trace w') = reset_calls target (wifi_mode (WiFi w)) ++ wifi_calls (trace w) /\
  callbacks_run (trace w') = callbacks_run (trace w).
Proof.
  intros Hauto Hcb. cbv zeta. rewrite exec_onWifiDisconnected, Hauto, Hcb, exec_invoke, exec_when.
  pose proof (exec_log_silent (Printf "WiFi! Lost connection (%fs). \n" [ArgSeconds (millis w)]) w)
    as Hs. pose proof Hs as (Hth & HW & Hm & _).
  destruct (exec_scheduleConnection
              (exec (log (Printf "WiFi! Lost connection (%fs). \n" [ArgSeconds (millis w)])) w))
    as (-> & -> & -> & -> & ->).
  by rewrite Hth, HW, Hm, (silent_wifi_calls _ _ Hs), (silent_callbacks_run _ _ Hs).
Qed.

(** User code makes no callback entry of its own: callbacks are run by
    the event handlers only. *)
Lemma callbacks_run_api a w :
  callbacks_run (trace (exec (api target a) w)) = callbacks_run (trace w).
Proof.
  destruct a; try done.
  - destruct (can_connect w) eqn:E.
    + apply (exec_beginConnection_ok w E).
    + apply silent_callbacks_run, exec_beginConnection_refused, E.
  - apply exec_disconnect.
Qed.

Lemma callbacks_run_runScript body w :
  callbacks_run (trace (exec (runScript target body) w)) = callbacks_run (trace w).
Proof.
  revert w. induction body as [|a body IH]; intros w; simpl; [done|].
  by rewrite exec_bind, IH, callbacks_run_api.
Qed.

Lemma callbacks_run_invoke slot callback w :
  callbacks_run (trace (exec (invoke target slot callback) w)) =
  match callback with Some _ => [slot] | None => [] end ++ callbacks_run (trace w).
Proof.
  rewrite exec_invoke. destruct callback; [|done]. by rewrite callbacks_run_runScript.
Qed.

(** ** Construction *)

Lemma first_timer_created :
  let t := xTimerCreate (pdMS_TO_TICKS (Z.of_nat (WIFI_DELAY_BEFORE_FIRST_CONNECTION * 1000)))
             false CbBeginConnection in
  timer_ok WIFI_DELAY_BEFORE_FIRST_CONNECTION CbBeginConnection t /\ is_Some t.
Proof. split; [apply timer_ok_xTimerCreate | apply is_Some_xTimerCreate]; cbv; lia || done. Qed.

Lemma connect_timer_created :
  let t := xTimerCreate (pdMS_TO_TICKS (Z.of_nat (WIFI_DELAY_BETWEEN_CONNECTIONS * 1000)))
             false CbConnect in
  timer_ok WIFI_DELAY_BETWEEN_CONNECTIONS CbConnect t /\ is_Some t.
Proof. split; [apply timer_ok_xTimerCreate | apply is_Some_xTimerCreate]; cbv; lia || done. Qed.

Lemma wf_new ssid password hostname autoConnect wifi now :
  wf target (this (new target ssid password hostname autoConnect wifi now)).
Proof.
  destruct first_timer_created, connect_timer_created.
  unfold new, wf. destruct target, autoConnect; hcbv;
    repeat match goal with
    | |- context [xTimerCreate ?p ?r ?c] => generalize dependent (xTimerCreate p r c); intros
    end;
    (split; [|split]); auto with wifi.
Qed.

Lemma new_members ssid password hostname autoConnect wifi now :
  let h := this (new target ssid password hostname autoConnect wifi now) in
  _wifiSsid h = ssid /\ _wifiPassword h = password /\ _hostname h = hostname /\
  _autoReconnect h = true /\ _enableSerialLogs h = false /\
  _connectionEstablishedCallback h = None /\ _connectionLostCallback h = None.
Proof. unfold new. by destruct target, autoConnect. Qed.

Lemma new_timers ssid password hostname autoConnect wifi now :
  let h := this (new target ssid password hostname autoConnect wifi now) in
  armed (_firstConnectionTimer h) =
    (if autoConnect
     then Some (WIFI_DELAY_BEFORE_FIRST_CONNECTION * 1000, CbBeginConnection) else None) /\
  armed (_wifiConnectTimer h) = None.
Proof. unfold new. by destruct target, autoConnect. Qed.

Lemma new_platform ssid password hostname autoConnect wifi now :
  let w := new target ssid password hostname autoConnect wifi now in
  millis w = now /\ begins (trace w) = [] /\ callbacks_run (trace w) = [] /\
  WiFi w = WiFi_onEvent STA_DISCONNECTED (WiFi_onEvent STA_GOT_IP wifi).
Proof. unfold new. by destruct target, autoConnect. Qed.

End Methods.

(** * The methods, as theorems *)

(** C34: [_reset] leaves the driver without an association and without a
    stored network.  On the ESP32 the mode it finds is the mode it leaves
    (station mode is enabled only for the time of the disconnect call); on
    the ESP8266 the mode it leaves is [WIFI_STA], whatever it was. *)
Theorem reset_effect (target : Target) (w : World) :
  let w' := exec (_reset target) w in
  WiFi_connected (WiFi w') = false /\ wifi_config (WiFi w') = None /\
  wifi_mode (WiFi w') =
    match target with ESP8266 => WIFI_STA | ESP32 => wifi_mode (WiFi w) end /\
  wifi_calls (trace w') = reset_calls target (wifi_mode (WiFi w)) ++ wifi_calls (trace w) /\
  this w' = this w.
Proof.
  destruct (exec_reset target w) as (Hth & _ & HW & Hc & _).
  destruct (WiFi_run_reset target (WiFi w)) as (? & ? & ?).
  simpl. by rewrite HW.
Qed.

(** [_scheduleConnection] resets the radio and arms the connect timer
    for [WIFI_DELAY_BETWEEN_CONNECTIONS] seconds from now, also when it was
    already running; the first-connection timer is left as it is. *)
Theorem scheduleConnection_arms (target : Target) (w : World) :
  wf target (this w) ->
  let w' := exec (_scheduleConnection target) w in
  armed (_wifiConnectTimer (this w')) =
    Some (WIFI_DELAY_BETWEEN_CONNECTIONS * 1000, CbConnect) /\
  _firstConnectionTimer (this w') = _firstConnectionTimer (this w) /\
  wifi_calls (trace w') = reset_calls target (wifi_mode (WiFi w)) ++ wifi_calls (trace w) /\
  WiFi_connected (WiFi w') = false.
Proof.
  intros Hwf. destruct (exec_scheduleConnection target w) as (Hth & _ & HW & Hcalls & _).
  destruct (WiFi_run_reset target (WiFi w)) as (Hc & _ & _).
  simpl. by rewrite HW, Hth, scheduled_armed, scheduled_first.
Qed.

Lemma scheduleConnection_arms_witness :
  let w' := exec (_scheduleConnection ESP32) (world_net ESP32) in
  armed (_wifiConnectTimer (this w')) =
    Some (WIFI_DELAY_BETWEEN_CONNECTIONS * 1000, CbConnect) /\
  _firstConnectionTimer (this w') = _firstConnectionTimer (this (world_net ESP32)) /\
  wifi_calls (trace w') =
    reset_calls ESP32 (wifi_mode (WiFi (world_net ESP32))) ++
    wifi_calls (trace (world_net ESP32)) /\
  WiFi_connected (WiFi w') = false.
Proof. exact (scheduleConnection_arms ESP32 (world_net ESP32) (wf_new ESP32 _ _ _ _ _ _)). Defined.

(** C16: When an SSID is set and the driver reports no connection,
    [beginConnection] stops both timers, applies the host name if one is
    set, resets the radio and arms the connect timer for the full delay:
    afterwards the first-connection timer is disarmed and exactly the
    connect timer is armed.  No connect request is made yet. *)
Theorem beginConnection_schedules (target : Target) (w : World) :
  can_connect w = true -> wf target (this w) ->
  let w' := exec (beginConnection target) w in
  armed (_firstConnectionTimer (this w')) = None /\
  armed (_wifiConnectTimer (this w')) =
    Some (WIFI_DELAY_BETWEEN_CONNECTIONS * 1000, CbConnect) /\
  wifi_calls (trace w') =
    reset_calls target (wifi_mode (WiFi w)) ++
    hostname_calls target (_hostname (this w)) ++ wifi_calls (trace w) /\
  _autoReconnect (this w') = _autoReconnect (this w).
Proof.
  intros Hc Hwf. destruct (exec_beginConnection_ok target w Hc) as (Hth & _ & _ & Hcalls & _).
  simpl. rewrite Hth, scheduled_armed, scheduled_first by by apply wf_stopped.
  repeat split; [apply stopped_idle | done | by destruct target, (this w)].
Qed.

Lemma beginConnection_schedules_witness :
  let w' := exec (beginConnection ESP8266) (world_net ESP8266) in
  armed (_firstConnectionTimer (this w')) = None /\
  armed (_wifiConnectTimer (this w')) =
    Some (WIFI_DELAY_BETWEEN_CONNECTIONS * 1000, CbConnect) /\
  wifi_calls (trace w') =
    reset_calls ESP8266 (wifi_mode (WiFi (world_net ESP8266))) ++
    hostname_calls ESP8266 (_hostname (this (world_net ESP8266))) ++
    wifi_calls (trace (world_net ESP8266)) /\
  _autoReconnect (this w') = _autoReconnect (this (world_net ESP8266)).
Proof.
  exact (beginConnection_schedules ESP8266 (world_net ESP8266) eq_refl
           (wf_new ESP8266 _ _ _ _ _ _)).
Defined.

(** C29: When no SSID is set, or it is empty, or the driver reports a
    connection, [beginConnection] does nothing: the handler, its timers and
    the driver are unchanged and no driver call is made; it prints one line
    if logging is enabled. *)
Theorem beginConnection_refused (target : Target) (w : World) :
  can_connect w = false ->
  let w' := exec (beginConnection target) w in
  this w' = this w /\ WiFi w' = WiFi w /\
  wifi_calls (trace w') = wifi_calls (trace w) /\
  (_enableSerialLogs (this w) = false -> w' = w).
Proof.
  intros Hc. pose proof (exec_beginConnection_refused target w Hc) as Hs.
  pose proof Hs as (? & ? & _). simpl.
  repeat split; [done | done | by apply silent_wifi_calls | intros; by apply silent_nolog].
Qed.

Lemma beginConnection_refused_witness :
  let w' := exec (beginConnection ESP32) (world_unset ESP32) in
  this w' = this (world_unset ESP32) /\ WiFi w' = WiFi (world_unset ESP32) /\
  wifi_calls (trace w') = wifi_calls (trace (world_unset ESP32)) /\
  (_enableSerialLogs (this (world_unset ESP32)) = false -> w' = world_unset ESP32).
Proof. exact (beginConnection_refused ESP32 (world_unset ESP32) eq_refl). Defined.

(** C30: [disconnect] clears [_autoReconnect], disarms both timers and
    resets the radio: afterwards the driver reports no connection and has
    no stored network, and no connect request was made. *)
Theorem disconnect_spec (target : Target) (w : World) :
  let w' := exec (disconnect target) w in
  _autoReconnect (this w') = false /\ timers_idle (this w') /\
  WiFi_connected (WiFi w') = false /\ wifi_config (WiFi w') = None /\
  wifi_calls (trace w') = reset_calls target (wifi_mode (WiFi w)) ++ wifi_calls (trace w).
Proof.
  destruct (exec_disconnect target w) as (Hth & _ & HW & Hcalls & _).
  destruct (WiFi_run_reset target (WiFi w)) as (? & ? & _).
  simpl. rewrite Hth, HW. repeat split; try done.
  all: destruct target, (this w); simpl; auto using armed_xTimerStop.
Qed.

(** C35: The constructor stores its arguments, leaves [_autoReconnect] set
    and logging off, registers both event handlers, makes no connect
    request, and arms the first-connection timer for
    [WIFI_DELAY_BEFORE_FIRST_CONNECTION] seconds exactly when [autoConnect]
    is set; the connect timer is not armed. *)
Theorem constructor_spec (target : Target) (ssid password hostname : option string)
    (autoConnect : bool) (wifi : WiFiClass) (now : nat) :
  let w := new target ssid password hostname autoConnect wifi now in
  _wifiSsid (this w) = ssid /\ _wifiPassword (this w) = password /\
  _hostname (this w) = hostname /\ _autoReconnect (this w) = true /\
  armed (_firstConnectionTimer (this w)) =
    (if autoConnect
     then Some (WIFI_DELAY_BEFORE_FIRST_CONNECTION * 1000, CbBeginConnection) else None) /\
  armed (_wifiConnectTimer (this w)) = None /\
  (forall e, registered e (WiFi w) = true) /\
  begins (trace w) = [].
Proof.
  destruct (new_members target ssid password hostname autoConnect wifi now)
    as (? & ? & ? & ? & _).
  destruct (new_timers target ssid password hostname autoConnect wifi now) as (? & ?).
  destruct (new_platform target ssid password hostname autoConnect wifi now)
    as (_ & ? & _ & HW).
  simpl. repeat split; try done. intros []; by rewrite HW.
Qed.

(** The callback slot an event is reported through. *)
Definition slot_of (e : WiFiEvent) : CallbackSlot :=
  match e with
  | STA_GOT_IP => ConnectionEstablished
  | STA_DISCONNECTED => ConnectionLost
  end.

Definition callback_in (e : WiFiEvent) (h : EspSimpleWifiHandler) : Callback :=
  match e with
  | STA_GOT_IP => _connectionEstablishedCallback h
  | STA_DISCONNECTED => _connectionLostCallback h
  end.

(** C32: [_onWifiDisconnected] on both branches.  The handler prints its
    line, schedules the retry if [_autoReconnect] is set, and only then
    runs the user's callback, which starts in a state [w2] that has made
    no connect request.  With [_autoReconnect] set, in [w2] the radio has
    been reset and the connect timer is armed for the full delay, the
    first-connection timer being left as it is; with [_autoReconnect]
    cleared, in [w2] the handler and the driver are as they were and no
    driver call has been made. *)
Theorem onWifiDisconnected_spec (target : Target) (w : World) :
  wf target (this w) ->
  exists w2,
    exec (_onWifiDisconnected target) w =
      exec (invoke target ConnectionLost (_connectionLostCallback (this w))) w2 /\
    begins (trace w2) = begins (trace w) /\
    _firstConnectionTimer (this w2) = _firstConnectionTimer (this w) /\
    if _autoReconnect (this w) then
      armed (_wifiConnectTimer (this w2)) =
        Some (WIFI_DELAY_BETWEEN_CONNECTIONS * 1000, CbConnect) /\
      wifi_calls (trace w2) = reset_calls target (wifi_mode (WiFi w)) ++ wifi_calls (trace w)
    else
      this w2 = this w /\ WiFi w2 = WiFi w /\ wifi_calls (trace w2) = wifi_calls (trace w).
Proof.
  intros Hwf. set (p := Printf "WiFi! Lost connection (%fs). \n" [ArgSeconds (millis w)]).
  exists (exec (when (_autoReconnect (this w)) (_scheduleConnection target)) (exec (log p) w)).
  split; [apply exec_onWifiDisconnected|].
  pose proof (exec_log_silent p w) as Hs. pose proof Hs as (Hth & HW & _).
  rewrite exec_when. destruct (_autoReconnect (this w)).
  - destruct (exec_scheduleConnection target (exec (log p) w)) as (-> & _ & _ & -> & _).
    rewrite Hth, HW, scheduled_armed, scheduled_first, (silent_wifi_calls _ _ Hs) by done.
    repeat split. apply advances_begins with target.
    eapply advances_trans; [apply advancing_log | apply advancing_scheduleConnection].
  - rewrite Hth. repeat split; [apply advances_begins with target, advancing_log | done..
                               | by apply silent_wifi_calls].
Qed.

Lemma onWifiDisconnected_spec_witness :
  let w := exec (api ESP32 (ApiSetAutoReconnect false)) (world_up ESP32) in
  exists w2,
    exec (_onWifiDisconnected ESP32) w =
      exec (invoke ESP32 ConnectionLost (_connectionLostCallback (this w))) w2 /\
    begins (trace w2) = begins (trace w) /\
    _firstConnectionTimer (this w2) = _firstConnectionTimer (this w) /\
    this w2 = this w /\ WiFi w2 = WiFi w /\ wifi_calls (trace w2) = wifi_calls (trace w).
Proof.
  apply (onWifiDisconnected_spec ESP32 (exec (api ESP32 (ApiSetAutoReconnect false))
                                          (world_up ESP32))).
  exact (adv_wf _ _ _ (advancing_api ESP32 (ApiSetAutoReconnect false) (world_up ESP32))
           (wf_new ESP32 _ _ _ _ _ _)).
Defined.

(** An event runs the callback registered for it exactly once, and no
    other: the association event the connection-established callback, the
    disassociation event the connection-lost callback; with no callback
    registered, none is run.  Calls the callback makes run no callback. *)
Theorem event_notifies_once (target : Target) (e : WiFiEvent) (w : World) :
  callbacks_run (trace (exec (wifiEventHandler target e) w)) =
  match callback_in e (this w) with Some _ => [slot_of e] | None => [] end ++
  callbacks_run (trace w).
Proof.
  destruct e; simpl.
  - rewrite exec_onWifiConnected, callbacks_run_invoke.
    by rewrite (silent_callbacks_run _ _ (exec_log_silent _ _)).
  - rewrite exec_onWifiDisconnected, callbacks_run_invoke, exec_when.
    destruct (_autoReconnect (this w)).
    + destruct (exec_scheduleConnection target
        (exec (log (Printf "WiFi! Lost connection (%fs). \n" [ArgSeconds (millis w)])) w))
        as (_ & _ & _ & _ & ->).
      by rewrite (silent_callbacks_run _ _ (exec_log_silent _ _)).
    + by rewrite (silent_callbacks_run _ _ (exec_log_silent _ _)).
Qed.

(** C33: Scheduling a connection while one is already scheduled leaves
    the handler as one scheduling does: the connect timer is armed once,
    for the full delay, and its expiry disarms it, so that two
    disassociation events in a row lead to one pending attempt. *)
Theorem scheduleConnection_idempotent (target : Target) (w : World) :
  wf target (this w) ->
  let w1 := exec (_scheduleConnection target) w in
  let w2 := exec (_scheduleConnection target) w1 in
  this w2 = this w1 /\
  armed (_wifiConnectTimer (this w2)) =
    Some (WIFI_DELAY_BETWEEN_CONNECTIONS * 1000, CbConnect) /\
  armed (fired (_wifiConnectTimer (this w2))) = None.
Proof.
  intros Hwf. cbv zeta.
  destruct (exec_scheduleConnection target (exec (_scheduleConnection target) w)) as (-> & _).
  destruct (exec_scheduleConnection target w) as (-> & _).
  rewrite scheduled_idem by done. by rewrite scheduled_armed, scheduled_oneshot.
Qed.

Lemma scheduleConnection_idempotent_witness :
  let w1 := exec (_scheduleConnection ESP32) (world_up ESP32) in
  let w2 := exec (_scheduleConnection ESP32) w1 in
  this w2 = this w1 /\
  armed (_wifiConnectTimer (this w2)) =
    Some (WIFI_DELAY_BETWEEN_CONNECTIONS * 1000, CbConnect) /\
  armed (fired (_wifiConnectTimer (this w2))) = None.
Proof.
  exact (scheduleConnection_idempotent ESP32 (world_up ESP32) (wf_new ESP32 _ _ _ _ _ _)).
Defined.


(** The destructor, as written: on the ESP32 it deletes both timers
    and nothing else, so the two event handlers stay registered with the
    driver although the object they capture is gone, and a later
    disassociation event finds no timer to start; on the ESP8266 its body
    is empty. *)
Theorem destructor_spec (target : Target) (w : World) :
  let w' := exec (destructor target) w in
  WiFi w' = WiFi w /\ trace w' = trace w /\
  (forall e, registered e (WiFi w') = registered e (WiFi w)) /\
  match target with
  | ESP32 =>
      _firstConnectionTimer (this w') = None /\ _wifiConnectTimer (this w') = None /\
      armed (_wifiConnectTimer (this (exec (_scheduleConnection ESP32) w'))) = None
  | ESP8266 => w' = w
  end.
Proof. destruct target, w as [[] [] ? ?]; hrun; by repeat split. Qed.

