(* ===== verification/Serial.v ===== *)
(** * Serial: what the handler writes to the serial port

    With debugging messages enabled the handler prints a line at each
    step: [Serial.println] of a text, or [Serial.printf] of a format with
    the time ([millis() / 1000.0] under [%f]), the SSID or the address of
    the station ([WiFi.localIP().toString()] under [%s]).  The trace keeps
    each statement as written ([Print]); this file gives the characters
    that reach the port.

    - [c_literal] is the value of a string literal of the source (the model
      keeps the text between the quotes, with its escape sequences);
    - [printf] expands the conversions of a format; [put_seconds] is [%f]
      of a number of milliseconds divided by 1000.0, [put_ip] the dotted
      form of an address, [c_str] the string a [char *] points to;
    - [print_ok] says that the arguments of a [printf] are those its format
      asks for, in number and in type;
    - [read_seconds], [read_ip] and [read_connected] read a printed line
      back.

    All output functions take the text that follows as an argument, so
    that a line is built without concatenation and read back by recursion
    on what is left. *)

From Stdlib Require Import ZArith NArith Lia String Ascii List Bool.
From stdpp Require Import base tactics option list pretty.
From S2P Require Import Prelude Timers Radio Handler Trace HandlerFacts Methods.
Import ListNotations.

(** ** Characters and literals *)

Definition LF : ascii := "010"%char.
Definition CR : ascii := "013"%char.

(** The value of a string literal: [\n] is a line feed.  (It is the only
    escape sequence in the source.) *)
Fixpoint c_literal (s : string) : string :=
  match s with
  | String c rest =>
      match rest with
      | String d rest' =>
          if Ascii.eqb c "\" && Ascii.eqb d "n" then String LF (c_literal rest')
          else String c (c_literal rest)
      | EmptyString => String c EmptyString
      end
  | EmptyString => EmptyString
  end.

(** [s] followed by [k]. *)
Fixpoint put_string (s k : string) : string :=
  match s with
  | String c s' => String c (put_string s' k)
  | EmptyString => k
  end.

(** The characters a [const char *] points to: up to the first NUL.  A
    null pointer under [%s] is printed as [(null)] by the C library of both
    platforms. *)
Fixpoint until_NUL (s : string) : string :=
  match s with
  | String c s' => if Ascii.eqb c Ascii.zero then EmptyString else String c (until_NUL s')
  | EmptyString => EmptyString
  end.

Definition c_str (p : option string) : string :=
  match p with
  | Some s => until_NUL s
  | None => "(null)"
  end.

(** ** Numbers *)

(** A decimal digit. *)
Definition put_digit (d : N) (k : string) : string :=
  String (pretty_N_char d) k.

(** An unsigned number in decimal, without leading zeros. *)
Definition put_dec (x : N) (k : string) : string :=
  if decide (x = 0)%N then String "0" k else pretty_N_go x k.

(** [millis()] is an [unsigned long] of 32 bits: it wraps after 49 days. *)
Definition millis32 (ms : nat) : N := (N.of_nat ms mod 2 ^ 32)%N.

(** [%f] of [millis() / 1000.0]: six decimals, of which the last three are
    zero.  (The quotient is a double within 1e-9 of a multiple of
    0.001, so rounding to six decimals gives that multiple.) *)
Definition put_seconds (ms : nat) (k : string) : string :=
  let t := millis32 ms in
  put_dec (t / 1000)
    (String "."
       (put_digit (t / 100 mod 10)
          (put_digit (t / 10 mod 10)
             (put_digit (t mod 10) (String "0" (String "0" (String "0" k))))))).

(** Byte [i] of an address, the first octet in the low byte. *)
Definition octet (i : Z) (ip : Z) : N :=
  Z.to_N (Z.land (Z.shiftr ip (8 * i)) 255).

(** [IPAddress::toString()]. *)
Definition put_ip (ip : Z) (k : string) : string :=
  put_dec (octet 0 ip)
    (String "." (put_dec (octet 1 ip)
       (String "." (put_dec (octet 2 ip)
          (String "." (put_dec (octet 3 ip) k)))))).

(** ** [Serial.printf] and [Serial.println] *)

Definition put_arg (a : PrintArg) (k : string) : string :=
  match a with
  | ArgSeconds ms => put_seconds ms k
  | ArgStr p => put_string (c_str p) k
  | ArgIP ip => put_ip ip k
  end.

(** The format is copied; a [%] and the character after it stand for the
    next argument.  With no argument left nothing is written for it (C
    leaves this case undefined; [print_ok] excludes it). *)
Fixpoint printf (fmt : string) (args : list PrintArg) (k : string) : string :=
  match fmt with
  | String c rest =>
      match rest with
      | String d rest' =>
          if Ascii.eqb c "%" then
            match args with
            | a :: args' => put_arg a (printf rest' args' k)
            | [] => printf rest' [] k
            end
          else String c (printf rest args k)
      | EmptyString => String c k
      end
  | EmptyString => k
  end.

Definition put_print (p : Print) (k : string) : string :=
  match p with
  | Println text => put_string (c_literal text) (String CR (String LF k))
  | Printf fmt args => printf (c_literal fmt) args k
  end.

(** The statements printed, newest first, and the output of one. *)
Definition prints (tr : list Entry) : list Print :=
  omap (fun e => match what e with ObsPrint p => Some p | _ => None end) tr.

Definition line_of (p : Print) : string := put_print p EmptyString.

(** Everything written to the port along a trace, in the order written. *)
Definition serial (tr : list Entry) : string :=
  fold_left (fun k p => put_print p k) (prints tr) EmptyString.

(** ** The arguments a format asks for *)

Inductive Conv :=
| ConvFloat                     (* [%f]: a double *)
| ConvString                    (* [%s]: a pointer to a string *)
| ConvOther (c : ascii).

Definition conv_of (d : ascii) : Conv :=
  if Ascii.eqb d "f" then ConvFloat
  else if Ascii.eqb d "s" then ConvString
  else ConvOther d.

Fixpoint conversions (fmt : string) : list Conv :=
  match fmt with
  | String c rest =>
      match rest with
      | String d rest' =>
          if Ascii.eqb c "%" then conv_of d :: conversions rest' else conversions rest
      | EmptyString => []
      end
  | EmptyString => []
  end.

(** The argument has the type the conversion reads: a double for [%f], a
    pointer to a string, not null, for [%s]. *)
Definition fits (c : Conv) (a : PrintArg) : bool :=
  match c, a with
  | ConvFloat, ArgSeconds _ => true
  | ConvString, ArgStr (Some _) => true
  | ConvString, ArgIP _ => true
  | _, _ => false
  end.

Fixpoint args_fit (cs : list Conv) (args : list PrintArg) : bool :=
  match cs, args with
  | [], [] => true
  | c :: cs', a :: args' => fits c a && args_fit cs' args'
  | _, _ => false
  end.

Definition print_ok (p : Print) : bool :=
  match p with
  | Println _ => true
  | Printf fmt args => args_fit (conversions (c_literal fmt)) args
  end.

Definition entry_ok (e : Entry) : bool :=
  match what e with
  | ObsPrint p => print_ok p
  | _ => true
  end.

(** ** Reading a line back *)

Definition digit_of (c : ascii) : option N :=
  let n := N_of_ascii c in
  if (48 <=? n)%N && (n <=? 57)%N then Some (n - 48)%N else None.

(** The digits at the head of [s], as a number continuing [acc], and the
    rest. *)
Fixpoint read_dec (acc : N) (s : string) : N * string :=
  match s with
  | String c s' =>
      match digit_of c with
      | Some d => read_dec (acc * 10 + d) s'
      | None => (acc, s)
      end
  | EmptyString => (acc, s)
  end.

(** [k] does not go on with a digit. *)
Definition stops (k : string) : Prop :=
  match k with
  | String c _ => digit_of c = None
  | EmptyString => True
  end.

(** [s] without the prefix [p]. *)
Fixpoint expect (p s : string) : option string :=
  match p with
  | EmptyString => Some s
  | String c p' =>
      match s with
      | String d s' => if Ascii.eqb c d then expect p' s' else None
      | EmptyString => None
      end
  end.

Definition read_digit (s : string) : option (N * string) :=
  match s with
  | String c s' => (fun d => (d, s')) <$> digit_of c
  | EmptyString => None
  end.

(** A number of seconds with six decimals, in milliseconds. *)
Definition read_seconds (s : string) : option (N * string) :=
  let '(q, s1) := read_dec 0 s in
  s2 ← expect "." s1;
  '(d1, s3) ← read_digit s2;
  '(d2, s4) ← read_digit s3;
  '(d3, s5) ← read_digit s4;
  s6 ← expect "000" s5;
  Some (q * 1000 + d1 * 100 + d2 * 10 + d3, s6)%N.

(** [IPAddress::fromString]: four octets in decimal, separated by dots. *)
Definition read_octet (s : string) : option (Z * string) :=
  let '(o, s') := read_dec 0 s in
  if (o <=? 255)%N then Some (Z.of_N o, s') else None.

Definition read_ip (s : string) : option (Z * string) :=
  '(o0, s1) ← read_octet s;
  s2 ← expect "." s1;
  '(o1, s3) ← read_octet s2;
  s4 ← expect "." s3;
  '(o2, s5) ← read_octet s4;
  s6 ← expect "." s5;
  '(o3, s7) ← read_octet s6;
  Some (o0 + 256 * (o1 + 256 * (o2 + 256 * o3)), s7)%Z.

(** The time and the address in the line [_onWifiConnected] prints. *)
Definition read_connected (line : string) : option (N * Z) :=
  s1 ← expect "WiFi: Connected (" line;
  '(ms, s2) ← read_seconds s1;
  s3 ← expect "s), ip : " s2;
  '(ip, s4) ← read_ip s3;
  s5 ← expect (String " " (String LF EmptyString)) s4;
  if String.eqb s5 EmptyString then Some (ms, ip) else None.

Arguments put_dec : simpl never.
Arguments put_seconds : simpl never.
Arguments put_ip : simpl never.
Arguments millis32 : simpl never.
Arguments expect : simpl never.

Section Reading.
Implicit Types (x acc d : N) (k s : string) (ip : Z).

(** ** Digits *)

Lemma digit_of_pretty d : (d < 10)%N -> digit_of (pretty_N_char d) = Some d.
Proof.
  intros H.
  assert (d = 0 \/ d = 1 \/ d = 2 \/ d = 3 \/ d = 4 \/ d = 5 \/ d = 6 \/ d = 7 \/ d = 8 \/
          d = 9)%N as Hd by lia.
  repeat destruct Hd as [-> | Hd]; try subst d; reflexivity.
Qed.

Lemma read_put_digit d k : (d < 10)%N -> read_digit (put_digit d k) = Some (d, k).
Proof. intros H. unfold read_digit, put_digit. by rewrite digit_of_pretty. Qed.

Lemma read_dec_digit acc d k :
  (d < 10)%N -> read_dec acc (put_digit d k) = read_dec (acc * 10 + d) k.
Proof. intros H. unfold put_digit. simpl. by rewrite digit_of_pretty. Qed.

Lemma read_dec_stops acc k : stops k -> read_dec acc k = (acc, k).
Proof. destruct k as [|c k]; simpl; [done | by intros ->]. Qed.

Lemma expect_nil s : expect EmptyString s = Some s.
Proof. reflexivity. Qed.

Lemma expect_cons c p s : expect (String c p) (String c s) = expect p s.
Proof. unfold expect at 1. by rewrite Ascii.eqb_refl. Qed.

(** Read what was put: one rewriting step of a reader on its own output. *)
Local Ltac read_step lem :=
  first [ rewrite lem by (done || lia || (apply N.mod_lt; lia))
        | rewrite expect_cons | rewrite expect_nil
        | progress cbn [mbind option_bind] ].

(** ** Decimal numbers *)

(** Reading the digits of [x] appends them to what was read before. *)
Lemma read_dec_go x : forall acc k,
  (0 < x)%N -> exists n, read_dec acc (pretty_N_go x k) = read_dec (acc * 10 ^ n + x) k.
Proof.
  induction (N.lt_wf_0 x) as [x _ IH]. intros acc k Hx.
  rewrite pretty_N_go_step by done. fold (put_digit (x mod 10) k).
  pose proof (N.mod_lt x 10). pose proof (N.div_mod x 10).
  destruct (decide (x / 10 = 0)%N) as [E|E].
  - rewrite E, pretty_N_go_0, read_dec_digit by lia. exists 1%N. f_equal. lia.
  - destruct (IH (x / 10)%N) with (acc := acc) (k := put_digit (x mod 10) k) as [n Hn];
      [apply N.div_lt; lia | lia|].
    rewrite Hn, read_dec_digit by lia. exists (N.succ n). f_equal.
    rewrite N.pow_succ_r'. lia.
Qed.

Lemma read_put_dec x k : stops k -> read_dec 0 (put_dec x k) = (x, k).
Proof.
  intros Hk. unfold put_dec. destruct (decide (x = 0)%N) as [->|Hx].
  - simpl. by apply read_dec_stops.
  - destruct (read_dec_go x 0 k) as [n ->]; [lia|]. by rewrite read_dec_stops.
Qed.

(** ** Seconds *)

Lemma millis32_range ms : (millis32 ms < 2 ^ 32)%N.
Proof. unfold millis32. by apply N.mod_lt. Qed.

Lemma millis32_small ms : (N.of_nat ms < 2 ^ 32)%N -> millis32 ms = N.of_nat ms.
Proof. unfold millis32. apply N.mod_small. Qed.

Lemma read_put_seconds ms k : read_seconds (put_seconds ms k) = Some (millis32 ms, k).
Proof.
  unfold read_seconds, put_seconds. generalize (millis32 ms) as t. intros t.
  rewrite read_put_dec by done. repeat read_step read_put_digit.
  do 2 f_equal. zify. Z.to_euclidean_division_equations. lia.
Qed.

(** ** Addresses *)

Lemma octet_spec i ip :
  (0 <= i)%Z -> (0 <= ip)%Z -> Z.of_N (octet i ip) = ((ip / 2 ^ (8 * i)) mod 256)%Z.
Proof.
  intros Hi Hip. unfold octet. change 255%Z with (Z.ones 8).
  rewrite Z.land_ones, Z.shiftr_div_pow2 by lia. rewrite Z2N.id; [done|].
  apply Z.mod_pos_bound. lia.
Qed.

Lemma octet_le i ip : (0 <= i)%Z -> (0 <= ip)%Z -> (octet i ip <=? 255)%N = true.
Proof.
  intros Hi Hip. apply N.leb_le. pose proof (octet_spec i ip Hi Hip).
  pose proof (Z.mod_pos_bound (ip / 2 ^ (8 * i)) 256). lia.
Qed.

Lemma read_put_octet i ip k :
  (0 <= i)%Z -> (0 <= ip)%Z -> stops k ->
  read_octet (put_dec (octet i ip) k) = Some (((ip / 2 ^ (8 * i)) mod 256)%Z, k).
Proof.
  intros Hi Hip Hk. unfold read_octet.
  by rewrite read_put_dec, octet_le, octet_spec.
Qed.

(** An address of 32 bits is its four octets. *)
Lemma octets_ip ip :
  (0 <= ip < 2 ^ 32)%Z ->
  (ip / 2 ^ (8 * 0) mod 256 +
   256 * (ip / 2 ^ (8 * 1) mod 256 +
          256 * (ip / 2 ^ (8 * 2) mod 256 + 256 * (ip / 2 ^ (8 * 3) mod 256))))%Z = ip.
Proof.
  intros H. change (2 ^ (8 * 0))%Z with 1%Z. change (2 ^ (8 * 1))%Z with 256%Z.
  change (2 ^ (8 * 2))%Z with 65536%Z. change (2 ^ (8 * 3))%Z with 16777216%Z.
  change (2 ^ 32)%Z with 4294967296%Z in H. Z.div_mod_to_equations. lia.
Qed.

Lemma read_put_ip ip k :
  (0 <= ip < 2 ^ 32)%Z -> stops k -> read_ip (put_ip ip k) = Some (ip, k).
Proof.
  intros Hip Hk. unfold read_ip, put_ip.
  repeat read_step read_put_octet. by rewrite octets_ip.
Qed.

(** ** Formats *)

(** A format without conversions is copied as it is. *)
Lemma printf_plain fmt k : conversions fmt = [] -> printf fmt [] k = put_string fmt k.
Proof.
  revert k. induction fmt as [|c fmt IH]; intros k; [done|].
  destruct fmt as [|d fmt]; [done|]. cbn [conversions printf put_string].
  destruct (Ascii.eqb c "%"); [done|]. intros H. f_equal. by apply IH.
Qed.

Lemma prints_app new old : prints (new ++ old) = prints new ++ prints old.
Proof. apply omap_app. Qed.

(** The line [_onWifiConnected] prints, read back. *)
Lemma read_connected_line now ip :
  (0 <= ip < 2 ^ 32)%Z ->
  read_connected
    (line_of (Printf "WiFi: Connected (%fs), ip : %s \n" [ArgSeconds now; ArgIP ip])) =
  Some (millis32 now, ip).
Proof.
  intros Hip. unfold read_connected, line_of. cbn.
  repeat first [read_step read_put_seconds | read_step read_put_ip]. reflexivity.
Qed.

(** A print statement of a handler that has logging enabled is on the
    trace. *)
Lemma prints_log p w :
  _enableSerialLogs (this w) = true -> prints (trace (exec (log p) w)) = p :: prints (trace w).
Proof. intros H. hrun; [done | congruence]. Qed.

End Reading.

(** A driver that reports a connection with the address 192.168.1.1, and
    a handler on it that has debugging messages enabled. *)
Definition wifi_home : WiFiClass :=
  mkWiFi WIFI_MODE_STA WL_CONNECTED (Some ("net"%string, Some "pw"%string)) None 16885952
    false false.

Definition world_verbose (target : Target) : World :=
  exec (enableDebuggingMessages true)
    (new target (Some "net"%string) (Some "pw"%string) None true wifi_home 2500).

(** * The theorem *)



(** The characters of that line. *)
Example connected_line_text :
  serial (trace (exec (_onWifiConnected ESP32) (world_verbose ESP32))) =
  c_literal "WiFi: Connected (2.500000s), ip : 192.168.1.1 \n".
Proof. vm_compute. reflexivity. Qed.
