(* ===== verification/Machine.v ===== *)
(** * Machine: the system as a labelled transition system

    The handler never runs on its own: user code calls its interface, the
    timer service runs the callback of an expired timer, the driver
    dispatches an event to the registered handler.  Between two such
    activations time passes and the radio may change its status.  A [Label]
    names one of these; [step] is the transition function, defined where the
    label is enabled; [Step] is the same as an inductive relation, for
    proofs by inversion; [reachable] are the states reached from a freshly
    constructed handler.

    The environment is unconstrained: any status may follow any other, and
    an event may be delivered whether or not the status agrees with it. *)

From Stdlib Require Import ZArith Lia String List Bool.
From stdpp Require Import base tactics option list.
From S2P Require Import Prelude Timers Radio Handler Trace HandlerFacts.
Import ListNotations.

(** The two timers of the handler. *)
Inductive TimerName :=
| FirstConnectionTimer
| WifiConnectTimer.

Inductive Label :=
| LCall (a : ApiCall)          (* user code calls the public interface *)
| LElapse (ms : nat)           (* [ms] milliseconds pass *)
| LExpire (t : TimerName)      (* the timer service runs an expired timer *)
| LEvent (e : WiFiEvent)       (* the driver dispatches an event *)
| LStatus (s : wl_status_t).   (* the radio's connection status changes *)

Definition timer_of (t : TimerName) (h : EspSimpleWifiHandler) : Ticker TimerCallback :=
  match t with
  | FirstConnectionTimer => _firstConnectionTimer h
  | WifiConnectTimer => _wifiConnectTimer h
  end.

Definition set_timer (t : TimerName) (v : Ticker TimerCallback)
    (h : EspSimpleWifiHandler) : EspSimpleWifiHandler :=
  match t with
  | FirstConnectionTimer => set_firstConnectionTimer v h
  | WifiConnectTimer => set_wifiConnectTimer v h
  end.

(** [d] milliseconds pass: the clock advances and both timers run down. *)
Definition tick (d : nat) (w : World) : World :=
  set_millis (millis w + d)
    (set_this
       (set_firstConnectionTimer (elapse d (_firstConnectionTimer (this w)))
          (set_wifiConnectTimer (elapse d (_wifiConnectTimer (this w))) (this w)))
       w).

(** The timer service takes the callback of timer [t]. *)
Definition fire (t : TimerName) (w : World) : World :=
  set_this (set_timer t (fired (timer_of t (this w))) (this w)) w.

Definition radio (s : wl_status_t) (w : World) : World :=
  set_WiFi (WiFi_set_status s (WiFi w)) w.

Section Machine.
Variable target : Target.

(** One transition; [None] when the label is not enabled. *)
Definition step (l : Label) (w : World) : option World :=
  match l with
  | LCall a => Some (exec (api target a) w)
  | LElapse d => Some (tick d w)
  | LExpire t =>
      match expired (timer_of t (this w)) with
      | Some cb => Some (exec (timerCallback target cb) (fire t w))
      | None => None
      end
  | LEvent e =>
      if registered e (WiFi w) then Some (exec (wifiEventHandler target e) w)
      else None
  | LStatus s => Some (radio s w)
  end.

(** A sequence of transitions, oldest first. *)
Fixpoint run (ls : list Label) (w : World) : option World :=
  match ls with
  | [] => Some w
  | l :: ls' =>
      match step l w with
      | Some w' => run ls' w'
      | None => None
      end
  end.

(** The state after [ls], or [w] itself when [ls] is not enabled. *)
Definition after (ls : list Label) (w : World) : World :=
  default w (run ls w).

Inductive Step : World -> Label -> World -> Prop :=
| StepCall a w :
    Step w (LCall a) (exec (api target a) w)
| StepElapse d w :
    Step w (LElapse d) (tick d w)
| StepExpire t cb w :
    expired (timer_of t (this w)) = Some cb ->
    Step w (LExpire t) (exec (timerCallback target cb) (fire t w))
| StepEvent e w :
    registered e (WiFi w) = true ->
    Step w (LEvent e) (exec (wifiEventHandler target e) w)
| StepStatus s w :
    Step w (LStatus s) (radio s w).

(** The states of a handler's life: constructed on any platform state at
    any time, then any sequence of transitions. *)
Inductive reachable : World -> Prop :=
| reachable_new ssid password hostname autoConnect wifi now :
    reachable (new target ssid password hostname autoConnect wifi now)
| reachable_step w l w' :
    reachable w -> Step w l w' -> reachable w'.

(** ** The function and the relation agree *)

Lemma step_Step l w w' : step l w = Some w' <-> Step w l w'.
Proof.
  split.
  - destruct l; simpl; intros H; repeat case_match; simplify_eq; by constructor.
  - intros []; simpl; by repeat (done || case_match || simplify_eq).
Qed.

Lemma Step_deterministic l w w1 w2 : Step w l w1 -> Step w l w2 -> w1 = w2.
Proof. rewrite <- !step_Step. congruence. Qed.

Lemma run_app ls1 ls2 w :
  run (ls1 ++ ls2) w = run ls1 w ≫= run ls2.
Proof.
  revert w. induction ls1 as [|l ls1 IH]; intros w; simpl; [done|].
  destruct (step l w); simpl; [apply IH | done].
Qed.

Lemma run_app_Some ls1 ls2 w w1 :
  run ls1 w = Some w1 -> run (ls1 ++ ls2) w = run ls2 w1.
Proof. intros H. by rewrite run_app, H. Qed.

Lemma reachable_run ls w w' : reachable w -> run ls w = Some w' -> reachable w'.
Proof.
  revert w. induction ls as [|l ls IH]; simpl; intros w Hw H; [by simplify_eq|].
  destruct (step l w) as [w1|] eqn:E; [|done].
  eapply IH; [|done]. eapply reachable_step; [done | by apply step_Step].
Qed.

Lemma reachable_after ls w : reachable w -> reachable (after ls w).
Proof.
  intros Hw. unfold after. destruct (run ls w) as [w'|] eqn:E; [|done].
  by eapply reachable_run.
Qed.

(** An invariant holds in every reachable state if construction establishes
    it and every transition keeps it. *)
Lemma reachable_ind_inv (I : World -> Prop) :
  (forall ssid pw host auto wifi now, I (new target ssid pw host auto wifi now)) ->
  (forall w l w', reachable w -> I w -> Step w l w' -> I w') ->
  forall w, reachable w -> I w.
Proof. intros Hnew Hstep w Hw. induction Hw; eauto. Qed.

End Machine.

(** *** Runs used to instantiate the theorems *)

(** The first attempt of a handler built with automatic connection: the
    first-connection timer expires, then the connect timer. *)
Definition first_attempt : list Label :=
  [LElapse (WIFI_DELAY_BEFORE_FIRST_CONNECTION * 1000); LExpire FirstConnectionTimer;
   LElapse (WIFI_DELAY_BETWEEN_CONNECTIONS * 1000); LExpire WifiConnectTimer].

(** An attempt succeeds, then the connection is lost. *)
Definition link_lost : list Label :=
  [LStatus WL_CONNECTED; LEvent STA_GOT_IP; LStatus WL_DISCONNECTED; LEvent STA_DISCONNECTED].

(** ** Idle timers *)

Lemma timers_idle_tick d w : timers_idle (this w) -> timers_idle (this (tick d w)).
Proof. intros [H1 H2]. split; simpl; by rewrite armed_elapse, ?H1, ?H2. Qed.

(** No timer of an idle handler can expire. *)
Lemma timers_idle_expired t w : timers_idle (this w) -> expired (timer_of t (this w)) = None.
Proof. intros [? ?]. destruct t; by apply expired_None. Qed.

(** [LCall], [LElapse] and [LStatus] are always enabled. *)
Lemma step_total_call target a w : is_Some (step target (LCall a) w).
Proof. by eexists. Qed.

Lemma step_total_elapse target d w : is_Some (step target (LElapse d) w).
Proof. by eexists. Qed.

Lemma step_expire_None target t w :
  armed (timer_of t (this w)) = None -> step target (LExpire t) w = None.
Proof. intros H. simpl. by rewrite expired_None. Qed.

Lemma step_expire_enabled target t w :
  is_Some (step target (LExpire t) w) <-> exists cb, armed (timer_of t (this w)) = Some (0, cb).
Proof.
  simpl. split.
  - intros [w' H]. destruct (expired _) as [cb|] eqn:E; [|done].
    exists cb. by apply expired_armed.
  - intros [cb H%expired_armed]. rewrite H. by eexists.
Qed.
