(* ===== verification/Invariants.v ===== *)
(** * Invariants: what the methods keep, by the program logic

    Invariants of the state that every method keeps, proved with the Hoare
    rules of [Prelude] along the structure of the methods instead of by
    running them.  The section [Kept] does the work once: an invariant
    kept by the four primitives that change the state (an assignment to
    members, a driver call, a print statement, the invocation of a
    callback) is kept by every method, by the constructor and along every
    run.  It is instantiated twice: the radio mode stays one of the four
    values of [wifi_mode_t] (the mask arithmetic of [_reset] and of the
    driver never leaves two bits), and every [printf] is given the
    arguments its format asks for.  The third invariant, that the
    credentials and the host name are changed by their setters only, is
    not kept by every assignment and has its own lemmas. *)

From Stdlib Require Import ZArith Lia String List Bool.
From stdpp Require Import base tactics option list.
From S2P Require Import Prelude Timers Radio Handler Trace HandlerFacts Methods Serial Machine.
Import ListNotations.

(** The radio mode is a value of [wifi_mode_t]. *)
Definition mode_inv (w : World) : Prop := mode_ok (wifi_mode (WiFi w)).

(** A driver call whose argument is a valid mode. *)
Definition call_ok (c : WiFiCall) : Prop :=
  match c with
  | Mode m => mode_ok m
  | _ => True
  end.

(** Every [printf] on the trace was given the arguments its format asks
    for. *)
Definition prints_ok (w : World) : Prop := forallb entry_ok (trace w) = true.

(** The configuration a user gave: SSID, password, host name. *)
Definition configuration (w : World) : option string * option string * option string :=
  (_wifiSsid (this w), _wifiPassword (this w), _hostname (this w)).

Definition configured_as (c : option string * option string * option string)
    (w : World) : Prop :=
  configuration w = c.

(** A call that does not set the configuration, nor installs a callback
    that would. *)
Fixpoint keeps_configuration (a : ApiCall) : bool :=
  match a with
  | ApiSetWifiInfos _ _ | ApiSetHostname _ => false
  | ApiOnConnectionEstablished callback | ApiOnConnectionLost callback =>
      match callback with
      | Some body => forallb keeps_configuration body
      | None => true
      end
  | _ => true
  end.

Definition callback_keeps_configuration (c : Callback) : bool :=
  match c with
  | Some body => forallb keeps_configuration body
  | None => true
  end.

Definition label_keeps_configuration (l : Label) : bool :=
  match l with
  | LCall a => keeps_configuration a
  | _ => true
  end.

(** The configuration is [c] and no registered callback changes it. *)
Definition config_inv (c : option string * option string * option string)
    (w : World) : Prop :=
  configuration w = c /\
  callback_keeps_configuration (_connectionEstablishedCallback (this w)) = true /\
  callback_keeps_configuration (_connectionLostCallback (this w)) = true.

(** Apply the rule of the program logic that fits the head of the program. *)
Ltac hstep :=
  lazymatch goal with
  | |- preserves _ (bind (gets _) _) => apply preserves_bind_gets; intros ? ?
  | |- preserves _ (bind (member _) _) => apply preserves_bind_gets; intros ? ?
  | |- preserves _ (bind _ _) => apply preserves_bind; [|intros ?]
  | |- preserves _ (ret _) => apply preserves_ret
  | |- preserves _ (gets _) => apply preserves_gets
  | |- preserves _ (member _) => apply preserves_gets
  | |- preserves _ (when _ _) => apply preserves_when
  | |- preserves _ (match ?x with _ => _ end) => destruct x
  end.

(** ** An invariant kept by the primitives is kept by every method

    The methods are built from four primitives that change the state: an
    assignment to members, a driver call, a print statement, the
    invocation of a callback.  An invariant that these keep (for the
    calls and the print statements the methods contain) is kept by every
    method, by the constructor and by every transition. *)
Section Kept.
Variable I : World -> Prop.
Variable C : WiFiCall -> Prop.
Hypothesis I_update : forall f, preserves I (update f).
Hypothesis I_callback : forall slot, preserves I (observe (ObsCallback slot)).
Hypothesis I_call : forall c, C c -> preserves I (call c).
Hypothesis I_log : forall p, print_ok p = true -> preserves I (log p).
Hypothesis C_fixed : forall c, match c with Mode m => m = WIFI_STA | _ => True end -> C c.
Hypothesis C_mode : forall w, I w -> C (Mode (wifi_mode (WiFi w))).
Hypothesis I_tick : forall d w, I w -> I (tick d w).
Hypothesis I_fire : forall t w, I w -> I (fire t w).
Hypothesis I_radio : forall s w, I w -> I (radio s w).

Local Ltac kept_tac :=
  repeat hstep;
  try first [ apply I_update | by apply I_log | apply I_callback
            | by apply I_call, C_fixed | by apply I_call, C_mode ].

Lemma kept_reset target : preserves I (_reset target).
Proof. unfold _reset. kept_tac. Qed.

(** The guard keeps the invariant, and when it lets the caller through an
    SSID is set. *)
Lemma kept_guard :
  hoare I _canConnectToWifi
    (fun ok w => I w /\ (ok = true -> null_or_empty (_wifiSsid (this w)) = false)).
Proof.
  unfold _canConnectToWifi, isConnected, member. intros w Hw.
  rewrite eval_bind, exec_bind, eval_gets, exec_gets.
  destruct (null_or_empty (_wifiSsid (this w))) eqn:E.
  - rewrite eval_bind, exec_bind. split; [by apply I_log | done].
  - rewrite eval_bind, exec_bind, eval_gets, exec_gets.
    destruct (WiFi_connected (WiFi w)); [|done].
    rewrite eval_bind, exec_bind. split; [by apply I_log | done].
Qed.

Lemma kept_canConnectToWifi : preserves I _canConnectToWifi.
Proof. eapply hoare_conseq; [apply kept_guard | done | by intros ? ? []]. Qed.

(** The connect request for an SSID that is set. *)
Lemma kept_request (s : string) :
  preserves I
    (password <- member _wifiPassword ;;
     log (Printf "WiFi: Connecting to %s ... \n" [ArgStr (Some s)]) ;;
     if nonempty password then call (Begin s password) else call (Begin s None)).
Proof. kept_tac. Qed.

Lemma kept_connect : preserves I _connect.
Proof.
  unfold _connect. eapply hoare_bind; [apply kept_guard|].
  intros [|]; simpl; [|by intros w []]. intros w [Hw Hs].
  unfold member at 1. rewrite exec_bind, eval_gets, exec_gets.
  destruct (_wifiSsid (this w)) as [s|]; [|by specialize (Hs eq_refl)].
  by apply (kept_request s).
Qed.

Lemma kept_stopTimers target : preserves I (stopTimers target).
Proof. unfold stopTimers. kept_tac. Qed.

Lemma kept_scheduleConnection target : preserves I (_scheduleConnection target).
Proof. unfold _scheduleConnection. hstep; [apply kept_reset|]. destruct target; apply I_update. Qed.

Lemma kept_beginConnection target : preserves I (beginConnection target).
Proof.
  unfold beginConnection. kept_tac;
    first [apply kept_canConnectToWifi | apply kept_stopTimers | apply kept_scheduleConnection].
Qed.

Lemma kept_disconnect target : preserves I (disconnect target).
Proof. unfold disconnect. kept_tac; first [apply kept_stopTimers | apply kept_reset]. Qed.

Lemma kept_api target a : preserves I (api target a).
Proof.
  destruct a; simpl;
    [unfold enableDebuggingMessages | unfold isConnected | unfold setWifiInfos
    | unfold setHostname | unfold setAutoReconnect | unfold onConnectionEstablished
    | unfold onConnectionLost | apply kept_beginConnection | apply kept_disconnect];
    kept_tac.
Qed.

Lemma kept_runScript target body : preserves I (runScript target body).
Proof. induction body as [|a body IH]; simpl; repeat hstep; [apply kept_api | done]. Qed.

Lemma kept_invoke target slot callback : preserves I (invoke target slot callback).
Proof. unfold invoke. kept_tac. apply kept_runScript. Qed.

Lemma kept_wifiEventHandler target e : preserves I (wifiEventHandler target e).
Proof.
  destruct e; simpl; [unfold _onWifiConnected | unfold _onWifiDisconnected]; kept_tac;
    first [apply kept_invoke | apply kept_scheduleConnection].
Qed.

Lemma kept_timerCallback target cb : preserves I (timerCallback target cb).
Proof. destruct cb; [apply kept_beginConnection | apply kept_connect]. Qed.

Lemma kept_constructor target ssid password hostname autoConnect :
  preserves I (constructor target ssid password hostname autoConnect).
Proof. unfold constructor. destruct target; kept_tac. Qed.

Lemma kept_Step target w l w' : I w -> Step target w l w' -> I w'.
Proof.
  intros Hw. destruct 1 as [a w|d w|t cb w Hcb|e w He|s w]; auto.
  - by apply kept_api.
  - by apply kept_timerCallback, I_fire.
  - by apply kept_wifiEventHandler.
Qed.

Lemma kept_run target ls w w' : I w -> run target ls w = Some w' -> I w'.
Proof.
  revert w. induction ls as [|l ls IH]; simpl; intros w Hw Hrun; [by simplify_eq|].
  destruct (step target l w) as [w1|] eqn:E; [|done]. apply step_Step in E.
  apply (IH w1); [by eapply kept_Step | done].
Qed.

End Kept.

Section Invariants.
Implicit Types (target : Target) (w : World) (c : WiFiCall) (a : ApiCall).

(** ** The radio mode *)

Lemma WiFi_exec_mode_ok c r :
  call_ok c -> mode_ok (wifi_mode r) -> mode_ok (wifi_mode (WiFi_exec c r)).
Proof.
  destruct c as [| [] | [] [] | | | | | |]; simpl; try done;
    unfold WiFi_disconnect32; try case_match; simpl;
    auto using mode_ok_lor, mode_ok_ldiff.
Qed.

Lemma mode_inv_observe o : preserves mode_inv (observe o).
Proof. by apply preserves_modify. Qed.

Lemma mode_inv_update f : preserves mode_inv (update f).
Proof. by apply preserves_modify. Qed.

Lemma mode_inv_call c : call_ok c -> preserves mode_inv (call c).
Proof.
  intros Hc. unfold call. hstep; [apply mode_inv_observe|].
  apply preserves_modify. intros w. by apply WiFi_exec_mode_ok.
Qed.

Lemma mode_inv_log p : preserves mode_inv (log p).
Proof. unfold log. repeat hstep. apply mode_inv_observe. Qed.

Lemma call_ok_fixed c : match c with Mode m => m = WIFI_STA | _ => True end -> call_ok c.
Proof. destruct c; try done. simpl. intros ->. apply mode_ok_WIFI_STA. Qed.

Lemma mode_inv_run target ls w w' : mode_inv w -> run target ls w = Some w' -> mode_inv w'.
Proof.
  apply (kept_run mode_inv call_ok); auto using mode_inv_update, mode_inv_observe,
    mode_inv_call, mode_inv_log, call_ok_fixed.
Qed.

Lemma mode_inv_constructor target ssid password hostname autoConnect :
  preserves mode_inv (constructor target ssid password hostname autoConnect).
Proof.
  apply (kept_constructor mode_inv call_ok); auto using mode_inv_update, mode_inv_observe,
    mode_inv_call, mode_inv_log, call_ok_fixed.
Qed.

(** ** The print statements *)

Lemma prints_ok_observe o :
  match o with ObsPrint p => print_ok p = true | _ => True end ->
  preserves prints_ok (observe o).
Proof.
  intros Ho. apply preserves_modify. intros w Hw. unfold prints_ok in *. simpl.
  rewrite Hw, andb_true_r. unfold entry_ok. simpl. by destruct o.
Qed.

Lemma prints_ok_update f : preserves prints_ok (update f).
Proof. by apply preserves_modify. Qed.

Lemma prints_ok_call c : preserves prints_ok (call c).
Proof. unfold call. hstep; [by apply prints_ok_observe | by apply preserves_modify]. Qed.

Lemma prints_ok_log p : print_ok p = true -> preserves prints_ok (log p).
Proof. intros Hp. unfold log. repeat hstep. by apply prints_ok_observe. Qed.

Lemma prints_ok_run target ls w w' : prints_ok w -> run target ls w = Some w' -> prints_ok w'.
Proof.
  apply (kept_run prints_ok (fun _ => True)); auto using prints_ok_update, prints_ok_call,
    prints_ok_log, prints_ok_observe.
Qed.

Lemma prints_ok_constructor target ssid password hostname autoConnect :
  preserves prints_ok (constructor target ssid password hostname autoConnect).
Proof.
  apply (kept_constructor prints_ok (fun _ => True)); auto using prints_ok_update,
    prints_ok_call, prints_ok_log, prints_ok_observe.
Qed.

Lemma prints_ok_reachable target w : reachable target w -> prints_ok w.
Proof.
  induction 1 as [ssid password hostname autoConnect wifi now | w l w' _ IH HS].
  - by apply prints_ok_constructor.
  - apply step_Step in HS. apply (prints_ok_run target [l] w); [done|]. simpl. by rewrite HS.
Qed.

(** ** The configuration *)

Section Configuration.
Variable c : option string * option string * option string.

Lemma config_inv_observe o : preserves (config_inv c) (observe o).
Proof. by apply preserves_modify. Qed.

Lemma config_inv_call d : preserves (config_inv c) (call d).
Proof. unfold call. hstep; [apply config_inv_observe | by apply preserves_modify]. Qed.

Lemma config_inv_log p : preserves (config_inv c) (log p).
Proof. unfold log. repeat hstep. apply config_inv_observe. Qed.

(** Timer operations touch no other member. *)
Lemma config_inv_first_timer f : preserves (config_inv c) (on_firstConnectionTimer f).
Proof. apply preserves_modify. by intros [[] ? ? ?]. Qed.

Lemma config_inv_connect_timer f : preserves (config_inv c) (on_wifiConnectTimer f).
Proof. apply preserves_modify. by intros [[] ? ? ?]. Qed.

Local Ltac config_tac :=
  repeat hstep;
  try first [ apply config_inv_log | apply config_inv_call | apply config_inv_observe
            | apply config_inv_first_timer | apply config_inv_connect_timer ].

Lemma config_inv_canConnectToWifi : preserves (config_inv c) _canConnectToWifi.
Proof. unfold _canConnectToWifi, isConnected. config_tac. Qed.

Lemma config_inv_connect : preserves (config_inv c) _connect.
Proof. unfold _connect. config_tac; apply config_inv_canConnectToWifi. Qed.

Lemma config_inv_reset target : preserves (config_inv c) (_reset target).
Proof. unfold _reset. config_tac. Qed.

Lemma config_inv_stopTimers target : preserves (config_inv c) (stopTimers target).
Proof. unfold stopTimers. config_tac. Qed.

Lemma config_inv_scheduleConnection target :
  preserves (config_inv c) (_scheduleConnection target).
Proof. unfold _scheduleConnection. config_tac. apply config_inv_reset. Qed.

Lemma config_inv_beginConnection target : preserves (config_inv c) (beginConnection target).
Proof.
  unfold beginConnection. config_tac;
    first [ apply config_inv_canConnectToWifi | apply config_inv_stopTimers
          | apply config_inv_scheduleConnection ].
Qed.

Lemma config_inv_disconnect target : preserves (config_inv c) (disconnect target).
Proof.
  unfold disconnect. config_tac;
    first [ apply config_inv_stopTimers | apply config_inv_reset
          | apply preserves_modify; by intros [[] ? ? ?] ].
Qed.

Lemma config_inv_api target a :
  keeps_configuration a = true -> preserves (config_inv c) (api target a).
Proof.
  intros Ha. destruct a; try done; simpl;
    try (apply preserves_modify; by intros [[] ? ? ?]).
  - apply preserves_modify. intros [[] ? ? ?] (? & ? & ?). by repeat split.
  - apply preserves_modify. intros [[] ? ? ?] (? & ? & ?). by repeat split.
  - apply config_inv_beginConnection.
  - apply config_inv_disconnect.
Qed.

Lemma config_inv_runScript target body :
  forallb keeps_configuration body = true ->
  preserves (config_inv c) (runScript target body).
Proof.
  induction body as [|a body IH]; simpl; [intros; apply preserves_ret|].
  rewrite andb_true_iff. intros [? ?]. hstep; [by apply config_inv_api | auto].
Qed.

Lemma config_inv_invoke target slot callback :
  callback_keeps_configuration callback = true ->
  preserves (config_inv c) (invoke target slot callback).
Proof.
  destruct callback as [body|]; simpl; [|intros; apply preserves_ret].
  intros. hstep; [apply config_inv_observe | by apply config_inv_runScript].
Qed.

Lemma config_inv_wifiEventHandler target e :
  preserves (config_inv c) (wifiEventHandler target e).
Proof.
  destruct e; simpl; [unfold _onWifiConnected | unfold _onWifiDisconnected]; repeat hstep;
    try first [ apply config_inv_log | apply config_inv_scheduleConnection ];
    apply config_inv_invoke;
    match goal with H : config_inv _ _ |- _ => apply H end.
Qed.

Lemma config_inv_Step target w l w' :
  label_keeps_configuration l = true -> config_inv c w -> Step target w l w' ->
  config_inv c w'.
Proof.
  intros Hl Hw. destruct 1 as [a w|d w|t cb w Hcb|e w He|s w]; try done.
  - by apply config_inv_api.
  - destruct cb; simpl; [apply config_inv_beginConnection | apply config_inv_connect];
      by destruct t, w as [[] ? ? ?].
  - by apply config_inv_wifiEventHandler.
Qed.

End Configuration.

End Invariants.

(** * The theorems *)



(** The handler never changes its configuration.  Along any run in
    which user code does not call [setWifiInfos] or [setHostname] (directly
    or from a callback), the SSID, the password and the host name stay the
    ones the handler had: timers, events, [beginConnection], [disconnect]
    and the connect request read them and leave them alone. *)
Theorem configuration_is_kept (target : Target) (ls : list Label) (w w' : World) :
  callback_keeps_configuration (_connectionEstablishedCallback (this w)) = true ->
  callback_keeps_configuration (_connectionLostCallback (this w)) = true ->
  forallb label_keeps_configuration ls = true ->
  run target ls w = Some w' ->
  configuration w' = configuration w.
Proof.
  intros H1 H2. assert (config_inv (configuration w) w) as H0 by done.
  revert H0. generalize (configuration w) as c. clear H1 H2. revert w.
  induction ls as [|l ls IH]; simpl; intros w c Hw Hls Hrun; [simplify_eq; apply Hw|].
  apply andb_true_iff in Hls as [Hl Hls].
  destruct (step target l w) as [w1|] eqn:E; [|done]. apply step_Step in E.
  apply (IH w1); [by eapply config_inv_Step | done | done].
Qed.

Lemma configuration_is_kept_witness :
  configuration (after ESP8266 (first_attempt ++ link_lost ++ [LCall ApiDisconnect])
                   (world_net ESP8266)) =
  configuration (world_net ESP8266).
Proof.
  apply (configuration_is_kept ESP8266 (first_attempt ++ link_lost ++ [LCall ApiDisconnect]));
    [reflexivity | reflexivity | reflexivity | vm_compute; reflexivity].
Defined.


(** A run with debugging messages enabled: the first attempt succeeds and
    the connection is lost. *)
Definition verbose_run : list Label :=
  LCall (ApiEnableDebuggingMessages true) :: first_attempt ++ link_lost.

(** C17: Every [printf] has the arguments its format asks for.  In every
    reachable state, on both platforms, each [Serial.printf] on the trace
    was called with as many arguments as its format has conversions, with
    a double under [%f] and with a string that is not a null pointer under
    [%s].  In particular [_connect] never prints a null SSID: it prints
    after the guard has found one. *)
Theorem printf_arguments_fit (target : Target) (w : World) (p : Print) :
  reachable target w -> p ∈ prints (trace w) -> print_ok p = true.
Proof.
  intros Hw%prints_ok_reachable (e & He & Hp)%list_elem_of_omap.
  unfold prints_ok in Hw. rewrite forallb_forall in Hw.
  specialize (Hw e (proj1 (list_elem_of_In _ _) He)). unfold entry_ok in Hw.
  destruct (what e); by simplify_eq.
Qed.

Lemma printf_arguments_fit_witness :
  print_ok (Printf "WiFi: Connecting to %s ... \n" [ArgStr (Some "net"%string)]) = true.
Proof.
  apply (printf_arguments_fit ESP32 (after ESP32 verbose_run (world_net ESP32))).
  - exact (reachable_after ESP32 verbose_run _ (reachable_new ESP32 _ _ _ _ _ _)).
  - apply (list_elem_of_lookup_2 _ 2). vm_compute. reflexivity.
Defined.

(** What the guard of [_connect] is for: the same statement with a null
    SSID does not fit its format. *)
Example null_ssid_does_not_fit :
  print_ok (Printf "WiFi: Connecting to %s ... \n" [ArgStr None]) = false.
Proof. reflexivity. Qed.
