(* ===== verification/Logging.v ===== *)
(** * Logging: debugging messages change nothing else

    [enableDebuggingMessages] makes the handler print; it must not make it
    behave differently.  Two worlds are [≃]-equivalent when they differ
    only in the logging flag and in the printed lines of the trace.  Every
    method and every transition of the machine respects the equivalence
    ([Proper] instances), so what the handler asks of the driver, its
    timers and the callbacks it runs are the same with logging on and
    off. *)

From Stdlib Require Import ZArith Lia String List Bool Morphisms Setoid.
From stdpp Require Import base tactics option list.
From S2P Require Import Prelude Timers Radio Handler Trace HandlerFacts Methods Machine.
Import ListNotations.

Definition is_print_entry (e : Entry) : bool :=
  match what e with ObsPrint _ => true | _ => false end.

(** The trace without the printed lines. *)
Definition unprinted (tr : list Entry) : list Entry :=
  List.filter (fun e => negb (is_print_entry e)) tr.

(** The world with logging off and nothing printed. *)
Definition mute (w : World) : World :=
  {| this := set_enableSerialLogs false (this w);
     WiFi := WiFi w;
     millis := millis w;
     trace := unprinted (trace w) |}.

(** Equal up to logging. *)
Definition log_equiv (w1 w2 : World) : Prop := mute w1 = mute w2.

Infix "≃" := log_equiv (at level 70, no associativity) : stdpp_scope.

(** What the rest of the system can see of the handler: the driver and
    its calls, the callbacks run, the timers, the clock. *)
Definition behaviour (w : World) :
    WiFiClass * nat * list WiFiCall * list CallbackSlot *
    Ticker TimerCallback * Ticker TimerCallback * bool :=
  (WiFi w, millis w, wifi_calls (trace w), callbacks_run (trace w),
   _firstConnectionTimer (this w), _wifiConnectTimer (this w), _autoReconnect (this w)).

(** A program that does the same with logging on and off. *)
Definition log_blind {A} (m : M World A) : Prop :=
  forall w, mute (exec m w) = mute (exec m (mute w)).

#[export] Instance log_equiv_equivalence : Equivalence log_equiv.
Proof.
  split.
  - by intros w.
  - by intros w1 w2 H.
  - intros w1 w2 w3 H1 H2. unfold log_equiv in *. congruence.
Qed.

Section Logging.
Variable target : Target.
Implicit Types (w : World) (tr : list Entry).

Lemma unprinted_idem tr : unprinted (unprinted tr) = unprinted tr.
Proof.
  unfold unprinted. induction tr as [|e tr IH]; simpl; [done|].
  destruct (negb (is_print_entry e)) eqn:E; simpl; rewrite ?E; by rewrite ?IH.
Qed.

Lemma mute_mute w : mute (mute w) = mute w.
Proof. destruct w as [[] ? ? ?]. unfold mute. simpl. by rewrite unprinted_idem. Qed.

Lemma mute_equiv w : mute w ≃ w.
Proof. apply mute_mute. Qed.

(** A log-blind program respects the equivalence. *)
Lemma log_blind_proper {A} (m : M World A) :
  log_blind m -> Proper (log_equiv ==> log_equiv) (exec m).
Proof. intros Hm w1 w2 H. unfold log_equiv in *. by rewrite Hm, H, <- Hm. Qed.

Lemma log_blind_seq {A B} (m1 : M World A) (m2 : M World B) w :
  log_blind m1 -> log_blind m2 ->
  mute (exec m2 (exec m1 w)) = mute (exec m2 (exec m1 (mute w))).
Proof. intros H1 H2. by rewrite H2, H1, <- H2. Qed.

(** ** The methods *)

Local Ltac blind_tac_at w :=
  destruct w as [[] [] ? ?]; unfold mute; hrun;
  unfold unprinted; simpl; rewrite ?unprinted_idem; try done;
  fold unprinted; by rewrite ?unprinted_idem.

Local Ltac blind_tac :=
  let w := fresh "w" in intros w; blind_tac_at w.

Lemma log_blind_log p : log_blind (log p).
Proof. blind_tac. Qed.

Lemma log_blind_connect : log_blind _connect.
Proof. blind_tac. Qed.

Lemma log_blind_scheduleConnection : log_blind (_scheduleConnection target).
Proof. destruct target; blind_tac. Qed.

Lemma log_blind_beginConnection : log_blind (beginConnection target).
Proof. destruct target; blind_tac. Qed.

Lemma log_blind_disconnect : log_blind (disconnect target).
Proof. destruct target; blind_tac. Qed.

Lemma log_blind_api a : log_blind (api target a).
Proof.
  destruct a; blind_tac.
Qed.

Lemma log_blind_runScript body : log_blind (runScript target body).
Proof.
  induction body as [|a body IH]; intros w; simpl; [symmetry; apply mute_mute|].
  rewrite !exec_bind. apply log_blind_seq; [apply log_blind_api | done].
Qed.

(** What a handler reads before it acts is not the logging flag. *)
Lemma mute_members w :
  _autoReconnect (this (mute w)) = _autoReconnect (this w) /\
  _connectionEstablishedCallback (this (mute w)) = _connectionEstablishedCallback (this w) /\
  _connectionLostCallback (this (mute w)) = _connectionLostCallback (this w) /\
  _firstConnectionTimer (this (mute w)) = _firstConnectionTimer (this w) /\
  _wifiConnectTimer (this (mute w)) = _wifiConnectTimer (this w).
Proof. by destruct w as [[] ? ? ?]. Qed.

Lemma log_blind_invoke slot callback : log_blind (invoke target slot callback).
Proof.
  destruct callback as [body|]; [|intros w; symmetry; apply mute_mute].
  intros w. simpl. rewrite !exec_bind.
  apply log_blind_seq; [blind_tac | apply log_blind_runScript].
Qed.

Lemma log_blind_when b (m : M World unit) : log_blind m -> log_blind (when b m).
Proof. destruct b; [done | intros _ w; symmetry; apply mute_mute]. Qed.

Lemma log_blind_wifiEventHandler e : log_blind (wifiEventHandler target e).
Proof.
  intros w. destruct (mute_members w) as (Hauto & Hest & Hlost & _). destruct e; simpl.
  - rewrite !exec_onWifiConnected, Hest.
    rewrite (log_blind_invoke _ _ (exec _ (mute w))), (log_blind_invoke _ _ (exec _ w)).
    f_equal. f_equal. blind_tac_at w.
  - rewrite !exec_onWifiDisconnected, Hauto, Hlost.
    rewrite (log_blind_invoke _ _ (exec _ (exec _ (mute w)))),
      (log_blind_invoke _ _ (exec _ (exec _ w))).
    f_equal. f_equal.
    rewrite (log_blind_when _ _ log_blind_scheduleConnection (exec _ (mute w))),
      (log_blind_when _ _ log_blind_scheduleConnection (exec _ w)).
    f_equal. f_equal. blind_tac_at w.
Qed.

Lemma log_blind_timerCallback cb : log_blind (timerCallback target cb).
Proof. destruct cb; [apply log_blind_beginConnection | apply log_blind_connect]. Qed.

(** ** The platform *)

Lemma mute_tick d w : mute (tick d w) = tick d (mute w).
Proof. by destruct w as [[] ? ? ?]. Qed.

Lemma mute_fire t w : mute (fire t w) = fire t (mute w).
Proof. by destruct t, w as [[] ? ? ?]. Qed.

Lemma mute_radio st w : mute (radio st w) = radio st (mute w).
Proof. by destruct w as [? [] ? ?]. Qed.

Lemma mute_step l w :
  mute <$> step target l w = mute <$> step target l (mute w).
Proof.
  destruct (mute_members w) as (_ & _ & _ & Hfirst & Hconn).
  destruct l as [a|d|t|e|st]; cbn [step fmap option_fmap option_map].
  - by rewrite log_blind_api.
  - by rewrite !mute_tick, mute_mute.
  - assert (expired (timer_of t (this (mute w))) = expired (timer_of t (this w))) as ->.
    { destruct t; simpl; congruence. }
    destruct (expired _); [|done]. simpl.
    rewrite log_blind_timerCallback, (log_blind_timerCallback _ (fire t (mute w))).
    by rewrite !mute_fire, mute_mute.
  - change (WiFi (mute w)) with (WiFi w). destruct (registered e (WiFi w)); [|done].
    simpl. by rewrite log_blind_wifiEventHandler.
  - by rewrite !mute_radio, mute_mute.
Qed.

End Logging.

(** ** The equivalence is a congruence *)

Lemma wifi_calls_unprinted tr : wifi_calls (unprinted tr) = wifi_calls tr.
Proof.
  unfold wifi_calls, unprinted, is_print_entry.
  induction tr as [|[t c []] tr IH]; simpl; [done|..]; first [exact IH | by f_equal].
Qed.

Lemma callbacks_run_unprinted tr : callbacks_run (unprinted tr) = callbacks_run tr.
Proof.
  unfold callbacks_run, unprinted, is_print_entry.
  induction tr as [|[t c []] tr IH]; simpl; [done|..]; first [exact IH | by f_equal].
Qed.

Lemma behaviour_mute w : behaviour (mute w) = behaviour w.
Proof.
  destruct w as [[] ? ? ?]. unfold behaviour, mute. simpl.
  by rewrite wifi_calls_unprinted, callbacks_run_unprinted.
Qed.

#[export] Instance behaviour_proper : Proper (log_equiv ==> eq) behaviour.
Proof. intros w1 w2 H. by rewrite <- (behaviour_mute w1), H, behaviour_mute. Qed.

#[export] Instance exec_api_proper target a :
  Proper (log_equiv ==> log_equiv) (exec (api target a)).
Proof. apply log_blind_proper, log_blind_api. Qed.

#[export] Instance exec_event_proper target e :
  Proper (log_equiv ==> log_equiv) (exec (wifiEventHandler target e)).
Proof. apply log_blind_proper, log_blind_wifiEventHandler. Qed.

#[export] Instance exec_timer_proper target cb :
  Proper (log_equiv ==> log_equiv) (exec (timerCallback target cb)).
Proof. apply log_blind_proper, log_blind_timerCallback. Qed.

#[export] Instance step_proper target l :
  Proper (log_equiv ==> option_Forall2 log_equiv) (step target l).
Proof.
  intros w1 w2 H.
  assert (mute <$> step target l w1 = mute <$> step target l w2) as E.
  { by rewrite (mute_step target l w1), (mute_step target l w2), H. }
  destruct (step target l w1), (step target l w2); simpl in E; try done;
    constructor. unfold log_equiv. congruence.
Qed.

Lemma run_proper target ls w1 w2 w1' :
  w1 ≃ w2 -> run target ls w1 = Some w1' ->
  exists w2', run target ls w2 = Some w2' /\ w1' ≃ w2'.
Proof.
  revert w1 w2. induction ls as [|l ls IH]; simpl; intros w1 w2 H Hrun.
  - simplify_eq. by exists w2.
  - destruct (step_proper target l w1 w2 H) as [v1 v2 Hv|]; [|done].
    by apply (IH v1 v2).
Qed.

(** * The theorem *)

(** C23: Logging is transparent.  Two handlers that differ only in whether
    debugging messages are enabled (and in what was printed) make the same
    runs: whatever run one can make the other can make, and afterwards they
    agree on the driver's state, on every driver call made, on the
    callbacks run, on both timers and on the reconnection flag, and again
    differ only in logging. *)
Theorem logging_is_transparent (target : Target) (ls : list Label) (w1 w2 w1' : World) :
  w1 ≃ w2 -> run target ls w1 = Some w1' ->
  exists w2', run target ls w2 = Some w2' /\ w1' ≃ w2' /\ behaviour w1' = behaviour w2'.
Proof.
  intros H Hrun. destruct (run_proper target ls w1 w2 w1' H Hrun) as (w2' & Hrun' & H').
  exists w2'. split; [done|]. split; [done|]. by rewrite H'.
Qed.

Lemma logging_is_transparent_witness :
  let w1 := world_net ESP32 in
  let w2 := exec (enableDebuggingMessages true) (world_net ESP32) in
  exists w2', run ESP32 (first_attempt ++ link_lost) w2 = Some w2' /\
    after ESP32 (first_attempt ++ link_lost) w1 ≃ w2' /\
    behaviour (after ESP32 (first_attempt ++ link_lost) w1) = behaviour w2'.
Proof.
  apply (logging_is_transparent ESP32 (first_attempt ++ link_lost) (world_net ESP32));
    [reflexivity | vm_compute; reflexivity].
Defined.

