(* ===== verification/Safety.v ===== *)
(** * Safety: what holds in every reachable state

    [Inv] collects the facts that every transition of the machine keeps:
    the timers are the ones the constructor made, the event handlers stay
    registered, the trace is chronological, every connect request was
    issued while the driver reported no connection and at least
    [settle_ms] after the radio reset before it.  The last needs a fact
    about the present, [inv_settling]: while the connect timer is armed,
    what is left of it covers what is missing of the settle delay.

    The methods that issue no connect request keep [Inv] because they
    [advances]; [_connect] keeps it because it runs when the connect timer
    has expired. *)

From Stdlib Require Import ZArith Lia String List Bool.
From stdpp Require Import base tactics option list.
From S2P Require Import Prelude Timers Radio Handler Trace HandlerFacts Methods Machine.
Import ListNotations.

(** The most recent radio reset is at least [settle_ms] old. *)
Definition settled (w : World) : Prop :=
  forall t, last_reset (trace w) = Some t -> t + settle_ms <= millis w.

Record Inv (target : Target) (w : World) : Prop := {
  inv_wf : wf target (this w);
  inv_registered e : registered e (WiFi w) = true;
  inv_chrono : chrono (millis w) (trace w);
  inv_begin_ok : begin_ok (trace w);
  inv_debounced : debounced (trace w);
  inv_settling t r cb :
    last_reset (trace w) = Some t ->
    armed (_wifiConnectTimer (this w)) = Some (r, cb) ->
    t + settle_ms <= millis w + r
}.

(** The callback each timer was created with. *)
Definition callback_of (t : TimerName) : TimerCallback :=
  match t with
  | FirstConnectionTimer => CbBeginConnection
  | WifiConnectTimer => CbConnect
  end.

Section Safety.
Variable target : Target.
Implicit Types (w : World) (t : TimerName).

(** ** Construction establishes the invariant *)

Lemma Inv_new ssid password hostname autoConnect wifi now :
  Inv target (new target ssid password hostname autoConnect wifi now).
Proof.
  split; [apply wf_new|..]; destruct target, autoConnect; try done;
    try (intros []; reflexivity); by repeat constructor.
Qed.

(** ** The transitions keep it *)

Lemma Inv_advances w w' : advances target w w' -> Inv target w -> Inv target w'.
Proof.
  intros [Hm Hwf Hreg _ (new & Htr & Hst & Hnb & Hc)] [Iwf Ireg Ich Ibo Ideb Iset].
  assert (chrono (millis w') (trace w')) as Hch.
  { rewrite Htr, Hm. by apply chrono_app. }
  split; auto.
  - rewrite Htr. apply begin_ok_app; [by apply begin_ok_no_begin | done].
  - rewrite Htr. by apply debounced_app_no_begin.
  - intros t r cb Ht Ha. destruct Hc as [Hc | [Hc | [Hc Hnr]]].
    + congruence.
    + rewrite Hc in Ha by done. simplify_eq.
      pose proof (last_reset_chrono _ _ _ Hch Ht). lia.
    + rewrite Hm. apply (Iset t r cb); [|congruence].
      by rewrite Htr, last_reset_app_no_reset in Ht.
Qed.

Lemma wf_tick d w : wf target (this w) -> wf target (this (tick d w)).
Proof.
  intros (H1 & H2 & H3). repeat split; simpl; auto with wifi.
  destruct target; [done|]. destruct H3. split; by apply is_Some_elapse.
Qed.

Lemma Inv_tick d w : Inv target w -> Inv target (tick d w).
Proof.
  intros [Iwf Ireg Ich Ibo Ideb Iset]. split; try done.
  - by apply wf_tick.
  - simpl. eapply chrono_le; [done | lia].
  - intros t r cb Ht. simpl. rewrite armed_elapse.
    destruct (armed (_wifiConnectTimer (this w))) as [[r0 cb0]|] eqn:E; [|done].
    intros [= <- <-]. specialize (Iset _ _ _ Ht eq_refl). lia.
Qed.

Lemma Inv_radio s w : Inv target w -> Inv target (radio s w).
Proof.
  intros []. by split.
Qed.

(** Taking the callback of an expired timer disarms it. *)
Lemma advances_fire t w : wf target (this w) -> advances target w (fire t w).
Proof.
  intros Hwf. pose proof Hwf as (H1 & H2 & H3).
  assert (wf target (this (fire t w))) as Hwf'.
  { destruct t; (split; [|split]); simpl; auto using timer_ok_fired;
      destruct target; try done; destruct H3; split; auto using is_Some_fired. }
  split; try done.
  - destruct t; simpl; [left; eauto using timer_ok_armed_fired | by right].
  - exists []. repeat split.
    destruct t; simpl; [by right; right | left; eauto using timer_ok_armed_fired].
Qed.

Lemma settled_fire t w : settled w -> settled (fire t w).
Proof. done. Qed.

Lemma Inv_settled w cb :
  Inv target w -> expired (_wifiConnectTimer (this w)) = Some cb -> settled w.
Proof.
  intros I Hcb%expired_armed t Ht. pose proof (inv_settling _ _ I _ _ _ Ht Hcb). lia.
Qed.

Lemma Inv_attempts w w' : attempts w w' -> settled w -> Inv target w -> Inv target w'.
Proof.
  intros [Hth Hm Hreg (new & Htr & Hst & Hnr & Hbo)] Hset [Iwf Ireg Ich Ibo Ideb Iset].
  split; auto.
  - by rewrite Hth.
  - rewrite Htr, Hm. by apply chrono_app.
  - rewrite Htr. by apply begin_ok_app.
  - rewrite Htr. by apply (debounced_app_settled (millis w)).
  - rewrite Htr, Hth, Hm, last_reset_app_no_reset by done. apply Iset.
Qed.

(** A timer of a well-formed handler runs the callback it was created with. *)
Lemma wf_expired t w cb :
  wf target (this w) -> expired (timer_of t (this w)) = Some cb -> cb = callback_of t.
Proof.
  intros (H1 & H2 & _) Hcb%expired_armed.
  destruct t; simpl in *; eapply timer_ok_armed; eauto.
Qed.

Lemma Inv_step w l w' : Inv target w -> Step target w l w' -> Inv target w'.
Proof.
  intros I. inversion 1 as [a ?|d ?|t cb ? Hcb|e ? He|s ?]; subst.
  - eapply Inv_advances; [apply advancing_api | done].
  - by apply Inv_tick.
  - pose proof (wf_expired _ _ _ (inv_wf _ _ I) Hcb) as ->.
    pose proof (Inv_advances _ _ (advances_fire t w (inv_wf _ _ I)) I) as I'.
    destruct t; simpl.
    + eapply Inv_advances; [apply advancing_beginConnection | done].
    + eapply Inv_attempts; [apply connect_attempts | | done].
      apply settled_fire. by eapply Inv_settled.
  - eapply Inv_advances; [apply advancing_wifiEventHandler | done].
  - by apply Inv_radio.
Qed.

Lemma Inv_reachable w : reachable target w -> Inv target w.
Proof.
  apply reachable_ind_inv; [apply Inv_new | eauto using Inv_step].
Qed.

(** ** One transition and the first-connection timer *)

Lemma Step_first_timer w l w' :
  wf target (this w) -> Step target w l w' ->
  armed (_firstConnectionTimer (this w)) = None ->
  armed (_firstConnectionTimer (this w')) = None.
Proof.
  intros Hwf HS H0. destruct HS as [a w|d w|t cb w Hcb|e w He|s w]; [| | | |done].
  - destruct (adv_first _ _ _ (advancing_api target a w)); congruence.
  - simpl. by rewrite armed_elapse, H0.
  - pose proof (wf_expired _ _ _ Hwf Hcb) as ->.
    destruct t; simpl in Hcb; [by rewrite expired_None in Hcb|]. simpl.
    by rewrite (att_this _ _ (connect_attempts _)).
  - destruct (adv_first _ _ _ (advancing_wifiEventHandler target e w)); congruence.
Qed.

Lemma reachable_after_net ls : reachable target (after target ls (world_net target)).
Proof. apply reachable_after. unfold world_net. apply reachable_new. Qed.

End Safety.

(** * The safety theorems *)

(** C1: In every reachable state, every connect request ([WiFi.begin]) on
    the trace was issued at a moment when the driver did not report
    [WL_CONNECTED]: the handler never asks to connect while connected. *)
Theorem never_connects_while_connected (target : Target) (w : World) (e : Entry) :
  reachable target w -> e ∈ trace w -> is_begin_entry e = true ->
  was_connected e = false.
Proof.
  intros Hw He. pose proof (inv_begin_ok _ _ (Inv_reachable _ _ Hw)) as H.
  unfold begin_ok in H. rewrite Forall_forall in H. by apply H.
Qed.

Lemma never_connects_while_connected_witness :
  let w := after ESP32 first_attempt (world_net ESP32) in
  exists e, trace w !! 0 = Some e /\ is_begin_entry e = true /\ was_connected e = false.
Proof.
  eexists. split; [vm_compute; reflexivity|]. split; [reflexivity|].
  apply (never_connects_while_connected ESP32 (after ESP32 first_attempt (world_net ESP32)));
    [exact (reachable_after_net ESP32 _) | | reflexivity].
  apply (list_elem_of_lookup_2 _ 0). vm_compute; reflexivity.
Defined.

(** C2: In every reachable state, a connect request and any radio reset
    (a driver disconnect call) that precedes it on the trace are at least
    [WIFI_DELAY_BETWEEN_CONNECTIONS] seconds apart: no attempt is made on
    a radio that was reset less than the settle delay ago. *)
Theorem connect_requests_debounced (target : Target) (w : World)
    (i j : nat) (eb er : Entry) :
  reachable target w ->
  trace w !! i = Some eb -> trace w !! j = Some er -> i < j ->
  is_begin_entry eb = true -> is_reset_entry er = true ->
  at_ms er + WIFI_DELAY_BETWEEN_CONNECTIONS * 1000 <= at_ms eb.
Proof.
  intros Hw%Inv_reachable. destruct Hw. by eapply debounced_pairwise.
Qed.

Lemma connect_requests_debounced_witness :
  exists eb er,
    trace (after ESP32 first_attempt (world_net ESP32)) !! 0 = Some eb /\
    trace (after ESP32 first_attempt (world_net ESP32)) !! 2 = Some er /\
    at_ms er + WIFI_DELAY_BETWEEN_CONNECTIONS * 1000 <= at_ms eb.
Proof.
  eexists _, _. split; [vm_compute; reflexivity|]. split; [vm_compute; reflexivity|].
  apply (connect_requests_debounced ESP32 (after ESP32 first_attempt (world_net ESP32)) 0 2);
    [exact (reachable_after_net ESP32 _) | reflexivity | reflexivity | lia
    | reflexivity | reflexivity].
Defined.

(** C14: In every reachable state both timers are the one-shot timers the
    constructor made: an expiry of the first-connection timer runs
    [beginConnection], an expiry of the connect timer runs [_connect], and
    on the ESP32 both handles exist. *)
Theorem timers_well_formed (target : Target) (w : World) (t : TimerName) (cb : TimerCallback) :
  reachable target w ->
  wf target (this w) /\
  (expired (timer_of t (this w)) = Some cb -> cb = callback_of t).
Proof.
  intros Hw%Inv_reachable. split; [apply Hw | eapply wf_expired, Hw].
Qed.

Lemma timers_well_formed_witness :
  wf ESP32 (this (after ESP32 first_attempt (world_net ESP32))) /\
  (expired (timer_of WifiConnectTimer (this (after ESP32 first_attempt (world_net ESP32))))
     = Some CbConnect -> CbConnect = callback_of WifiConnectTimer).
Proof.
  exact (timers_well_formed ESP32 _ WifiConnectTimer CbConnect (reachable_after_net ESP32 _)).
Defined.

(** C12: No transition arms the first-connection timer: once it is
    disarmed, it stays disarmed along every run.  Only the constructor
    starts it, so [beginConnection] runs from it at most once. *)
Theorem first_timer_not_rearmed (target : Target) (ls : list Label) (w w' : World) :
  reachable target w -> run target ls w = Some w' ->
  armed (_firstConnectionTimer (this w)) = None ->
  armed (_firstConnectionTimer (this w')) = None.
Proof.
  revert w. induction ls as [|l ls IH]; simpl; intros w Hw Hrun H0; [by simplify_eq|].
  destruct (step target l w) as [w1|] eqn:E; [|done]. apply step_Step in E.
  apply (IH w1); [by eapply reachable_step | done |].
  eapply Step_first_timer; [apply Inv_reachable, Hw | done | done].
Qed.

Lemma first_timer_not_rearmed_witness :
  armed (_firstConnectionTimer
    (this (after ESP32 link_lost (after ESP32 first_attempt (world_net ESP32))))) = None.
Proof.
  apply (first_timer_not_rearmed ESP32 link_lost (after ESP32 first_attempt (world_net ESP32)));
    [exact (reachable_after_net ESP32 _) | vm_compute; reflexivity | vm_compute; reflexivity].
Defined.

(** In every reachable state both event handlers are registered with
    the driver, so an association or a disassociation event can always be
    delivered to the handler. *)
Theorem events_always_enabled (target : Target) (w : World) (e : WiFiEvent) :
  reachable target w -> is_Some (step target (LEvent e) w).
Proof.
  intros Hw%Inv_reachable. simpl. rewrite (inv_registered _ _ Hw). by eexists.
Qed.

Lemma events_always_enabled_witness :
  is_Some (step ESP8266 (LEvent STA_DISCONNECTED) (after ESP8266 first_attempt (world_net ESP8266))).
Proof.
  exact (events_always_enabled ESP8266 _ STA_DISCONNECTED (reachable_after_net ESP8266 _)).
Defined.

(** While the connect timer is armed, what is left of it covers what
    is missing of the settle delay since the most recent radio reset; so
    when it expires the radio has been left alone for the whole delay. *)
Theorem connect_timer_covers_settle_delay (target : Target) (w : World)
    (t r : nat) (cb : TimerCallback) :
  reachable target w ->
  last_reset (trace w) = Some t ->
  armed (_wifiConnectTimer (this w)) = Some (r, cb) ->
  t + WIFI_DELAY_BETWEEN_CONNECTIONS * 1000 <= millis w + r.
Proof. intros Hw%Inv_reachable. apply Hw. Qed.

Lemma connect_timer_covers_settle_delay_witness :
  3000 + WIFI_DELAY_BETWEEN_CONNECTIONS * 1000 <=
  millis (after ESP32 (firstn 3 first_attempt) (world_net ESP32)) + 0.
Proof.
  apply (connect_timer_covers_settle_delay ESP32 _ 3000 0 CbConnect);
    [exact (reachable_after_net ESP32 _) | vm_compute; reflexivity | vm_compute; reflexivity].
Defined.

(** C13: Both timers are one-shot in every reachable state: when a timer
    expires and its callback has run, that timer is disarmed, so each
    arming leads to one run of [beginConnection] or of [_connect], not to
    a periodic one. *)
Theorem expiry_disarms (target : Target) (w w' : World) (t : TimerName) :
  reachable target w -> step target (LExpire t) w = Some w' ->
  armed (timer_of t (this w')) = None /\ step target (LExpire t) w' = None.
Proof.
  intros Hw%Inv_reachable HS. simpl in HS.
  destruct (expired (timer_of t (this w))) as [cb|] eqn:Hcb; [|done].
  pose proof (wf_expired target _ _ _ (inv_wf _ _ Hw) Hcb) as ->.
  destruct (inv_wf _ _ Hw) as (H1 & H2 & _).
  assert (armed (timer_of t (this w')) = None) as H0; [|by rewrite step_expire_None].
  simplify_eq. destruct t; simpl.
  - destruct (adv_first _ _ _ (advancing_beginConnection target (fire FirstConnectionTimer w)))
      as [? | ->]; [done|]. simpl. eauto using timer_ok_armed_fired.
  - rewrite (att_this _ _ (connect_attempts _)). simpl. eauto using timer_ok_armed_fired.
Qed.

Lemma expiry_disarms_witness :
  let w := after ESP32 (firstn 3 first_attempt) (world_net ESP32) in
  let w' := after ESP32 [LExpire WifiConnectTimer] w in
  armed (timer_of WifiConnectTimer (this w')) = None /\
  step ESP32 (LExpire WifiConnectTimer) w' = None.
Proof.
  apply (expiry_disarms ESP32 (after ESP32 (firstn 3 first_attempt) (world_net ESP32)) _
           WifiConnectTimer (reachable_after_net ESP32 _)).
  vm_compute; reflexivity.
Defined.

