(* ===== verification/Quiescence.v ===== *)
(** * Quiescence: [disconnect] is final

    After [disconnect] the handler is [quiet]: [_autoReconnect] is off and
    no timer is armed.  Nothing the platform does (time passing, status
    changes, events) brings a quiet handler to make a connect request; only
    user code can, by calling [beginConnection] or [setAutoReconnect(true)].
    User code is the calls of [LCall] labels and the bodies of the two
    callbacks, so the statement is about runs whose calls are [passive] and
    handlers whose callbacks are.

    The same holds when [disconnect] is called from the connection-lost
    callback, which the disassociation handler runs after it has scheduled
    the retry: the call cancels the retry. *)

From Stdlib Require Import ZArith Lia String List Bool.
From stdpp Require Import base tactics option list.
From S2P Require Import Prelude Timers Radio Handler Trace HandlerFacts Methods Machine.
Import ListNotations.

(** A call that neither starts a connection, nor enables reconnection, nor
    installs a callback. *)
Definition passive (a : ApiCall) : bool :=
  match a with
  | ApiBeginConnection => false
  | ApiSetAutoReconnect autoReconnect => negb autoReconnect
  | ApiOnConnectionEstablished callback | ApiOnConnectionLost callback =>
      match callback with Some _ => false | None => true end
  | _ => true
  end.

Definition passive_callback (c : Callback) : bool :=
  match c with
  | Some body => forallb passive body
  | None => true
  end.

(** A transition that is not an active call of user code. *)
Definition undisturbed (l : Label) : bool :=
  match l with
  | LCall a => passive a
  | _ => true
  end.

(** The callbacks are passive. *)
Definition passive_callbacks (h : EspSimpleWifiHandler) : Prop :=
  passive_callback (_connectionEstablishedCallback h) = true /\
  passive_callback (_connectionLostCallback h) = true.

(** Reconnection is off, no timer is armed, the callbacks are passive. *)
Record quiet (h : EspSimpleWifiHandler) : Prop := {
  quiet_autoReconnect : _autoReconnect h = false;
  quiet_idle : timers_idle h;
  quiet_established : passive_callback (_connectionEstablishedCallback h) = true;
  quiet_lost : passive_callback (_connectionLostCallback h) = true
}.

(** A connected handler is disconnected by the user; then the link drops,
    the event is delivered, five seconds pass. *)
Definition after_disconnect : list Label :=
  [LStatus WL_DISCONNECTED; LEvent STA_DISCONNECTED; LElapse 5000;
   LCall (ApiSetWifiInfos (Some "other"%string) None); LEvent STA_DISCONNECTED].

(** A connected handler whose user gives up on the first loss: the
    connection-lost callback calls [disconnect]. *)
Definition world_giving_up (target : Target) : World :=
  exec (api target (ApiOnConnectionLost (Some [ApiIsConnected; ApiDisconnect])))
    (world_up target).

Section Quiescence.
Variable target : Target.
Implicit Types (w : World) (h : EspSimpleWifiHandler) (a : ApiCall).

(** ** [disconnect] makes the handler quiet *)

Lemma quiet_disconnect w :
  passive_callback (_connectionEstablishedCallback (this w)) = true ->
  passive_callback (_connectionLostCallback (this w)) = true ->
  quiet (this (exec (disconnect target) w)).
Proof.
  intros. destruct (exec_disconnect target w) as (-> & _).
  pose proof (stopped_idle target (this w)).
  split; [done | by destruct target, (this w)..].
Qed.

(** ** Passive code keeps it quiet *)

Lemma quiet_api a w :
  passive a = true -> quiet (this w) -> quiet (this (exec (api target a) w)).
Proof.
  intros Ha Hq. destruct a as [| | | |b|[]|[]| |]; try done;
    try (by apply quiet_disconnect; apply Hq);
    destruct Hq, w as [[] ? ? ?]; split; simpl in *; try done.
  by destruct b.
Qed.

Lemma quiet_runScript body w :
  forallb passive body = true -> quiet (this w) ->
  quiet (this (exec (runScript target body) w)).
Proof.
  revert w. induction body as [|a body IH]; simpl; intros w; [done|].
  rewrite andb_true_iff, exec_bind. intros [? ?] ?. by apply IH, quiet_api.
Qed.

Lemma quiet_invoke slot callback w :
  passive_callback callback = true -> quiet (this w) ->
  quiet (this (exec (invoke target slot callback) w)).
Proof.
  rewrite exec_invoke. destruct callback; [|done]. intros. by apply quiet_runScript.
Qed.

Lemma this_log p w : this (exec (log p) w) = this w.
Proof. apply (exec_log_silent p w). Qed.

Lemma quiet_event e w :
  quiet (this w) -> quiet (this (exec (wifiEventHandler target e) w)).
Proof.
  intros Hq. pose proof Hq as [Hoff _ Hest Hlost]. destruct e; simpl.
  - rewrite exec_onWifiConnected. apply quiet_invoke; by rewrite ?this_log.
  - rewrite exec_onWifiDisconnected, Hoff, exec_when.
    apply quiet_invoke; by rewrite ?this_log.
Qed.

(** ** A callback that calls [disconnect] *)

Lemma passive_callbacks_api a w :
  passive a = true -> passive_callbacks (this w) ->
  passive_callbacks (this (exec (api target a) w)).
Proof.
  intros Ha [? ?]. destruct a as [| | | | |[]|[]| |]; try done;
    [by destruct w as [[] ? ? ?].. |].
  cbn [api]. destruct (exec_disconnect target w) as (-> & _). by destruct target, (this w).
Qed.

(** A passive script that calls [disconnect] leaves the handler quiet,
    whatever it found. *)
Lemma quiet_script_disconnect body w :
  forallb passive body = true -> ApiDisconnect ∈ body -> passive_callbacks (this w) ->
  quiet (this (exec (runScript target body) w)).
Proof.
  revert w. induction body as [|a body IH]; intros w Hb Hin Hp; [by apply elem_of_nil in Hin|].
  simpl in Hb. apply andb_true_iff in Hb as [Ha Hb]. simpl. rewrite exec_bind.
  apply elem_of_cons in Hin as [<- | Hin].
  - apply quiet_runScript; [done|]. by apply quiet_disconnect; apply Hp.
  - apply IH; [done.. | by apply passive_callbacks_api].
Qed.

Lemma passive_callbacks_scheduled w :
  passive_callbacks (this w) ->
  passive_callbacks
    (this (exec (when (_autoReconnect (this w)) (_scheduleConnection target)) w)).
Proof.
  intros Hp. destruct (_autoReconnect (this w)); [|done]. rewrite exec_when.
  destruct (exec_scheduleConnection target w) as (-> & _). by destruct target, (this w).
Qed.

(** The disassociation handler with such a callback: whether or not a
    retry was scheduled, none is pending when the handler returns. *)
Lemma quiet_event_disconnect body w :
  _connectionLostCallback (this w) = Some body ->
  forallb passive body = true -> ApiDisconnect ∈ body ->
  passive_callback (_connectionEstablishedCallback (this w)) = true ->
  quiet (this (exec (wifiEventHandler target STA_DISCONNECTED) w)).
Proof.
  intros Hcb Hb Hin Hest. cbn [wifiEventHandler].
  rewrite exec_onWifiDisconnected, Hcb, exec_invoke.
  apply quiet_script_disconnect; [done..|].
  set (w1 := exec (log _) w).
  assert (this w1 = this w) as Hth by apply this_log.
  change (passive_callbacks (this (exec (when (_autoReconnect (this w)) (_scheduleConnection target)) w1))).
  rewrite <- Hth. apply passive_callbacks_scheduled. rewrite Hth. split; [done|].
  by rewrite Hcb.
Qed.

Lemma quiet_tick d w : quiet (this w) -> quiet (this (tick d w)).
Proof. intros [? ? ? ?]. split; try done. by apply timers_idle_tick. Qed.

(** ** One transition *)

Lemma quiet_Step w l w' :
  quiet (this w) -> undisturbed l = true -> Step target w l w' ->
  quiet (this w') /\ begins (trace w') = begins (trace w).
Proof.
  intros Hq Hl. destruct 1 as [a w|d w|t cb w Hcb|e w He|s w].
  - split; [by apply quiet_api | apply advances_begins with target, advancing_api].
  - split; [by apply quiet_tick | done].
  - by rewrite timers_idle_expired in Hcb by apply Hq.
  - split; [by apply quiet_event|].
    apply advances_begins with target, advancing_wifiEventHandler.
  - done.
Qed.

Lemma quiet_run ls w w' :
  quiet (this w) -> forallb undisturbed ls = true -> run target ls w = Some w' ->
  quiet (this w') /\ begins (trace w') = begins (trace w).
Proof.
  revert w. induction ls as [|l ls IH]; simpl; intros w Hq Hls Hrun; [by simplify_eq|].
  apply andb_true_iff in Hls as [Hl Hls].
  destruct (step target l w) as [w1|] eqn:E; [|done]. apply step_Step in E.
  destruct (quiet_Step _ _ _ Hq Hl E) as [Hq1 <-]. by apply IH.
Qed.

End Quiescence.

(** * The theorem *)

(** C4: After [disconnect], as long as user code neither calls
    [beginConnection] nor re-enables automatic reconnection, the handler
    makes no connect request, whatever the platform does: time passing,
    status changes, association and disassociation events.  In particular
    a disassociation event schedules no retry: [_autoReconnect] stays off
    and both timers stay disarmed. *)
Theorem disconnect_is_final (target : Target) (w w' : World) (ls : list Label) :
  passive_callback (_connectionEstablishedCallback (this w)) = true ->
  passive_callback (_connectionLostCallback (this w)) = true ->
  forallb undisturbed ls = true ->
  run target ls (exec (disconnect target) w) = Some w' ->
  begins (trace w') = begins (trace w) /\
  _autoReconnect (this w') = false /\ timers_idle (this w').
Proof.
  intros Hest Hlost Hls Hrun.
  destruct (quiet_run target ls _ _ (quiet_disconnect target w Hest Hlost) Hls Hrun)
    as [[? ? _ _] ->].
  split; [|done]. apply advances_begins with target, advancing_disconnect.
Qed.

Lemma disconnect_is_final_witness :
  let w := after ESP32 (first_attempt ++ [LStatus WL_CONNECTED; LEvent STA_GOT_IP])
             (world_net ESP32) in
  let w' := after ESP32 after_disconnect (exec (disconnect ESP32) w) in
  begins (trace w') = begins (trace w) /\
  _autoReconnect (this w') = false /\ timers_idle (this w').
Proof.
  apply (disconnect_is_final ESP32 _ _ after_disconnect);
    [reflexivity | reflexivity | reflexivity | vm_compute; reflexivity].
Defined.

(** C20: A connection-lost callback that calls [disconnect] ends
    reconnection for good.  When the callback registered for the loss of
    the connection calls [disconnect] (and otherwise neither starts a
    connection, nor enables reconnection, nor installs callbacks), the
    retry that the disassociation handler scheduled before it ran the
    callback is cancelled: when the handler returns no timer is armed and
    [_autoReconnect] is off, and no connect request follows, whatever the
    platform does afterwards. *)
Theorem callback_disconnect_ends_reconnection (target : Target) (w w' : World)
    (body : list ApiCall) (ls : list Label) :
  _connectionLostCallback (this w) = Some body ->
  forallb passive body = true -> ApiDisconnect ∈ body ->
  passive_callback (_connectionEstablishedCallback (this w)) = true ->
  forallb undisturbed ls = true ->
  run target (LEvent STA_DISCONNECTED :: ls) w = Some w' ->
  begins (trace w') = begins (trace w) /\
  _autoReconnect (this w') = false /\ timers_idle (this w').
Proof.
  intros Hcb Hb Hin Hest Hls Hrun. cbn [run step] in Hrun.
  destruct (registered STA_DISCONNECTED (WiFi w)); [|done].
  destruct (quiet_run target ls _ _ (quiet_event_disconnect target body w Hcb Hb Hin Hest) Hls Hrun)
    as [[? ? _ _] ->].
  split; [|done]. apply advances_begins with target, advancing_wifiEventHandler.
Qed.

Lemma callback_disconnect_ends_reconnection_witness :
  let w := world_giving_up ESP32 in
  let w' := after ESP32 (LEvent STA_DISCONNECTED :: after_disconnect) w in
  begins (trace w') = begins (trace w) /\
  _autoReconnect (this w') = false /\ timers_idle (this w').
Proof.
  apply (callback_disconnect_ends_reconnection ESP32 (world_giving_up ESP32) _
           [ApiIsConnected; ApiDisconnect] after_disconnect);
    [reflexivity | reflexivity | repeat constructor | reflexivity | reflexivity
    | vm_compute; reflexivity].
Defined.
