(* ===== verification/Liveness.v ===== *)
(** * Liveness: armed timers lead to connect requests

    The safety theorems say what the handler never does.  This file says
    what it does when nothing interferes: an armed connect timer, left to
    expire, produces the connect request for the stored network; a handler
    built with automatic connection makes its first request
    [WIFI_DELAY_BEFORE_FIRST_CONNECTION + WIFI_DELAY_BETWEEN_CONNECTIONS]
    seconds after construction; a lost connection is followed by a request
    [WIFI_DELAY_BETWEEN_CONNECTIONS] seconds later.  The runs are given as
    label sequences and proved enabled, so the statements do not hold
    vacuously. *)

From Stdlib Require Import ZArith Lia String List Bool.
From stdpp Require Import base tactics option list.
From S2P Require Import Prelude Timers Radio Handler Trace HandlerFacts Methods Machine Safety.
Import ListNotations.

(** The connect request for SSID [s] and password [pw]. *)
Definition request_for (s : string) (pw : option string) : WiFiCall :=
  Begin s (if nonempty pw then pw else None).

(** The connect timer is armed and runs to its end. *)
Definition retry_delay : list Label :=
  [LElapse (WIFI_DELAY_BETWEEN_CONNECTIONS * 1000); LExpire WifiConnectTimer].

(** The first-connection timer is armed and runs to its end. *)
Definition start_delay : list Label :=
  [LElapse (WIFI_DELAY_BEFORE_FIRST_CONNECTION * 1000); LExpire FirstConnectionTimer].

(** A transition of the platform alone: no user call, no event. *)
Definition passing (l : Label) : bool :=
  match l with
  | LElapse _ | LStatus _ | LExpire _ => true
  | LCall _ | LEvent _ => false
  end.

Section Liveness.
Variable target : Target.
Implicit Types (w : World) (h : EspSimpleWifiHandler).

(** ** What time and the timer service leave alone *)

Lemma can_connect_tick d w : can_connect (tick d w) = can_connect w.
Proof. done. Qed.

Lemma can_connect_fire t w : can_connect (fire t w) = can_connect w.
Proof. by destruct t. Qed.

Lemma requested_fire_tick t d w : requested (fire t (tick d w)) = requested w.
Proof. by destruct t. Qed.

Lemma wf_fire t w : wf target (this w) -> wf target (this (fire t w)).
Proof. intros Hwf. by apply (adv_wf _ _ _ (advances_fire target t w Hwf)). Qed.

Lemma expired_tick t w r cb :
  armed (timer_of t (this w)) = Some (r, cb) ->
  expired (timer_of t (this (tick r w))) = Some cb.
Proof.
  intros H. apply expired_armed. destruct t; simpl in *; rewrite armed_elapse, H; simpl;
    by rewrite Nat.sub_diag.
Qed.

(** ** The connect timer runs out *)

Lemma attempt_after_delay w c :
  wf target (this w) ->
  armed (_wifiConnectTimer (this w)) = Some (settle_ms, CbConnect) ->
  can_connect w = true -> requested w = Some c ->
  exists w',
    run target retry_delay w = Some w' /\
    wifi_calls (trace w') = c :: wifi_calls (trace w) /\
    WiFi w' = WiFi_exec c (WiFi w) /\
    armed (_wifiConnectTimer (this w')) = None /\
    (armed (_firstConnectionTimer (this w)) = None ->
     armed (_firstConnectionTimer (this w')) = None) /\
    millis w' = millis w + settle_ms.
Proof.
  intros Hwf Harm Hcan Hreq. eexists. split.
  { unfold retry_delay. cbn [run step]. fold settle_ms.
    by rewrite (expired_tick WifiConnectTimer w _ _ Harm). }
  destruct (exec_connect_ok (fire WifiConnectTimer (tick settle_ms w)) c)
    as (Hth & Hm & HW & Hcalls & _); [done | by rewrite requested_fire_tick |].
  simpl timerCallback. rewrite Hth, Hm, HW, Hcalls. repeat split.
  - apply (timer_ok_armed_fired WIFI_DELAY_BETWEEN_CONNECTIONS CbConnect).
    apply (wf_tick target settle_ms w Hwf).
  - intros H0. simpl. by rewrite armed_elapse, H0.
Qed.

(** ** From a scheduled attempt to the request *)

Lemma scheduled_attempt h w1 s :
  wf target h -> _wifiSsid h = Some s -> strlen_P s <> 0 ->
  this w1 = scheduled target h -> WiFi_connected (WiFi w1) = false ->
  exists w',
    run target retry_delay w1 = Some w' /\
    wifi_calls (trace w') = request_for s (_wifiPassword h) :: wifi_calls (trace w1) /\
    armed (_wifiConnectTimer (this w')) = None /\
    (armed (_firstConnectionTimer h) = None ->
     armed (_firstConnectionTimer (this w')) = None) /\
    millis w' = millis w1 + settle_ms.
Proof.
  intros Hwf Hs Hlen Hth Hconn.
  destruct (scheduled_members target h) as (Hssid & Hpw & _).
  destruct (attempt_after_delay w1 (request_for s (_wifiPassword h)))
    as (w' & Hrun & Hcalls & _ & Harm & Hfirst & Hm);
    [| | | |exists w'; by rewrite Hth, scheduled_first in Hfirst].
  - rewrite Hth. by apply wf_scheduled.
  - rewrite Hth. by apply scheduled_armed.
  - apply can_connect_true. rewrite Hth, Hssid, <- WiFi_connected_false. eauto.
  - unfold requested. by rewrite Hth, Hssid, Hpw, Hs.
Qed.

Lemma begin_then_attempt w s :
  wf target (this w) -> can_connect w = true -> _wifiSsid (this w) = Some s ->
  exists w',
    run target retry_delay (exec (beginConnection target) w) = Some w' /\
    wifi_calls (trace w') =
      request_for s (_wifiPassword (this w)) ::
      reset_calls target (wifi_mode (WiFi w)) ++
      hostname_calls target (_hostname (this w)) ++ wifi_calls (trace w) /\
    timers_idle (this w') /\
    millis w' = millis w + settle_ms.
Proof.
  intros Hwf Hcan Hs.
  destruct (exec_beginConnection_ok target w Hcan) as (Hth & Hm & HW & Hcalls & _).
  destruct (stopped_members target (this w)) as (Hssid & Hpw & _).
  apply can_connect_true in Hcan as [(s' & Hs' & Hlen) _].
  destruct (scheduled_attempt (stopped target (this w)) (exec (beginConnection target) w) s)
    as (w' & Hrun & Hc & Harm & Hfirst & Hm');
    [by apply wf_stopped | congruence | congruence | done | |].
  - rewrite HW. apply WiFi_run_reset_connected, wifi_mode_hostname_calls.
  - exists w'. rewrite Hrun, Hc, Hpw, Hcalls, Hm', Hm. repeat split; [|done].
    apply Hfirst, stopped_idle.
Qed.

(** ** Nothing armed, nothing happens *)

Lemma idle_Step w l w' :
  timers_idle (this w) -> passing l = true -> Step target w l w' ->
  timers_idle (this w') /\ trace w' = trace w.
Proof.
  intros Hidle Hl. destruct 1 as [a w|d w|t cb w Hcb|e w He|s w]; try done.
  - split; [by apply timers_idle_tick | done].
  - by rewrite timers_idle_expired in Hcb.
Qed.

End Liveness.

(** * The theorems *)

(** C15: A call of [beginConnection] on a handler with a non-empty SSID,
    while the driver reports no connection, is followed by a connect
    request for that SSID when [WIFI_DELAY_BETWEEN_CONNECTIONS] seconds
    have passed and the connect timer expires: with the password if it is
    non-empty, without it otherwise.  The run is enabled, the request is
    the newest driver call, and the connect timer is disarmed again. *)
Theorem beginConnection_connects (target : Target) (w : World) (s : string) :
  reachable target w -> can_connect w = true -> _wifiSsid (this w) = Some s ->
  exists w',
    run target (LCall ApiBeginConnection :: retry_delay) w = Some w' /\
    wifi_calls (trace w') =
      request_for s (_wifiPassword (this w)) ::
      reset_calls target (wifi_mode (WiFi w)) ++
      hostname_calls target (_hostname (this w)) ++ wifi_calls (trace w) /\
    timers_idle (this w') /\
    millis w' = millis w + WIFI_DELAY_BETWEEN_CONNECTIONS * 1000.
Proof.
  intros Hw%Inv_reachable Hcan Hs. apply begin_then_attempt; [apply Hw | done..].
Qed.

Lemma beginConnection_connects_witness :
  let w := new ESP8266 (Some "net"%string) (Some ""%string) None false wifi_boot 0 in
  exists w',
    run ESP8266 (LCall ApiBeginConnection :: retry_delay) w = Some w' /\
    wifi_calls (trace w') =
      request_for "net" (_wifiPassword (this w)) ::
      reset_calls ESP8266 (wifi_mode (WiFi w)) ++
      hostname_calls ESP8266 (_hostname (this w)) ++ wifi_calls (trace w) /\
    timers_idle (this w') /\
    millis w' = millis w + WIFI_DELAY_BETWEEN_CONNECTIONS * 1000.
Proof.
  exact (beginConnection_connects ESP8266 _ "net"
           (reachable_new ESP8266 (Some "net"%string) (Some ""%string) None false wifi_boot 0)
           eq_refl eq_refl).
Defined.

(** C9: A handler constructed with automatic connection, a non-empty SSID
    and a driver that reports no connection makes its first connect request
    [WIFI_DELAY_BEFORE_FIRST_CONNECTION + WIFI_DELAY_BETWEEN_CONNECTIONS]
    seconds after construction, when first the first-connection timer and
    then the connect timer expire; before the request it applies the host
    name and resets the radio, and afterwards no timer is armed. *)
Theorem first_attempt_connects (target : Target) (s : string)
    (password hostname : option string) (wifi : WiFiClass) (now : nat) :
  strlen_P s <> 0 -> wifi_status wifi <> WL_CONNECTED ->
  let w := new target (Some s) password hostname true wifi now in
  exists w',
    run target (start_delay ++ retry_delay) w = Some w' /\
    wifi_calls (trace w') =
      request_for s password :: reset_calls target (wifi_mode wifi) ++
      hostname_calls target hostname ++ wifi_calls (trace w) /\
    timers_idle (this w') /\
    millis w' = now + (WIFI_DELAY_BEFORE_FIRST_CONNECTION + WIFI_DELAY_BETWEEN_CONNECTIONS) * 1000.
Proof.
  intros Hlen Hst w0.
  set (wA := fire FirstConnectionTimer (tick (WIFI_DELAY_BEFORE_FIRST_CONNECTION * 1000) w0)).
  destruct (new_members target (Some s) password hostname true wifi now)
    as (Hssid & Hpw & Hhost & _).
  destruct (new_timers target (Some s) password hostname true wifi now) as (Hfirst & _).
  destruct (new_platform target (Some s) password hostname true wifi now)
    as (Hnow & _ & _ & HW).
  fold w0 in Hssid, Hpw, Hhost, Hfirst, Hnow, HW.
  assert (run target start_delay w0 = Some (exec (beginConnection target) wA)) as Hstart.
  { unfold start_delay. cbn [run step].
    by rewrite (expired_tick FirstConnectionTimer w0 _ _ Hfirst). }
  destruct (begin_then_attempt target wA s) as (w' & Hrun & Hcalls & Hidle & Hm).
  - apply wf_fire, wf_tick, wf_new.
  - unfold wA. rewrite can_connect_fire, can_connect_tick. apply can_connect_true.
    rewrite Hssid, HW. eauto.
  - done.
  - exists w'. rewrite (run_app_Some _ _ _ _ _ Hstart), Hrun, Hcalls, Hm.
    change (_wifiPassword (this wA)) with (_wifiPassword (this w0)).
    change (_hostname (this wA)) with (_hostname (this w0)).
    change (WiFi wA) with (WiFi w0). change (trace wA) with (trace w0).
    change (millis wA) with (millis w0 + WIFI_DELAY_BEFORE_FIRST_CONNECTION * 1000).
    rewrite Hpw, Hhost, HW, Hnow. do 3 (split; [done|]). unfold settle_ms. lia.
Qed.

Lemma first_attempt_connects_witness :
  let w := new ESP32 (Some "net"%string) (Some "pw"%string) None true wifi_boot 0 in
  exists w',
    run ESP32 (start_delay ++ retry_delay) w = Some w' /\
    wifi_calls (trace w') =
      request_for "net" (Some "pw"%string) :: reset_calls ESP32 (wifi_mode wifi_boot) ++
      hostname_calls ESP32 None ++ wifi_calls (trace w) /\
    timers_idle (this w') /\
    millis w' = 0 + (WIFI_DELAY_BEFORE_FIRST_CONNECTION + WIFI_DELAY_BETWEEN_CONNECTIONS) * 1000.
Proof.
  apply (first_attempt_connects ESP32 "net" (Some "pw"%string) None wifi_boot 0); done.
Defined.

(** C10: When the connection is lost while [_autoReconnect] is set, the
    handler resets the radio at once and makes a connect request for the
    stored network [WIFI_DELAY_BETWEEN_CONNECTIONS] seconds later, when
    the connect timer expires.  (No callback is registered here; a callback
    may call [disconnect] and cancel the retry.) *)
Theorem retry_connects (target : Target) (w : World) (s : string) :
  reachable target w ->
  _autoReconnect (this w) = true -> _connectionLostCallback (this w) = None ->
  _wifiSsid (this w) = Some s -> strlen_P s <> 0 ->
  exists w',
    run target (LEvent STA_DISCONNECTED :: retry_delay) w = Some w' /\
    wifi_calls (trace w') =
      request_for s (_wifiPassword (this w)) ::
      reset_calls target (wifi_mode (WiFi w)) ++ wifi_calls (trace w) /\
    armed (_wifiConnectTimer (this w')) = None /\
    millis w' = millis w + WIFI_DELAY_BETWEEN_CONNECTIONS * 1000.
Proof.
  intros Hw%Inv_reachable Hauto Hcb Hs Hlen.
  destruct (exec_onWifiDisconnected_retry target w Hauto Hcb) as (Hth & Hm & HW & Hcalls & _).
  destruct (scheduled_attempt target (this w) (exec (_onWifiDisconnected target) w) s)
    as (w' & Hrun & Hc & Harm & _ & Hm'); [apply Hw | done | done | done | |].
  - rewrite HW. apply WiFi_run_reset.
  - exists w'. cbn [run step]. rewrite (inv_registered _ _ Hw). simpl wifiEventHandler.
    by rewrite Hrun, Hc, Hcalls, Hm', Hm.
Qed.

Lemma retry_connects_witness :
  let w := after ESP32 (first_attempt ++ [LStatus WL_CONNECTED; LEvent STA_GOT_IP])
             (world_net ESP32) in
  exists w',
    run ESP32 (LEvent STA_DISCONNECTED :: retry_delay) w = Some w' /\
    wifi_calls (trace w') =
      request_for "net" (_wifiPassword (this w)) ::
      reset_calls ESP32 (wifi_mode (WiFi w)) ++ wifi_calls (trace w) /\
    armed (_wifiConnectTimer (this w')) = None /\
    millis w' = millis w + WIFI_DELAY_BETWEEN_CONNECTIONS * 1000.
Proof.
  apply (retry_connects ESP32 _ "net" (reachable_after_net ESP32 _));
    [reflexivity | reflexivity | reflexivity | done].
Defined.



