(* ===== verification/Termination.v ===== *)
(** * Termination: the timers' own activity is finite

    The handler is driven by its two timers, by radio events and by user
    calls.  This file is about what the timers do when they are left
    alone.  A timer callback may arm a timer again ([beginConnection] arms
    the connect timer), so it is not obvious that the chain of expiries
    ends; it does, because [rank] decreases at every expiry: the
    first-connection timer is never armed by a callback, and the connect
    timer is armed only by the callback of the first-connection timer.

    [settle] is the loop of the timer service taken on its own: advance to
    the next deadline, run the callback that is due, repeat until no timer
    is armed.  It recurses on fuel; three units are enough from every
    well-formed handler, and the handler it returns is idle.  The bound on
    the connect requests ([pending]) says that there is no reconnection
    loop without a radio event or a user call. *)

From Stdlib Require Import ZArith Lia String List Bool Wf_nat.
From stdpp Require Import base tactics option list.
From S2P Require Import Prelude Timers Radio Handler Trace HandlerFacts Machine Safety Liveness.
Import ListNotations.

(** A transition of the timer service: time passes or a timer expires. *)
Definition autonomous (l : Label) : bool :=
  match l with
  | LElapse _ | LExpire _ => true
  | LCall _ | LEvent _ | LStatus _ => false
  end.

Definition is_expiry (l : Label) : bool :=
  match l with LExpire _ => true | _ => false end.

(** The number of timer callbacks run in [ls]. *)
Definition expiries (ls : list Label) : nat :=
  length (List.filter is_expiry ls).

(** [n] if the timer is armed, nothing otherwise. *)
Definition weight (t : Ticker TimerCallback) (n : nat) : nat :=
  if is_armed t then n else 0.

(** The expiries still to come: the first-connection timer counts twice,
    for its own expiry and for that of the connect timer it arms. *)
Definition rank (h : EspSimpleWifiHandler) : nat :=
  weight (_firstConnectionTimer h) 2 + weight (_wifiConnectTimer h) 1.

(** The connect requests still to come. *)
Definition pending (h : EspSimpleWifiHandler) : nat :=
  weight (_firstConnectionTimer h) 1 + weight (_wifiConnectTimer h) 1.

(** The longest time until the handler is idle: the first-connection timer
    is followed by the settle delay. *)
Definition horizon (h : EspSimpleWifiHandler) : nat :=
  Nat.max
    (match armed (_firstConnectionTimer h) with Some (r, _) => r + settle_ms | None => 0 end)
    (match armed (_wifiConnectTimer h) with Some (r, _) => r | None => 0 end).

(** The timer that expires next and the time until then.  When both are
    due at the same moment the connect timer is taken first. *)
Definition next_expiry (h : EspSimpleWifiHandler) : option (nat * TimerName) :=
  match armed (_firstConnectionTimer h), armed (_wifiConnectTimer h) with
  | Some (r1, _), Some (r2, _) =>
      if r1 <? r2 then Some (r1, FirstConnectionTimer) else Some (r2, WifiConnectTimer)
  | Some (r1, _), None => Some (r1, FirstConnectionTimer)
  | None, Some (r2, _) => Some (r2, WifiConnectTimer)
  | None, None => None
  end.

(** The loop of the timer service: wait for the next deadline, run its
    callback, until no timer is armed.  [None] when the fuel runs out. *)
Fixpoint settle (target : Target) (fuel : nat) (w : World) : option World :=
  match next_expiry (this w) with
  | None => Some w
  | Some (d, t) =>
      match fuel with
      | 0 => None
      | S fuel' => run target [LElapse d; LExpire t] w ≫= settle target fuel'
      end
  end.

(** One round of that loop, as a relation between worlds. *)
Definition expiry (target : Target) (w' w : World) : Prop :=
  wf target (this w) /\ exists d t, run target [LElapse d; LExpire t] w = Some w'.

(** A handler on which both timers are armed: a disassociation event one
    second after construction. *)
Definition world_both (target : Target) : World :=
  after target [LElapse 1000; LEvent STA_DISCONNECTED] (world_net target).

Section Termination.
Variable target : Target.
Implicit Types (w : World) (h : EspSimpleWifiHandler) (t : TimerName).

(** ** The measures *)

Lemma weight_None (tk : Ticker TimerCallback) n : armed tk = None -> weight tk n = 0.
Proof. unfold weight. by intros ->%is_armed_false. Qed.

Lemma weight_le (tk : Ticker TimerCallback) n : weight tk n <= n.
Proof. unfold weight. destruct (is_armed tk); lia. Qed.

Lemma weight_expired (tk : Ticker TimerCallback) n cb : expired tk = Some cb -> weight tk n = n.
Proof. unfold weight, is_armed. by intros ->%expired_armed. Qed.

Lemma weight_eq (tk tk' : Ticker TimerCallback) n : armed tk' = armed tk -> weight tk' n = weight tk n.
Proof. unfold weight, is_armed. by intros ->. Qed.

Lemma weight_elapse d (tk : Ticker TimerCallback) n : weight (elapse d tk) n = weight tk n.
Proof. unfold weight, is_armed. rewrite armed_elapse. by destruct (armed tk). Qed.

Lemma rank_tick d w : rank (this (tick d w)) = rank (this w).
Proof. unfold rank. simpl. by rewrite !weight_elapse. Qed.

Lemma pending_tick d w : pending (this (tick d w)) = pending (this w).
Proof. unfold pending. simpl. by rewrite !weight_elapse. Qed.

Lemma rank_idle h : rank h = 0 <-> timers_idle h.
Proof.
  unfold rank, weight, timers_idle. rewrite <- !is_armed_false.
  destruct (is_armed _), (is_armed _); split; (lia || intuition congruence).
Qed.

Lemma rank_bound h : rank h <= 3.
Proof.
  unfold rank. pose proof (weight_le (_firstConnectionTimer h) 2).
  pose proof (weight_le (_wifiConnectTimer h) 1). lia.
Qed.

(** ** One expiry *)

(** [_connect] makes at most one connect request. *)
Lemma connect_begins w : length (begins (trace (exec _connect w))) <= S (length (begins (trace w))).
Proof.
  rewrite !wifi_calls_begins. destruct (can_connect w) eqn:E.
  - destruct (can_connect_requested w E) as (c & Hc & _).
    destruct (exec_connect_ok w c E Hc) as (_ & _ & _ & -> & _). simpl.
    destruct (is_begin c); simpl; lia.
  - rewrite (silent_wifi_calls _ _ (exec_connect_refused w E)). lia.
Qed.

(** What the expiry of each timer does to the timers and to the requests. *)
Lemma expire_first w w' :
  wf target (this w) -> Step target w (LExpire FirstConnectionTimer) w' ->
  weight (_firstConnectionTimer (this w)) 2 = 2 /\
  armed (_firstConnectionTimer (this w')) = None /\
  begins (trace w') = begins (trace w) /\ wf target (this w') /\ millis w' = millis w /\
  (armed (_wifiConnectTimer (this w')) = None \/
   armed (_wifiConnectTimer (this w')) = Some (settle_ms, CbConnect) \/
   armed (_wifiConnectTimer (this w')) = armed (_wifiConnectTimer (this w))).
Proof.
  intros Hwf. inversion 1 as [| |t cb ? Hcb| |]; subst.
  pose proof (wf_expired _ _ _ _ Hwf Hcb) as ->. simpl in *.
  pose proof (advancing_beginConnection target (fire FirstConnectionTimer w)) as Hadv.
  assert (armed (_firstConnectionTimer (this (fire FirstConnectionTimer w))) = None) as H0.
  { destruct Hwf as (H1 & _). simpl. eauto using timer_ok_armed_fired. }
  pose proof (wf_fire target FirstConnectionTimer w Hwf) as Hwf1.
  split; [by eapply weight_expired|]. split; [|split; [|split; [|split]]].
  - destruct (adv_first _ _ _ Hadv); congruence.
  - apply (advances_begins _ _ _ Hadv).
  - by apply (adv_wf _ _ _ Hadv).
  - apply (adv_millis _ _ _ Hadv).
  - destruct (adv_trace _ _ _ Hadv) as (new & _ & _ & _ & [?|[?|[? _]]]); auto.
Qed.

Lemma expire_connect w w' :
  wf target (this w) -> Step target w (LExpire WifiConnectTimer) w' ->
  weight (_wifiConnectTimer (this w)) 1 = 1 /\
  armed (_wifiConnectTimer (this w')) = None /\
  armed (_firstConnectionTimer (this w')) = armed (_firstConnectionTimer (this w)) /\
  length (begins (trace w')) <= S (length (begins (trace w))) /\
  wf target (this w') /\ millis w' = millis w.
Proof.
  intros Hwf. inversion 1 as [| |t cb ? Hcb| |]; subst.
  pose proof (wf_expired _ _ _ _ Hwf Hcb) as ->. simpl in *.
  pose proof (connect_attempts (fire WifiConnectTimer w)) as [Hth Hm _ _].
  split; [by eapply weight_expired|]. rewrite Hth, Hm.
  split; [|split; [done|split; [|split; [by apply wf_fire | done]]]].
  - destruct Hwf as (_ & H2 & _). simpl. eauto using timer_ok_armed_fired.
  - apply (connect_begins (fire WifiConnectTimer w)).
Qed.

(** Every expiry lowers the rank, and a connect request uses up one of
    the pending attempts. *)
Lemma expire_measures t w w' :
  wf target (this w) -> Step target w (LExpire t) w' ->
  wf target (this w') /\ millis w' = millis w /\
  S (rank (this w')) <= rank (this w) /\
  length (begins (trace w')) + pending (this w') <=
    length (begins (trace w)) + pending (this w).
Proof.
  intros Hwf HS. unfold rank, pending. destruct t.
  - destruct (expire_first w w' Hwf HS) as (Hw & H0 & -> & ? & ? & _).
    assert (weight (_firstConnectionTimer (this w)) 1 = 1) as ->.
    { unfold weight in *. by destruct (is_armed _). }
    rewrite Hw, !(weight_None _ _ H0).
    pose proof (weight_le (_wifiConnectTimer (this w')) 1).
    do 2 (split; [done|]). split; lia.
  - destruct (expire_connect w w' Hwf HS) as (Hw & H0 & H1 & ? & ? & ?).
    rewrite Hw, !(weight_None _ _ H0), !(weight_eq _ _ _ H1).
    do 2 (split; [done|]). split; lia.
Qed.

(** ** Runs of the timer service *)

Lemma autonomous_run ls w w' :
  wf target (this w) -> forallb autonomous ls = true -> run target ls w = Some w' ->
  wf target (this w') /\
  expiries ls + rank (this w') <= rank (this w) /\
  length (begins (trace w')) + pending (this w') <=
    length (begins (trace w)) + pending (this w).
Proof.
  revert w. induction ls as [|l ls IH]; simpl; intros w Hwf Hls Hrun; [by simplify_eq|].
  apply andb_true_iff in Hls as [Hl Hls].
  destruct (step target l w) as [w1|] eqn:E; [|done].
  destruct l as [|d|t| |]; try done; unfold expiries; simpl.
  - simplify_eq/=. destruct (IH (tick d w)) as (? & ? & ?); [by apply wf_tick | done..|].
    rewrite rank_tick, pending_tick in *. done.
  - apply step_Step in E. destruct (expire_measures t w w1 Hwf E) as (Hwf1 & _ & ? & ?).
    destruct (IH w1 Hwf1 Hls Hrun) as (? & ? & ?). unfold expiries in *.
    split; [done|]. split; lia.
Qed.

(** ** The loop *)

Lemma next_expiry_None h : next_expiry h = None <-> timers_idle h.
Proof.
  unfold next_expiry, timers_idle.
  destruct (armed (_firstConnectionTimer h)) as [[r1 ?]|],
    (armed (_wifiConnectTimer h)) as [[r2 ?]|]; try destruct (r1 <? r2);
    split; intros; try done; intuition congruence.
Qed.

Lemma next_expiry_armed h d t :
  next_expiry h = Some (d, t) -> exists cb, armed (timer_of t h) = Some (d, cb).
Proof.
  unfold next_expiry.
  destruct (armed (_firstConnectionTimer h)) as [[r1 ?]|] eqn:E1,
    (armed (_wifiConnectTimer h)) as [[r2 ?]|] eqn:E2; try destruct (r1 <? r2);
    intros; simplify_eq/=; eauto.
Qed.

(** The deadline [next_expiry] names is the earliest. *)
Lemma next_expiry_earliest h d t t' r cb :
  next_expiry h = Some (d, t) -> armed (timer_of t' h) = Some (r, cb) -> d <= r.
Proof.
  unfold next_expiry.
  destruct (armed (_firstConnectionTimer h)) as [[r1 ?]|] eqn:E1,
    (armed (_wifiConnectTimer h)) as [[r2 ?]|] eqn:E2;
    try destruct (Nat.ltb_spec r1 r2); intros; destruct t'; simplify_eq/=; lia.
Qed.

(** A round of the loop: the deadline passes, then the timer expires. *)
Lemma round_Step w w' d t :
  run target [LElapse d; LExpire t] w = Some w' <-> Step target (tick d w) (LExpire t) w'.
Proof.
  rewrite <- step_Step.
  assert (run target [LElapse d; LExpire t] w = step target (LExpire t) (tick d w)) as ->;
    [|done].
  simpl. by destruct (expired _).
Qed.

(** The round [next_expiry] asks for is enabled. *)
Lemma round_enabled w d t :
  next_expiry (this w) = Some (d, t) ->
  exists w', run target [LElapse d; LExpire t] w = Some w'.
Proof.
  intros [cb Hcb]%next_expiry_armed. eexists. apply round_Step. constructor.
  apply (expired_tick t w d cb Hcb).
Qed.

Lemma round_measures w w' d t :
  wf target (this w) -> run target [LElapse d; LExpire t] w = Some w' ->
  wf target (this w') /\ S (rank (this w')) <= rank (this w) /\
  length (begins (trace w')) + pending (this w') <=
    length (begins (trace w)) + pending (this w) /\
  millis w' = millis w + d.
Proof.
  intros Hwf E%round_Step.
  destruct (expire_measures t (tick d w) w' (wf_tick target d w Hwf) E) as (? & ? & ? & ?).
  rewrite rank_tick, pending_tick in *. done.
Qed.

(** ** Time *)

Lemma horizon_bound h :
  wf target h ->
  horizon h <= (WIFI_DELAY_BEFORE_FIRST_CONNECTION + WIFI_DELAY_BETWEEN_CONNECTIONS) * 1000.
Proof.
  intros (H1 & H2 & _). unfold horizon, settle_ms.
  destruct (armed (_firstConnectionTimer h)) as [[r1 ?]|] eqn:E1,
    (armed (_wifiConnectTimer h)) as [[r2 ?]|] eqn:E2;
    try pose proof (timer_ok_armed _ _ _ _ _ H1 E1) as [_ ?];
    try pose proof (timer_ok_armed _ _ _ _ _ H2 E2) as [_ ?];
    unfold WIFI_DELAY_BEFORE_FIRST_CONNECTION, WIFI_DELAY_BETWEEN_CONNECTIONS in *; lia.
Qed.

(** A round of the loop ends where the horizon said, or earlier. *)
Lemma round_horizon w w' d t :
  wf target (this w) -> next_expiry (this w) = Some (d, t) ->
  run target [LElapse d; LExpire t] w = Some w' ->
  millis w' + horizon (this w') <= millis w + horizon (this w).
Proof.
  intros Hwf Hn HS%round_Step. pose proof (wf_tick target d w Hwf) as Hwf1.
  pose proof (fun r cb => next_expiry_earliest _ _ _ FirstConnectionTimer r cb Hn) as Hle1.
  pose proof (fun r cb => next_expiry_earliest _ _ _ WifiConnectTimer r cb Hn) as Hle2.
  destruct (next_expiry_armed _ _ _ Hn) as [cb Hcb]. unfold horizon.
  destruct t; simpl in Hcb, Hle1, Hle2.
  - destruct (expire_first _ _ Hwf1 HS) as (_ & -> & _ & _ & -> & Hc). simpl in Hc.
    rewrite armed_elapse in Hc. rewrite Hcb.
    destruct (armed (_wifiConnectTimer (this w))) as [[r2 ?]|];
      [specialize (Hle2 _ _ eq_refl)|]; destruct Hc as [-> | [-> | ->]]; simpl; lia.
  - destruct (expire_connect _ _ Hwf1 HS) as (_ & -> & -> & _ & _ & ->). simpl.
    rewrite armed_elapse, Hcb.
    destruct (armed (_firstConnectionTimer (this w))) as [[r1 ?]|];
      [specialize (Hle1 _ _ eq_refl)|]; simpl; lia.
Qed.

Lemma settle_rank fuel w :
  wf target (this w) -> rank (this w) <= fuel ->
  exists w', settle target fuel w = Some w' /\ timers_idle (this w') /\
    wf target (this w') /\
    length (begins (trace w')) + pending (this w') <=
      length (begins (trace w)) + pending (this w) /\
    millis w <= millis w' <= millis w + horizon (this w).
Proof.
  revert w. induction fuel as [|fuel IH]; intros w Hwf Hr.
  - assert (timers_idle (this w)) as Hidle by (apply rank_idle; lia).
    exists w. cbn [settle]. rewrite (proj2 (next_expiry_None _) Hidle).
    do 3 (split; [done|]). lia.
  - cbn [settle]. destruct (next_expiry (this w)) as [[d t]|] eqn:E.
    + destruct (round_enabled w d t E) as (w1 & Hrun). rewrite Hrun. simpl.
      destruct (round_measures w w1 d t Hwf Hrun) as (Hwf1 & ? & ? & ?).
      pose proof (round_horizon w w1 d t Hwf E Hrun).
      destruct (IH w1 Hwf1) as (w' & ? & ? & ? & ? & ?); [lia|].
      exists w'. do 3 (split; [done|]). lia.
    + exists w. split; [done|]. split; [by apply next_expiry_None|].
      split; [done|]. lia.
Qed.

(** More fuel does not change the result. *)
Lemma settle_mono fuel fuel' w w' :
  settle target fuel w = Some w' -> fuel <= fuel' -> settle target fuel' w = Some w'.
Proof.
  revert fuel' w. induction fuel as [|fuel IH]; intros fuel' w; cbn [settle].
  - destruct (next_expiry (this w)) as [[d t]|] eqn:E; [done|].
    intros [= <-] _. destruct fuel'; cbn [settle]; by rewrite E.
  - destruct (next_expiry (this w)) as [[d t]|] eqn:E.
    + intros H Hle. destruct fuel' as [|fuel']; [lia|]. cbn [settle]. rewrite E.
      destruct (run target [LElapse d; LExpire t] w) as [w1|]; [|done].
      simpl in *. apply IH; [done | lia].
    + intros [= <-] _. destruct fuel'; cbn [settle]; by rewrite E.
Qed.

(** The loop is a run of the machine. *)
Lemma settle_run fuel w w' :
  settle target fuel w = Some w' ->
  exists ls, forallb autonomous ls = true /\ run target ls w = Some w'.
Proof.
  revert w. induction fuel as [|fuel IH]; intros w; cbn [settle];
    destruct (next_expiry (this w)) as [[d t]|]; try done;
    try (intros [= <-]; by exists []).
  destruct (run target [LElapse d; LExpire t] w) as [w1|] eqn:E; [|done]. simpl.
  intros (ls & Hls & Hrun)%IH. exists ([LElapse d; LExpire t] ++ ls).
  split; [done|]. by rewrite (run_app_Some target _ _ _ _ E).
Qed.

End Termination.

(** * The theorems *)

(** C8: The timers' own activity is bounded.  Along any run in which only
    time passes and timers expire, from a handler whose timers are well
    formed, every expiry lowers [rank]: the run contains at most three
    expiries (two when one timer is armed, none when none is), and it makes
    at most as many connect requests as there were armed timers.  The
    handler therefore cannot reconnect in a loop on its own: every further
    attempt needs a radio event or a call from user code. *)
Theorem timer_activity_is_bounded (target : Target) (w w' : World) (ls : list Label) :
  wf target (this w) -> forallb autonomous ls = true -> run target ls w = Some w' ->
  expiries ls + rank (this w') <= rank (this w) /\
  rank (this w) <= 3 /\
  length (begins (trace w')) + pending (this w') <=
    length (begins (trace w)) + pending (this w).
Proof.
  intros Hwf Hls Hrun.
  destruct (autonomous_run target ls w w' Hwf Hls Hrun) as (_ & ? & ?).
  split; [done|]. split; [apply rank_bound | done].
Qed.

Lemma timer_activity_is_bounded_witness :
  let ls := [LElapse 1000; LExpire WifiConnectTimer; LElapse 1000;
             LExpire FirstConnectionTimer; LElapse 1000; LExpire WifiConnectTimer] in
  let w := world_both ESP32 in
  let w' := after ESP32 ls w in
  expiries ls + rank (this w') <= rank (this w) /\
  rank (this w) <= 3 /\
  length (begins (trace w')) + pending (this w') <=
    length (begins (trace w)) + pending (this w).
Proof.
  apply (timer_activity_is_bounded ESP32 (world_both ESP32));
    [apply (inv_wf ESP32), Inv_reachable, reachable_after_net | reflexivity
    | vm_compute; reflexivity].
Defined.

(** C19: The loop of the timer service terminates.  From a handler whose
    timers are well formed, [settle] with three units of fuel (or more, with
    the same result) returns a handler on which no timer is armed; it gets
    there within [WIFI_DELAY_BEFORE_FIRST_CONNECTION +
    WIFI_DELAY_BETWEEN_CONNECTIONS] seconds, along a run of the machine,
    having made at most two connect requests. *)
Theorem settle_terminates (target : Target) (w : World) :
  wf target (this w) ->
  exists w' ls,
    (forall fuel, 3 <= fuel -> settle target fuel w = Some w') /\
    forallb autonomous ls = true /\ run target ls w = Some w' /\
    timers_idle (this w') /\
    length (begins (trace w')) <= length (begins (trace w)) + 2 /\
    millis w' <=
      millis w + (WIFI_DELAY_BEFORE_FIRST_CONNECTION + WIFI_DELAY_BETWEEN_CONNECTIONS) * 1000.
Proof.
  intros Hwf.
  destruct (settle_rank target 3 w Hwf (rank_bound _)) as (w' & Hs & Hidle & _ & Hb & _ & Hm).
  destruct (settle_run target 3 w w' Hs) as (ls & Hls & Hrun).
  pose proof (horizon_bound target _ Hwf).
  exists w', ls. split; [intros; by eapply settle_mono|]. do 3 (split; [done|]).
  assert (pending (this w) <= 2); [|split; lia].
  unfold pending. pose proof (weight_le (_firstConnectionTimer (this w)) 1).
  pose proof (weight_le (_wifiConnectTimer (this w)) 1). lia.
Qed.

Lemma settle_terminates_witness :
  exists w' ls,
    (forall fuel, 3 <= fuel -> settle ESP8266 fuel (world_both ESP8266) = Some w') /\
    forallb autonomous ls = true /\ run ESP8266 ls (world_both ESP8266) = Some w' /\
    timers_idle (this w') /\
    length (begins (trace w')) <= length (begins (trace (world_both ESP8266))) + 2 /\
    millis w' <=
      millis (world_both ESP8266) +
      (WIFI_DELAY_BEFORE_FIRST_CONNECTION + WIFI_DELAY_BETWEEN_CONNECTIONS) * 1000.
Proof.
  apply (settle_terminates ESP8266 (world_both ESP8266)).
  apply (inv_wf ESP8266), Inv_reachable, reachable_after_net.
Defined.

(** There is no infinite chain of timer expiries: the relation between
    a handler with well-formed timers and the same handler one expiry
    later, whatever the time in between, is well founded. *)
Theorem expiry_well_founded (target : Target) : well_founded (expiry target).
Proof.
  apply (well_founded_lt_compat _ (fun w => rank (this w))).
  intros w' w (Hwf & d & t & Hrun).
  destruct (round_measures target w w' d t Hwf Hrun) as (_ & ? & _). lia.
Qed.

(** The bounds are reached: with both timers armed the loop runs three
    callbacks and makes two connect requests, the second four seconds
    after the first timer was armed. *)
Example settle_both_timers :
  settle ESP32 2 (world_both ESP32) = None /\
  (wifi_calls <$> (trace <$> settle ESP32 3 (world_both ESP32))) =
    Some [Begin "net" (Some "pw"%string); Disconnect32 false true;
          Begin "net" (Some "pw"%string); Mode 0; Disconnect32 false true; Mode 1;
          OnEvent STA_DISCONNECTED; OnEvent STA_GOT_IP] /\
  (millis <$> settle ESP32 3 (world_both ESP32)) = Some 4000.
Proof. repeat split; vm_compute; reflexivity. Qed.
