(* ===== verification/Lifecycle.v ===== *)
(** * Lifecycle: destruction of the handler

    The constructor hands the platform three kinds of reference to the
    object: the two timers call back into it, and the two event handlers
    registered with the driver capture [this].  This file follows the
    object to the end of its life.  [destroy] is what C++ runs when the
    handler goes away: the body of the destructor ([destructor] of
    [Handler]), then the destructors of the members in the reverse order of
    their declaration.  On the ESP8266 the members do the work: a [Ticker]
    detaches itself and a [WiFiEventHandler] gives up the registration.  On
    the ESP32 the handles are plain pointers; the body of the destructor
    deletes the timers, and nothing removes the event handlers.

    [Sys] is the system over the whole life of the object: [Live], [Dead]
    once destroyed, and [Fault] when the platform has called into the
    destroyed object.  [sys_step] extends the machine of [Machine] with the
    event [EvDestroy] and with what the platform does afterwards. *)

From Stdlib Require Import ZArith Lia String List Bool.
From stdpp Require Import base tactics option list.
From S2P Require Import Prelude Timers Radio Handler Trace HandlerFacts Methods Machine Safety.
Import ListNotations.

(** ** Destruction *)

(** A [WiFiEventHandler] member is destroyed: the driver drops the handler,
    which nobody holds any more. *)
Definition WiFi_release (e : WiFiEvent) (r : WiFiClass) : WiFiClass :=
  {| wifi_mode := wifi_mode r;
     wifi_status := wifi_status r;
     wifi_config := wifi_config r;
     wifi_hostname := wifi_hostname r;
     wifi_localIP := wifi_localIP r;
     wifi_onGotIP := match e with STA_GOT_IP => false | _ => wifi_onGotIP r end;
     wifi_onDisconnected :=
       match e with STA_DISCONNECTED => false | _ => wifi_onDisconnected r end |}.

Definition release (e : WiFiEvent) : M World unit :=
  modify (fun w => set_WiFi (WiFi_release e (WiFi w)) w).

(** [Ticker::~Ticker()] detaches the timer. *)
Definition Ticker_destroy {C} (t : Ticker C) : Ticker C := detach t.

(** The members are destroyed in the reverse order of their declaration:
    on the ESP8266 [disconnectedEventHandler], [gotIpEventHandler],
    [_firstConnectionTimer], [_wifiConnectTimer]; on the ESP32 the timer
    handles are pointers and there are no event handler members.  The two
    [std::function] members release the user's callbacks on both. *)
Definition destroy_members (target : Target) : M World unit :=
  match target with
  | ESP8266 =>
      release STA_DISCONNECTED ;;
      release STA_GOT_IP ;;
      on_firstConnectionTimer Ticker_destroy ;;
      on_wifiConnectTimer Ticker_destroy
  | ESP32 => ret tt
  end ;;
  update (set_connectionLostCallback None) ;;
  update (set_connectionEstablishedCallback None).

(** The end of the object's life. *)
Definition destroy (target : Target) : M World unit :=
  destructor target ;;
  destroy_members target.

(** ** The system over the life of the object *)

(** How the platform reaches a destroyed object. *)
Inductive Access :=
| ByEvent (e : WiFiEvent)       (* a registered event handler is dispatched *)
| ByTimer (t : TimerName).      (* a timer callback is run *)

Inductive Sys :=
| Live (w : World)
| Dead (w : World)              (* [this w] is what the storage last held *)
| Fault (w : World) (a : Access).

Inductive SysEvent :=
| EvLabel (l : Label)
| EvDestroy.

(** What the platform does once the object is gone.  Time passes and the
    radio changes as before.  An event is dispatched to the handler that is
    still registered, a timer runs the callback that is still armed: both
    dereference the destroyed object.  User code cannot name the object any
    more, so [LCall] is not enabled. *)
Definition dead_step (l : Label) (w : World) : option Sys :=
  match l with
  | LElapse d => Some (Dead (tick d w))
  | LStatus s => Some (Dead (radio s w))
  | LEvent e => Some (if registered e (WiFi w) then Fault w (ByEvent e) else Dead w)
  | LExpire t =>
      match expired (timer_of t (this w)) with
      | Some _ => Some (Fault w (ByTimer t))
      | None => None
      end
  | LCall _ => None
  end.

Definition sys_step (target : Target) (ev : SysEvent) (s : Sys) : option Sys :=
  match s, ev with
  | Live w, EvLabel l => Live <$> step target l w
  | Live w, EvDestroy => Some (Dead (exec (destroy target) w))
  | Dead w, EvLabel l => dead_step l w
  | Dead _, EvDestroy => None
  | Fault _ _, _ => None
  end.

Fixpoint sys_run (target : Target) (evs : list SysEvent) (s : Sys) : option Sys :=
  match evs with
  | [] => Some s
  | ev :: evs' =>
      match sys_step target ev s with
      | Some s' => sys_run target evs' s'
      | None => None
      end
  end.

(** The world of a system state, and whether it is a fault. *)
Definition world_of (s : Sys) : World :=
  match s with Live w | Dead w | Fault w _ => w end.

Definition faulted (s : Sys) : option Access :=
  match s with Fault _ a => Some a | _ => None end.

(** No timer is armed (the event handlers may still be registered). *)
Definition timers_released (w : World) : Prop := timers_idle (this w).

(** The handler lives for five seconds, is destroyed, and the radio goes
    on: a connection comes up and is lost again. *)
Definition short_life : list SysEvent :=
  [EvLabel (LElapse 5000); EvDestroy; EvLabel (LElapse 1000);
   EvLabel (LStatus WL_CONNECTED); EvLabel (LEvent STA_GOT_IP)].

Section Lifecycle.
Variable target : Target.
Implicit Types (w : World) (s : Sys) (e : WiFiEvent).

(** ** What [destroy] does *)

Lemma destroy_timers w : timers_released (exec (destroy target) w).
Proof. by destruct target, w as [[] ? ? ?]. Qed.

Lemma destroy_trace w : trace (exec (destroy target) w) = trace w.
Proof. by destruct target. Qed.

(** The registrations after destruction: released on the ESP8266, left
    as they were on the ESP32. *)
Lemma destroy_registered w e :
  registered e (WiFi (exec (destroy target) w)) =
  match target with
  | ESP8266 => false
  | ESP32 => registered e (WiFi w)
  end.
Proof. by destruct target, e. Qed.

(** ** After destruction *)

Lemma timers_released_dead l w s :
  timers_released w -> dead_step l w = Some s ->
  timers_released (world_of s) /\ trace (world_of s) = trace w /\
  forall a, faulted s = Some a -> exists e, a = ByEvent e /\ registered e (WiFi w) = true.
Proof.
  intros Hrel. destruct l as [|d|t|e|st]; simpl; intros H; simplify_eq/=.
  - split; [by apply timers_idle_tick | done].
  - by rewrite timers_idle_expired in H.
  - destruct (registered e (WiFi w)) eqn:E; simpl; [|done].
    split; [done|]. split; [done|]. intros a [= <-]. eauto.
  - done.
Qed.

Lemma registered_dead l w w' e :
  dead_step l w = Some (Dead w') -> registered e (WiFi w') = registered e (WiFi w).
Proof. destruct l; simpl; intros; repeat case_match; by simplify_eq/=. Qed.

(** A run that starts after destruction: the timers stay released, nothing
    is added to the trace, and a fault is the dispatch of an event to a
    handler that was registered at destruction. *)
Lemma dead_run evs w s :
  timers_released w -> sys_run target evs (Dead w) = Some s ->
  timers_released (world_of s) /\ trace (world_of s) = trace w /\
  forall a, faulted s = Some a -> exists e, a = ByEvent e /\ registered e (WiFi w) = true.
Proof.
  revert w. induction evs as [|[l|] evs IH]; simpl; intros w Hrel Hrun; [by simplify_eq|..|done].
  destruct (dead_step l w) as [s1|] eqn:E; [|done].
  destruct (timers_released_dead l w s1 Hrel E) as (Hrel1 & Htr1 & Hf1).
  destruct s1 as [w1|w1|w1 a]; simpl in *.
  - destruct l; simpl in E; repeat case_match; done.
  - destruct (IH w1 Hrel1 Hrun) as (? & -> & Hf). split; [done|]. split; [done|].
    intros a Ha. destruct (Hf a Ha) as (e & -> & He).
    exists e. by rewrite <- (registered_dead l w w1 e E).
  - destruct evs; simplify_eq/=. eauto.
Qed.

(** ** The whole life *)

(** A run from a live handler either stays live, or splits at the
    destruction. *)
Lemma live_run evs w s :
  sys_run target evs (Live w) = Some s ->
  (exists w', s = Live w') \/
  (exists w1 evs2, sys_run target evs2 (Dead (exec (destroy target) w1)) = Some s).
Proof.
  revert w. induction evs as [|[l|] evs IH]; simpl; intros w Hrun.
  - left. exists w. by simplify_eq.
  - destruct (step target l w) as [w1|]; [|done]. by apply (IH w1).
  - right. by exists w, evs.
Qed.

End Lifecycle.

(** * The theorems *)

(** C11: Only a late event reaches a destroyed handler, and only on the
    ESP32.  Along every run of the system over the life of a handler, from
    any state of the handler, a fault (the platform calling into the
    destroyed object) is never caused by a timer: on the ESP8266 the
    [Ticker] members detach themselves, on the ESP32 the destructor deletes
    both timers.  On the ESP8266 there is no fault at all, because the
    [WiFiEventHandler] members give up their registrations. *)
Theorem only_events_reach_a_destroyed_handler (target : Target) (w : World)
    (evs : list SysEvent) (s : Sys) (a : Access) :
  sys_run target evs (Live w) = Some s -> faulted s = Some a ->
  target = ESP32 /\ exists e, a = ByEvent e.
Proof.
  intros [[w' ->] | (w1 & evs2 & Hrun)]%live_run Ha; [done|].
  destruct (dead_run target evs2 _ s (destroy_timers target w1) Hrun) as (_ & _ & Hf).
  destruct (Hf a Ha) as (e & -> & He). rewrite destroy_registered in He.
  destruct target; [done | eauto].
Qed.

Lemma only_events_reach_a_destroyed_handler_witness :
  exists s, sys_run ESP32 short_life (Live (world_net ESP32)) = Some s /\
            faulted s = Some (ByEvent STA_GOT_IP) /\
            ESP32 = ESP32 /\ exists e, ByEvent STA_GOT_IP = ByEvent e.
Proof.
  eexists. split; [vm_compute; reflexivity|]. split; [reflexivity|].
  eapply (only_events_reach_a_destroyed_handler ESP32 (world_net ESP32) short_life);
    [vm_compute; reflexivity | reflexivity].
Defined.

(** C24: On the ESP32 the event handlers outlive the object.  The
    constructor registers two closures that capture [this]; the destructor
    deletes the timers and leaves the registrations in place.  From every
    reachable state, destroying the handler and then delivering either
    event makes the driver call into the destroyed object. *)
Theorem event_handlers_outlive_the_object (w : World) (e : WiFiEvent) :
  reachable ESP32 w ->
  sys_run ESP32 [EvDestroy; EvLabel (LEvent e)] (Live w) =
    Some (Fault (exec (destroy ESP32) w) (ByEvent e)).
Proof.
  intros Hw. cbn [sys_run sys_step dead_step].
  by rewrite (destroy_registered ESP32), (inv_registered _ _ (Inv_reachable _ _ Hw)).
Qed.

Lemma event_handlers_outlive_the_object_witness :
  sys_run ESP32 [EvDestroy; EvLabel (LEvent STA_DISCONNECTED)]
    (Live (after ESP32 first_attempt (world_net ESP32))) =
  Some (Fault (exec (destroy ESP32) (after ESP32 first_attempt (world_net ESP32)))
          (ByEvent STA_DISCONNECTED)).
Proof.
  apply (event_handlers_outlive_the_object (after ESP32 first_attempt (world_net ESP32))).
  exact (reachable_after_net ESP32 _).
Defined.

(** A destroyed handler is silent.  Whatever state the handler was
    destroyed in (a timer armed, an attempt pending), no run of the
    platform afterwards adds a driver call, a printed line or a user
    callback to the trace, and no timer is armed again: destruction
    cancels what was scheduled. *)
Theorem destroyed_handler_is_silent (target : Target) (w : World)
    (evs : list SysEvent) (s : Sys) :
  sys_run target (EvDestroy :: evs) (Live w) = Some s ->
  trace (world_of s) = trace w /\ timers_idle (this (world_of s)).
Proof.
  simpl. intros Hrun.
  destruct (dead_run target evs _ s (destroy_timers target w) Hrun) as (? & -> & _).
  split; [apply destroy_trace | done].
Qed.

Lemma destroyed_handler_is_silent_witness :
  let w := after ESP8266 [LElapse 1000; LEvent STA_DISCONNECTED] (world_net ESP8266) in
  exists s,
    sys_run ESP8266 (EvDestroy :: [EvLabel (LElapse 3000); EvLabel (LEvent STA_DISCONNECTED)])
      (Live w) = Some s /\
    trace (world_of s) = trace w /\ timers_idle (this (world_of s)).
Proof.
  eexists. split; [vm_compute; reflexivity|].
  apply (destroyed_handler_is_silent ESP8266 _
           [EvLabel (LElapse 3000); EvLabel (LEvent STA_DISCONNECTED)]).
  vm_compute; reflexivity.
Defined.

(** The same life on the two platforms: the ESP8266 build ends quietly,
    the ESP32 build faults on the first event after destruction. *)
Example short_life_on_both :
  (faulted <$> sys_run ESP8266 short_life (Live (world_net ESP8266))) = Some None /\
  (faulted <$> sys_run ESP32 short_life (Live (world_net ESP32))) =
    Some (Some (ByEvent STA_GOT_IP)).
Proof. split; vm_compute; reflexivity. Qed.
