(* ===== verification/Tasks.v ===== *)
(** * Tasks: the methods as programs that can be interrupted

    The methods of [Handler] run as one step.  On the ESP32 the sketch,
    the timer callbacks and the event handlers run in three FreeRTOS tasks
    and the source takes no lock, so a method can be interrupted between
    two statements.

    A [Task] is a program with yield points: a sequence of atomic steps,
    each of which changes the world and says what remains to be done.
    The tasks below follow the source statement by statement, with a yield
    point after every statement that reads or writes the object or calls
    the driver; they are written in continuation-passing style, [k] being
    what runs after the method.  Run without interruption ([atomic]) a
    task is the method of [Handler]: section [Atomic] proves it for every
    method. *)

From Stdlib Require Import ZArith Lia String List Bool.
From stdpp Require Import base tactics option list.
From S2P Require Import Prelude Timers Radio Handler Trace HandlerFacts Methods.
Import ListNotations.

(** ** Programs with yield points *)

(** [TStep next effect]: one atomic step turns the world [w] into
    [effect w], and [next w] is what remains to be done. *)
Inductive Task :=
| TDone
| TStep (next : World -> Task) (effect : World -> World).

(** Run [m] atomically, yield, go on with [k] of its result. *)
Definition yield_after {A} (m : M World A) (k : A -> Task) : Task :=
  TStep (fun w => k (eval m w)) (exec m).

Declare Scope task_scope.
Delimit Scope task_scope with task.
Notation "x <~ m ;; t" := (yield_after m (fun x => t))
  (at level 100, m at next level, right associativity) : task_scope.
Notation "m ~> t" := (yield_after m (fun _ => t))
  (at level 100, right associativity) : task_scope.
Open Scope task_scope.

(** The task run to its end without interruption. *)
Fixpoint atomic (t : Task) (w : World) : World :=
  match t with
  | TDone => w
  | TStep next effect => atomic (next w) (effect w)
  end.

(** The number of atomic steps it takes from [w]. *)
Fixpoint steps (t : Task) (w : World) : nat :=
  match t with
  | TDone => 0
  | TStep next effect => S (steps (next w) (effect w))
  end.

(** ** The methods as tasks *)

Section Tasks.
Variable target : Target.

Definition task_guard (k : bool -> Task) : Task :=
  ssid <~ member _wifiSsid ;;
  if null_or_empty ssid then
    log (Printf "WiFi! Can't init a connection: WiFi not configured. \n" []) ~> k false
  else
    connected <~ isConnected ;;
    if connected then
      log (Printf "WiFi! Can't init a connection: WiFi already connected. \n" []) ~> k false
    else k true.

(** [_connect] once the guard has let it through: the message (which
    reads [_wifiSsid]), the test of the password, the call (which reads
    both members again).  [WiFi.begin] returns at once when it is given no
    SSID. *)
Definition task_request (k : Task) : Task :=
  (ssid <- member _wifiSsid ;; log (Printf "WiFi: Connecting to %s ... \n" [ArgStr ssid])) ~>
  password <~ member _wifiPassword ;;
  (ssid <- member _wifiSsid ;;
   pw <- member _wifiPassword ;;
   match ssid with
   | Some s => if nonempty password then call (Begin s pw) else call (Begin s None)
   | None => ret tt
   end) ~> k.

Definition task_connect (k : Task) : Task :=
  task_guard (fun ok => if negb ok then k else task_request k).

Definition task_reset (k : Task) : Task :=
  match target with
  | ESP8266 =>
      call (Disconnect8266 true) ~>
      call (Mode WIFI_STA) ~> k
  | ESP32 =>
      m <~ gets (fun w => wifi_mode (WiFi w)) ;;
      when (Z.land m WIFI_MODE_STA =? 0)%Z (call (Mode WIFI_STA)) ~>
      call (Disconnect32 false true) ~>
      when (Z.land m WIFI_MODE_STA =? 0)%Z (call (Mode m)) ~> k
  end.

Definition task_scheduleConnection (k : Task) : Task :=
  task_reset
    (match target with
     | ESP8266 => on_wifiConnectTimer (once WIFI_DELAY_BETWEEN_CONNECTIONS CbConnect)
     | ESP32 => on_wifiConnectTimer xTimerStart
     end ~> k).

Definition task_stopTimers (k : Task) : Task :=
  match target with
  | ESP8266 =>
      on_firstConnectionTimer detach ~>
      on_wifiConnectTimer detach ~> k
  | ESP32 =>
      on_firstConnectionTimer xTimerStop ~>
      on_wifiConnectTimer xTimerStop ~> k
  end.

Definition task_beginConnection (k : Task) : Task :=
  task_guard (fun ok =>
    if negb ok then k
    else
      task_stopTimers
        (log (Println "WiFi: Initializing ...") ~>
         hostname <~ member _hostname ;;
         match hostname with
         | Some name =>
             match target with
             | ESP32 => call (SetHostname name)
             | ESP8266 => call (Hostname name)
             end ~> task_scheduleConnection k
         | None => task_scheduleConnection k
         end)).

Definition task_disconnect (k : Task) : Task :=
  log (Println "WiFi: Disconnecting ...") ~>
  update (set_autoReconnect false) ~>
  task_stopTimers (task_reset k).

(** A call of the public interface.  The inline members are one
    assignment each, except [setWifiInfos], which makes two. *)
Definition task_api (a : ApiCall) (k : Task) : Task :=
  match a with
  | ApiBeginConnection => task_beginConnection k
  | ApiDisconnect => task_disconnect k
  | ApiSetWifiInfos wifiSsid wifiPassword =>
      update (set_wifiSsid wifiSsid) ~>
      update (set_wifiPassword wifiPassword) ~> k
  | _ => api target a ~> k
  end.

Fixpoint task_script (body : list ApiCall) (k : Task) : Task :=
  match body with
  | [] => k
  | a :: rest => task_api a (task_script rest k)
  end.

Definition task_invoke (slot : CallbackSlot) (callback : Callback) (k : Task) : Task :=
  match callback with
  | Some body => observe (ObsCallback slot) ~> task_script body k
  | None => k
  end.

Definition task_onWifiConnected (k : Task) : Task :=
  (now <- gets millis ;;
   ip <- gets (fun w => wifi_localIP (WiFi w)) ;;
   log (Printf "WiFi: Connected (%fs), ip : %s \n" [ArgSeconds now; ArgIP ip])) ~>
  callback <~ member _connectionEstablishedCallback ;;
  task_invoke ConnectionEstablished callback k.

Definition task_onWifiDisconnected (k : Task) : Task :=
  (now <- gets millis ;; log (Printf "WiFi! Lost connection (%fs). \n" [ArgSeconds now])) ~>
  autoReconnect <~ member _autoReconnect ;;
  let notify := (callback <~ member _connectionLostCallback ;;
                 task_invoke ConnectionLost callback k) in
  if autoReconnect then task_scheduleConnection notify else notify.

Definition task_timerCallback (cb : TimerCallback) (k : Task) : Task :=
  match cb with
  | CbBeginConnection => task_beginConnection k
  | CbConnect => task_connect k
  end.

Definition task_wifiEventHandler (e : WiFiEvent) (k : Task) : Task :=
  match e with
  | STA_GOT_IP => task_onWifiConnected k
  | STA_DISCONNECTED => task_onWifiDisconnected k
  end.

End Tasks.

(** * Uninterrupted, a task is the method *)

(** Unfold the tasks down to the steps of the methods. *)
Ltac tcbv :=
  cbv beta iota zeta delta [
    atomic yield_after task_guard task_request task_connect task_reset task_scheduleConnection
    task_stopTimers task_beginConnection task_disconnect task_onWifiConnected
    task_onWifiDisconnected task_invoke task_timerCallback task_wifiEventHandler ] in *.

Ltac trun := tcbv; hrun.

Section Atomic.
Variable target : Target.
Implicit Types (k : Task) (w : World).

Lemma atomic_yield_after {A} (m : M World A) (f : A -> Task) w :
  atomic (yield_after m f) w = atomic (f (eval m w)) (exec m w).
Proof. reflexivity. Qed.

Lemma atomic_guard (f : bool -> Task) w :
  atomic (task_guard f) w = atomic (f (eval _canConnectToWifi w)) (exec _canConnectToWifi w).
Proof. trun; reflexivity. Qed.

Lemma atomic_connect k w : atomic (task_connect k) w = atomic k (exec _connect w).
Proof. destruct w as [[] ? ? ?]. trun; try reflexivity; by simplify_eq/=. Qed.

Lemma atomic_reset k w : atomic (task_reset target k) w = atomic k (exec (_reset target) w).
Proof. destruct target; trun; reflexivity. Qed.

Lemma atomic_scheduleConnection k w :
  atomic (task_scheduleConnection target k) w = atomic k (exec (_scheduleConnection target) w).
Proof. destruct target; trun; reflexivity. Qed.

Lemma atomic_stopTimers k w :
  atomic (task_stopTimers target k) w = atomic k (exec (stopTimers target) w).
Proof. destruct target; trun; reflexivity. Qed.

Lemma atomic_beginConnection k w :
  atomic (task_beginConnection target k) w = atomic k (exec (beginConnection target) w).
Proof. destruct target, w as [[] ? ? ?]; trun; reflexivity. Qed.

Lemma atomic_disconnect k w :
  atomic (task_disconnect target k) w = atomic k (exec (disconnect target) w).
Proof. destruct target; trun; reflexivity. Qed.

Lemma atomic_api a k w : atomic (task_api target a k) w = atomic k (exec (api target a) w).
Proof.
  destruct a; try reflexivity; [apply atomic_beginConnection | apply atomic_disconnect].
Qed.

Lemma atomic_script body k w :
  atomic (task_script target body k) w = atomic k (exec (runScript target body) w).
Proof.
  revert w. induction body as [|a body IH]; intros w; simpl; [done|].
  by rewrite atomic_api, IH, exec_bind.
Qed.

Lemma atomic_invoke slot callback k w :
  atomic (task_invoke target slot callback k) w =
  atomic k (exec (invoke target slot callback) w).
Proof.
  destruct callback as [body|]; [|done]. unfold task_invoke, invoke.
  by rewrite atomic_yield_after, atomic_script, exec_bind.
Qed.

Lemma atomic_onWifiConnected k w :
  atomic (task_onWifiConnected target k) w = atomic k (exec (_onWifiConnected target) w).
Proof.
  rewrite exec_onWifiConnected. unfold task_onWifiConnected.
  rewrite !atomic_yield_after, atomic_invoke.
  destruct w as [[] [] ? ?]; by hrun.
Qed.

Lemma atomic_onWifiDisconnected k w :
  atomic (task_onWifiDisconnected target k) w = atomic k (exec (_onWifiDisconnected target) w).
Proof.
  rewrite exec_onWifiDisconnected. unfold task_onWifiDisconnected.
  rewrite !atomic_yield_after.
  assert (eval (member _autoReconnect)
            (exec (now <- gets millis ;;
                   log (Printf "WiFi! Lost connection (%fs). \n" [ArgSeconds now])) w) =
          _autoReconnect (this w)) as -> by (destruct w as [[] [] ? ?]; by hrun).
  destruct (_autoReconnect (this w)); cbn zeta;
    rewrite ?atomic_scheduleConnection, atomic_yield_after, atomic_invoke;
    destruct target, w as [[] [] ? ?]; by hrun.
Qed.

Lemma atomic_wifiEventHandler e k w :
  atomic (task_wifiEventHandler target e k) w =
  atomic k (exec (wifiEventHandler target e) w).
Proof. destruct e; [apply atomic_onWifiConnected | apply atomic_onWifiDisconnected]. Qed.

Lemma atomic_timerCallback cb k w :
  atomic (task_timerCallback target cb k) w = atomic k (exec (timerCallback target cb) w).
Proof. destruct cb; [apply atomic_beginConnection | apply atomic_connect]. Qed.

End Atomic.
