(* ===== verification/Interleaving.v ===== *)
(** * Interleaving: three contexts that share the handler

    The machine of [Machine] runs an activation of the handler (a user
    call, a timer callback, an event handler) as one transition.  That is
    how the ESP8266 dispatches, and it is what the specification assumes.
    On the ESP32 the three kinds of activation run in three FreeRTOS tasks
    (the sketch's loop task, the timer service task, the event task), and
    the radio changes its status while a method runs.

    The concurrent machine [cstep] runs the tasks of [Tasks] in three
    contexts that share one world: a label starts an activation in its
    context, lets time pass, changes the radio's status, or resumes a
    context for one step.

    - Its serial schedules are the runs of [Machine] (section [Serial]).
    - An invariant kept by every primitive is kept under every
      interleaving (section [Keeps]); the range of the radio mode and the
      well-formedness of the timers are two. *)

From Stdlib Require Import ZArith Lia String List Bool.
From stdpp Require Import base tactics option list.
From S2P Require Import Prelude Timers Radio Handler Trace HandlerFacts Methods Machine Invariants Safety Liveness Tasks.
Import ListNotations.

(** ** The concurrent machine *)

(** The three contexts in which the platform runs the handler. *)
Inductive Context :=
| UserTask                      (* the sketch: calls of the public interface *)
| TimerTask                     (* the timer service: timer callbacks *)
| EventTask.                    (* the driver: event handlers *)

(** The shared world and what each context has left to do. *)
Record Conc := mkConc {
  shared : World;
  in_user : Task;
  in_timer : Task;
  in_event : Task
}.

Definition task_in (c : Context) (s : Conc) : Task :=
  match c with
  | UserTask => in_user s
  | TimerTask => in_timer s
  | EventTask => in_event s
  end.

Definition set_task (c : Context) (t : Task) (s : Conc) : Conc :=
  match c with
  | UserTask => mkConc (shared s) t (in_timer s) (in_event s)
  | TimerTask => mkConc (shared s) (in_user s) t (in_event s)
  | EventTask => mkConc (shared s) (in_user s) (in_timer s) t
  end.

Definition set_shared (w : World) (s : Conc) : Conc :=
  mkConc w (in_user s) (in_timer s) (in_event s).

(** No activation is in progress. *)
Definition idle (w : World) : Conc := mkConc w TDone TDone TDone.

Definition is_done (t : Task) : bool :=
  match t with TDone => true | TStep _ _ => false end.

Inductive CLabel :=
| CStart (l : Label)            (* time, the radio, or an activation that starts *)
| CResume (c : Context).        (* the context runs to its next yield point *)

(** The context an activation runs in. *)
Definition context_of (l : Label) : option Context :=
  match l with
  | LCall _ => Some UserTask
  | LExpire _ => Some TimerTask
  | LEvent _ => Some EventTask
  | LElapse _ | LStatus _ => None
  end.

Section Concurrent.
Variable target : Target.

(** One transition.  An activation starts only in a context that has
    nothing left to do: each context runs its activations one after the
    other.  Starting a timer callback takes it from the timer, as [fire]
    does. *)
Definition cstep (l : CLabel) (s : Conc) : option Conc :=
  match l with
  | CStart (LElapse d) => Some (set_shared (tick d (shared s)) s)
  | CStart (LStatus st) => Some (set_shared (radio st (shared s)) s)
  | CStart (LCall a) =>
      if is_done (in_user s) then Some (set_task UserTask (task_api target a TDone) s)
      else None
  | CStart (LExpire t) =>
      match expired (timer_of t (this (shared s))) with
      | Some cb =>
          if is_done (in_timer s) then
            Some (set_task TimerTask (task_timerCallback target cb TDone)
                    (set_shared (fire t (shared s)) s))
          else None
      | None => None
      end
  | CStart (LEvent e) =>
      if is_done (in_event s) && registered e (WiFi (shared s)) then
        Some (set_task EventTask (task_wifiEventHandler target e TDone) s)
      else None
  | CResume c =>
      match task_in c s with
      | TStep next effect =>
          Some (set_task c (next (shared s)) (set_shared (effect (shared s)) s))
      | TDone => None
      end
  end.

Fixpoint crun (ls : list CLabel) (s : Conc) : option Conc :=
  match ls with
  | [] => Some s
  | l :: ls' =>
      match cstep l s with
      | Some s' => crun ls' s'
      | None => None
      end
  end.

(** The schedule that runs context [c] until its task is done. *)
Definition finish (c : Context) (s : Conc) : list CLabel :=
  replicate (steps (task_in c s) (shared s)) (CResume c).

(** The schedule that starts [l] from the idle state on [w] and runs it
    to completion before anything else happens. *)
Definition serial_one (l : Label) (w : World) : list CLabel :=
  CStart l ::
  match context_of l, cstep (CStart l) (idle w) with
  | Some c, Some s => finish c s
  | _, _ => []
  end.

(** The serial schedule of a run of the machine. *)
Fixpoint serial (ls : list Label) (w : World) : list CLabel :=
  match ls with
  | [] => []
  | l :: ls' =>
      serial_one l w ++
      match step target l w with
      | Some w' => serial ls' w'
      | None => []
      end
  end.

End Concurrent.

(** ** Invariants that survive interruption *)

(** Every step of the task keeps [I], whatever the state in which it is
    resumed. *)
Fixpoint keeps (I : World -> Prop) (t : Task) : Prop :=
  match t with
  | TDone => True
  | TStep next effect => forall w, I w -> I (effect w) /\ keeps I (next w)
  end.

(** Every context keeps [I], and it holds now. *)
Definition ckeeps (I : World -> Prop) (s : Conc) : Prop :=
  I (shared s) /\ keeps I (in_user s) /\ keeps I (in_timer s) /\ keeps I (in_event s).

(** The timers of [w] are the one-shot timers of the constructor. *)
Definition wf_inv (target : Target) (w : World) : Prop := wf target (this w).

(** ** A schedule used below *)

(** The sketch calls [disconnect]; the radio reports a connection after
    its second statement; the third statement runs and the call is still
    in progress. *)
Definition interrupted_disconnect : list CLabel :=
  [CStart (LCall ApiDisconnect); CResume UserTask; CResume UserTask;
   CStart (LStatus WL_CONNECTED); CResume UserTask].

(** * Serial schedules are the runs of the machine *)

Section Serial.
Variable target : Target.

Lemma crun_app ls1 ls2 s : crun target (ls1 ++ ls2) s = crun target ls1 s ≫= crun target ls2.
Proof.
  revert s. induction ls1 as [|l ls1 IH]; intros s; simpl; [done|].
  destruct (cstep target l s); simpl; [apply IH | done].
Qed.

(** Resuming a context until it is done runs its task atomically. *)
Lemma crun_finish c t w tu tt te :
  let s := set_task c t (mkConc w tu tt te) in
  crun target (finish c s) s = Some (set_task c TDone (mkConc (atomic t w) tu tt te)).
Proof.
  revert w. induction t as [|next IH effect]; intros w.
  - by destruct c.
  - specialize (IH w (effect w)). destruct c; simpl in *; apply IH.
Qed.

Lemma crun_serial_one l w :
  crun target (serial_one target l w) (idle w) = idle <$> step target l w.
Proof.
  unfold serial_one. destruct l as [a|d|t|e|st]; cbn [crun context_of]; try done.
  - cbn [cstep idle in_user is_done]. rewrite (crun_finish UserTask _ w TDone TDone TDone).
    simpl. by rewrite atomic_api.
  - cbn [cstep idle in_timer is_done shared step].
    destruct (expired (timer_of t (this w))) as [cb|]; [|done].
    rewrite (crun_finish TimerTask _ (fire t w) TDone TDone TDone).
    simpl. by rewrite atomic_timerCallback.
  - cbn [cstep idle in_event is_done shared step andb].
    destruct (registered e (WiFi w)); [|done].
    rewrite (crun_finish EventTask _ w TDone TDone TDone).
    simpl. by rewrite atomic_wifiEventHandler.
Qed.


End Serial.

(** * Invariants under interleaving *)

(** What [keeps] means at a yield point, and for the contexts. *)
Section Yield.
Variable I : World -> Prop.

Lemma keeps_yield_after {A} (m : M World A) (f : A -> Task) :
  preserves I m -> (forall w, I w -> keeps I (f (eval m w))) -> keeps I (yield_after m f).
Proof. intros Hm Hf w Hw. split; [by apply Hm | by apply Hf]. Qed.

Lemma ckeeps_idle w : I w -> ckeeps I (idle w).
Proof. done. Qed.

Lemma ckeeps_resume c s next effect :
  ckeeps I s -> task_in c s = TStep next effect ->
  ckeeps I (set_task c (next (shared s)) (set_shared (effect (shared s)) s)).
Proof.
  intros (Hw & Hu & Ht & He) E.
  destruct c; simpl in E; rewrite E in *; simpl in *;
    [destruct (Hu _ Hw) | destruct (Ht _ Hw) | destruct (He _ Hw)]; by repeat split.
Qed.

End Yield.

(** An invariant of the target's handler that the primitives keep (an
    assignment to a member that is not a timer, the timer commands of the
    target, every print statement, the driver calls the methods make, the
    invocation of a callback) is kept by every step of every task: it
    holds in every state of the concurrent machine. *)
Section Keeps.
Variable I : Target -> World -> Prop.
Variable C : WiFiCall -> Prop.
Hypothesis I_assign : forall target f,
  (forall h, _firstConnectionTimer (f h) = _firstConnectionTimer h) ->
  (forall h, _wifiConnectTimer (f h) = _wifiConnectTimer h) ->
  preserves (I target) (update f).
Hypothesis I_disarm_first : forall target,
  preserves (I target) (on_firstConnectionTimer (disarm_of target)).
Hypothesis I_disarm_connect : forall target,
  preserves (I target) (on_wifiConnectTimer (disarm_of target)).
Hypothesis I_arm_connect : forall target,
  preserves (I target)
    (on_wifiConnectTimer (arm_of target WIFI_DELAY_BETWEEN_CONNECTIONS CbConnect)).
Hypothesis I_callback : forall target slot, preserves (I target) (observe (ObsCallback slot)).
Hypothesis I_call : forall target c, C c -> preserves (I target) (call c).
Hypothesis I_log : forall target p, preserves (I target) (log p).
Hypothesis C_fixed : forall c, match c with Mode m => m = WIFI_STA | _ => True end -> C c.
Hypothesis C_mode : forall target w, I target w -> C (Mode (wifi_mode (WiFi w))).
Hypothesis I_tick : forall target d w, I target w -> I target (tick d w).
Hypothesis I_fire : forall target t w, I target w -> I target (fire t w).
Hypothesis I_radio : forall target s w, I target w -> I target (radio s w).
Implicit Types (target : Target) (k : Task) (w : World).

(** One step of a method keeps [I]. *)
Local Ltac kept_tac :=
  repeat hstep;
  try first [ apply I_log | apply I_callback | apply preserves_gets
            | apply I_disarm_first | apply I_disarm_connect | apply I_arm_connect
            | by apply I_call, C_fixed | by eapply I_call, C_mode
            | by apply I_assign; intros [] ].

(** Step through a task, one yield point after the other. *)
Local Ltac keeps_tac :=
  repeat first
    [ assumption
    | apply keeps_yield_after; [kept_tac | intros ? ?]
    | match goal with
      | |- keeps _ (if ?b then _ else _) => destruct b
      | |- keeps _ (match ?x with _ => _ end) => destruct x
      end ].

Lemma keeps_guard target (f : bool -> Task) :
  (forall ok, keeps (I target) (f ok)) -> keeps (I target) (task_guard f).
Proof. intros Hf. unfold task_guard. keeps_tac; apply Hf. Qed.

Lemma keeps_connect target k : keeps (I target) k -> keeps (I target) (task_connect k).
Proof. intros Hk. apply keeps_guard. intros ok. unfold task_request. keeps_tac. Qed.

Lemma keeps_reset target k : keeps (I target) k -> keeps (I target) (task_reset target k).
Proof. intros Hk. unfold task_reset. keeps_tac. Qed.

Lemma keeps_scheduleConnection target k :
  keeps (I target) k -> keeps (I target) (task_scheduleConnection target k).
Proof. intros Hk. apply keeps_reset. keeps_tac. Qed.

Lemma keeps_stopTimers target k :
  keeps (I target) k -> keeps (I target) (task_stopTimers target k).
Proof. intros Hk. unfold task_stopTimers. keeps_tac. Qed.

Lemma keeps_beginConnection target k :
  keeps (I target) k -> keeps (I target) (task_beginConnection target k).
Proof.
  intros Hk. apply keeps_guard. intros ok. destruct ok; [|done].
  apply keeps_stopTimers. keeps_tac; by apply keeps_scheduleConnection.
Qed.

Lemma keeps_disconnect target k :
  keeps (I target) k -> keeps (I target) (task_disconnect target k).
Proof.
  intros Hk. unfold task_disconnect. keeps_tac. by apply keeps_stopTimers, keeps_reset.
Qed.

(** The inline members are assignments. *)
Lemma keeps_inline target a : preserves (I target) (api target a) ->
  forall k, keeps (I target) k -> keeps (I target) (api target a ~> k).
Proof. intros Ha k Hk. by apply keeps_yield_after. Qed.

Lemma keeps_api target a k : keeps (I target) k -> keeps (I target) (task_api target a k).
Proof.
  intros Hk.
  destruct a; try (by apply keeps_beginConnection); try (by apply keeps_disconnect);
    cbn [task_api]; try apply keeps_inline; try done; cbn [api];
    unfold enableDebuggingMessages, setHostname, setAutoReconnect, onConnectionEstablished,
      onConnectionLost; keeps_tac; kept_tac.
Qed.

Lemma keeps_script target body k :
  keeps (I target) k -> keeps (I target) (task_script target body k).
Proof. intros Hk. induction body as [|a body IH]; simpl; [done | by apply keeps_api]. Qed.

Lemma keeps_invoke target slot callback k :
  keeps (I target) k -> keeps (I target) (task_invoke target slot callback k).
Proof. intros Hk. unfold task_invoke. keeps_tac. by apply keeps_script. Qed.

Lemma keeps_wifiEventHandler target e k :
  keeps (I target) k -> keeps (I target) (task_wifiEventHandler target e k).
Proof.
  intros Hk. destruct e; [unfold task_wifiEventHandler, task_onWifiConnected
                         | unfold task_wifiEventHandler, task_onWifiDisconnected; cbn zeta];
    keeps_tac; try apply keeps_scheduleConnection; keeps_tac; by apply keeps_invoke.
Qed.

Lemma keeps_timerCallback target cb k :
  keeps (I target) k -> keeps (I target) (task_timerCallback target cb k).
Proof. intros Hk. destruct cb; [by apply keeps_beginConnection | by apply keeps_connect]. Qed.

Lemma ckeeps_step target l s s' :
  ckeeps (I target) s -> cstep target l s = Some s' -> ckeeps (I target) s'.
Proof.
  intros Hs. pose proof Hs as (Hw & Hu & Ht & He).
  destruct l as [[a|d|t|e|st]|c]; simpl; intros Hstep; repeat case_match; simplify_eq.
  - repeat split; try done. by apply keeps_api.
  - repeat split; try done. by apply I_tick.
  - repeat split; try done; [by apply I_fire | by apply keeps_timerCallback].
  - repeat split; try done. by apply keeps_wifiEventHandler.
  - repeat split; try done. by apply I_radio.
  - by eapply ckeeps_resume.
Qed.

Lemma ckeeps_run target ls s s' :
  ckeeps (I target) s -> crun target ls s = Some s' -> ckeeps (I target) s'.
Proof.
  revert s. induction ls as [|l ls IH]; simpl; intros s Hs Hrun; [by simplify_eq|].
  destruct (cstep target l s) as [s1|] eqn:E; [|done].
  apply (IH s1); [by eapply ckeeps_step | done].
Qed.

End Keeps.

(** ** The timers stay well formed *)

Section Timers.
Implicit Types (target : Target) (w : World) (h : EspSimpleWifiHandler).

Lemma wf_inv_same {A} target (m : M World A) :
  (forall w, this (exec m w) = this w) -> preserves (wf_inv target) m.
Proof. intros Hm w Hw. unfold wf_inv. by rewrite Hm. Qed.

Lemma wf_inv_assign target (f : EspSimpleWifiHandler -> EspSimpleWifiHandler) :
  (forall h, _firstConnectionTimer (f h) = _firstConnectionTimer h) ->
  (forall h, _wifiConnectTimer (f h) = _wifiConnectTimer h) ->
  preserves (wf_inv target) (update f).
Proof. intros H1 H2 w Hw. unfold wf_inv, wf in *. simpl. by rewrite H1, H2. Qed.

Lemma wf_inv_disarm_first target :
  preserves (wf_inv target) (on_firstConnectionTimer (disarm_of target)).
Proof. intros w Hw. unfold wf_inv in *. destruct target, w as [[] ? ? ?]; wf_tac. Qed.

Lemma wf_inv_disarm_connect target :
  preserves (wf_inv target) (on_wifiConnectTimer (disarm_of target)).
Proof. intros w Hw. unfold wf_inv in *. destruct target, w as [[] ? ? ?]; wf_tac. Qed.

Lemma wf_inv_arm_connect target :
  preserves (wf_inv target)
    (on_wifiConnectTimer (arm_of target WIFI_DELAY_BETWEEN_CONNECTIONS CbConnect)).
Proof. intros w Hw. unfold wf_inv in *. destruct target, w as [[] ? ? ?]; wf_tac. Qed.

Lemma wf_inv_log target p : preserves (wf_inv target) (log p).
Proof. apply wf_inv_same. intros w. apply (exec_log_silent p w). Qed.

Lemma wf_inv_tick target d w : wf_inv target w -> wf_inv target (tick d w).
Proof. apply wf_tick. Qed.

Lemma wf_inv_fire target t w : wf_inv target w -> wf_inv target (fire t w).
Proof. apply wf_fire. Qed.

Lemma wf_inv_crun target ls w s :
  wf target (this w) -> crun target ls (idle w) = Some s -> wf target (this (shared s)).
Proof.
  intros Hw Hrun.
  apply (ckeeps_run wf_inv (fun _ => True)) with (s := idle w) (s' := s) (ls := ls);
    auto using wf_inv_assign, wf_inv_disarm_first, wf_inv_disarm_connect, wf_inv_arm_connect,
      wf_inv_log, wf_inv_tick, wf_inv_fire, ckeeps_idle;
    intros; by apply wf_inv_same.
Qed.

End Timers.

(** * The theorems *)


(** The radio mode stays a value of [wifi_mode_t] under every
    interleaving.  Whatever the schedule of the three contexts, the clock
    and the radio, and wherever the activations are interrupted, a mode
    that was one of NULL, STA, AP and APSTA is one of them in every state
    the concurrent machine reaches: [_reset] restores a mode it read
    earlier, and every mode it can have read is in range. *)
Theorem mode_stays_in_range_when_interrupted (target : Target) (ls : list CLabel)
    (w : World) (s : Conc) :
  mode_ok (wifi_mode (WiFi w)) ->
  crun target ls (idle w) = Some s ->
  mode_ok (wifi_mode (WiFi (shared s))).
Proof.
  intros Hw Hrun.
  apply (ckeeps_run (fun _ => mode_inv) call_ok) with (s := idle w) (s' := s) (target := target)
    (ls := ls);
    auto using mode_inv_observe, mode_inv_call, mode_inv_log, call_ok_fixed, ckeeps_idle;
    intros; apply mode_inv_update.
Qed.

Lemma mode_stays_in_range_when_interrupted_witness :
  exists s,
    crun ESP32 interrupted_disconnect (idle (world_up ESP32)) = Some s /\
    mode_ok (wifi_mode (WiFi (shared s))).
Proof.
  eexists. split; [vm_compute; reflexivity|].
  apply (mode_stays_in_range_when_interrupted ESP32 interrupted_disconnect (world_up ESP32));
    [done | vm_compute; reflexivity].
Defined.

(** C25: The timers stay the one-shot timers of the constructor under
    every interleaving.  In every state the concurrent machine reaches
    from a constructed handler, whatever the schedule and wherever the
    activations are interrupted, both timers are one-shot with their own
    period and callback, on the ESP32 both handles exist, and a timer that
    is due runs the callback it was created with. *)
Theorem timers_well_formed_when_interrupted (target : Target)
    (ssid password hostname : option string) (autoConnect : bool) (wifi : WiFiClass)
    (now : nat) (ls : list CLabel) (s : Conc) (t : TimerName) (cb : TimerCallback) :
  crun target ls (idle (new target ssid password hostname autoConnect wifi now)) = Some s ->
  wf target (this (shared s)) /\
  (expired (timer_of t (this (shared s))) = Some cb -> cb = callback_of t).
Proof.
  intros Hrun. pose proof (wf_inv_crun target ls _ s (wf_new target _ _ _ _ _ _) Hrun) as Hwf.
  split; [done | by apply wf_expired with target].
Qed.

Lemma timers_well_formed_when_interrupted_witness :
  exists s,
    crun ESP32 interrupted_disconnect (idle (world_up ESP32)) = Some s /\
    wf ESP32 (this (shared s)) /\
    (expired (timer_of WifiConnectTimer (this (shared s))) = Some CbConnect ->
     CbConnect = callback_of WifiConnectTimer).
Proof.
  eexists. split; [vm_compute; reflexivity|].
  apply (timers_well_formed_when_interrupted ESP32 (Some "net"%string) (Some "pw"%string) None
           true wifi_up 0 interrupted_disconnect).
  vm_compute; reflexivity.
Defined.
