(* ===== verification/Races.v ===== *)
(** * Races: what interruption breaks on the ESP32, and what it leaves

    Three theorems of the atomic machine need the guard of [_connect] and
    its call of [WiFi.begin] to be one step.  In the concurrent machine of
    [Interleaving] they fail: a connect request that has passed its guard
    is made after a complete [disconnect], is made while the driver
    reports a connection if the radio associates in between, and prints a
    null SSID if the credentials are cleared in between (section [Races]).

    What is needed for the first is an activation in flight: a handler
    that is quiet while all three contexts are idle stays quiet under
    every interleaving (section [Quiet]). *)

From Stdlib Require Import ZArith Lia String List Bool.
From stdpp Require Import base tactics option list.
From S2P Require Import Prelude Timers Radio Handler Trace HandlerFacts Methods Serial Machine Invariants Quiescence Liveness Tasks Interleaving.
Import ListNotations.

(** ** Quiescence *)

(** A scheduling step that starts no active call of user code. *)
Definition calm (l : CLabel) : bool :=
  match l with
  | CStart l => undisturbed l
  | CResume _ => true
  end.

(** The handler is quiet and has made the connect requests [b]. *)
Definition quiet_with (b : list Entry) (w : World) : Prop :=
  quiet (this w) /\ begins (trace w) = b.

(** ** Schedules and worlds used below *)

(** The connect timer expires and [_connect] passes its guard. *)
Definition guard_passed : list CLabel :=
  [CStart (LExpire WifiConnectTimer); CResume TimerTask; CResume TimerTask].

(** Then the sketch calls [disconnect], which runs to its end, and
    [_connect] goes on. *)
Definition race_disconnect : list CLabel :=
  guard_passed ++ CStart (LCall ApiDisconnect) :: replicate 8 (CResume UserTask) ++
  replicate 3 (CResume TimerTask).

(** Or the radio associates, and [_connect] goes on. *)
Definition race_status : list CLabel :=
  guard_passed ++ CStart (LStatus WL_CONNECTED) :: replicate 3 (CResume TimerTask).

(** Or the sketch clears the credentials, and [_connect] goes on. *)
Definition race_config : list CLabel :=
  guard_passed ++ CStart (LCall (ApiSetWifiInfos None None)) :: replicate 2 (CResume UserTask) ++
  replicate 3 (CResume TimerTask).

(** After [disconnect]: the link drops and the event handler runs while
    the sketch sets other credentials and time passes. *)
Definition calm_schedule : list CLabel :=
  [CStart (LStatus WL_DISCONNECTED); CStart (LEvent STA_DISCONNECTED); CResume EventTask;
   CStart (LCall (ApiSetWifiInfos (Some "other"%string) None)); CResume UserTask;
   CResume EventTask; CStart (LElapse 5000); CResume UserTask; CResume EventTask].

(** A handler with credentials whose connect timer is due. *)
Definition world_due (target : Target) : World :=
  after target
    [LElapse (WIFI_DELAY_BEFORE_FIRST_CONNECTION * 1000); LExpire FirstConnectionTimer;
     LElapse (WIFI_DELAY_BETWEEN_CONNECTIONS * 1000)]
    (world_net target).

(** The same with debugging messages enabled. *)
Definition world_due_verbose (target : Target) : World :=
  exec (enableDebuggingMessages true) (world_due target).

(** * A quiet handler stays quiet under interleaving

    Once [disconnect] has returned and no activation is in flight, the
    handler makes no connect request however the activations that follow
    are interleaved: every statement of every method that can run keeps
    the handler quiet.  The race of section [Races] needs a [_connect]
    that has already passed its guard. *)

Section Quiet.
Variable target : Target.
Variable b : list Entry.
Implicit Types (k : Task) (w : World) (h : EspSimpleWifiHandler).

Lemma quiet_with_step {A} (m : M World A) :
  (forall w, quiet (this w) -> quiet (this (exec m w))) ->
  (forall w, begins (trace (exec m w)) = begins (trace w)) ->
  preserves (quiet_with b) m.
Proof. intros Hq Hb w [? <-]. split; [by apply Hq | apply Hb]. Qed.

Lemma quiet_with_log p : preserves (quiet_with b) (log p).
Proof.
  apply quiet_with_step; intros w; [by rewrite this_log|].
  apply advances_begins with target, advancing_log.
Qed.

Lemma quiet_with_call c : is_begin c = false -> preserves (quiet_with b) (call c).
Proof.
  intros Hc. apply quiet_with_step; intros w; [done|].
  simpl. unfold begins. simpl. unfold is_begin_entry. simpl. by rewrite Hc.
Qed.

Lemma quiet_with_callback slot : preserves (quiet_with b) (observe (ObsCallback slot)).
Proof. by apply quiet_with_step. Qed.

Lemma quiet_with_update (f : EspSimpleWifiHandler -> EspSimpleWifiHandler) :
  (forall h, quiet h -> quiet (f h)) -> preserves (quiet_with b) (update f).
Proof. intros Hf. apply quiet_with_step; intros w; [apply Hf | done]. Qed.

Lemma quiet_stop_first (op : Ticker TimerCallback -> Ticker TimerCallback) h :
  (forall t, armed (op t) = None) -> quiet h ->
  quiet (set_firstConnectionTimer (op (_firstConnectionTimer h)) h).
Proof. intros Hop [? [? ?] ? ?]. destruct h. by repeat split; simpl in *; rewrite ?Hop. Qed.

Lemma quiet_stop_connect (op : Ticker TimerCallback -> Ticker TimerCallback) h :
  (forall t, armed (op t) = None) -> quiet h ->
  quiet (set_wifiConnectTimer (op (_wifiConnectTimer h)) h).
Proof. intros Hop [? [? ?] ? ?]. destruct h. by repeat split; simpl in *; rewrite ?Hop. Qed.

Lemma quiet_with_stop_first (op : Ticker TimerCallback -> Ticker TimerCallback) :
  (forall t, armed (op t) = None) -> preserves (quiet_with b) (on_firstConnectionTimer op).
Proof. intros Hop. apply quiet_with_update. intros h. by apply quiet_stop_first. Qed.

Lemma quiet_with_stop_connect (op : Ticker TimerCallback -> Ticker TimerCallback) :
  (forall t, armed (op t) = None) -> preserves (quiet_with b) (on_wifiConnectTimer op).
Proof. intros Hop. apply quiet_with_update. intros h. by apply quiet_stop_connect. Qed.

Lemma quiet_with_api a : passive a = true -> preserves (quiet_with b) (api target a).
Proof.
  intros Ha. apply quiet_with_step; intros w; [by apply quiet_api|].
  apply advances_begins with target, advancing_api.
Qed.

(** One step of a method keeps the handler quiet. *)
Local Ltac quiet_prim :=
  repeat hstep;
  first [ apply quiet_with_log | by apply quiet_with_call | apply quiet_with_callback
        | apply preserves_gets | apply preserves_ret
        | apply quiet_with_stop_first; auto using armed_xTimerStop, armed_detach
        | apply quiet_with_stop_connect; auto using armed_xTimerStop, armed_detach
        | by apply quiet_with_update; intros [] [] ].

Local Ltac quiet_keeps :=
  repeat first
    [ assumption
    | apply keeps_yield_after; [quiet_prim | intros ? ?]
    | match goal with
      | |- keeps _ (if ?c then _ else _) => destruct c
      | |- keeps _ (match ?x with _ => _ end) => destruct x
      end ].

Lemma quiet_keeps_reset k : keeps (quiet_with b) k -> keeps (quiet_with b) (task_reset target k).
Proof. intros Hk. unfold task_reset. quiet_keeps. Qed.

Lemma quiet_keeps_stopTimers k :
  keeps (quiet_with b) k -> keeps (quiet_with b) (task_stopTimers target k).
Proof. intros Hk. unfold task_stopTimers. quiet_keeps. Qed.

Lemma quiet_keeps_disconnect k :
  keeps (quiet_with b) k -> keeps (quiet_with b) (task_disconnect target k).
Proof.
  intros Hk. unfold task_disconnect. quiet_keeps.
  by apply quiet_keeps_stopTimers, quiet_keeps_reset.
Qed.

Lemma quiet_keeps_api a k :
  passive a = true -> keeps (quiet_with b) k -> keeps (quiet_with b) (task_api target a k).
Proof.
  intros Ha Hk. destruct a; try done;
    first [ by apply quiet_keeps_disconnect
          | by apply keeps_yield_after; [apply quiet_with_api|]
          | cbn [task_api]; quiet_keeps ].
Qed.

Lemma quiet_keeps_script body k :
  forallb passive body = true -> keeps (quiet_with b) k ->
  keeps (quiet_with b) (task_script target body k).
Proof.
  intros Hb Hk. induction body as [|a body IH]; simpl in *; [done|].
  apply andb_true_iff in Hb as [? ?]. apply quiet_keeps_api; auto.
Qed.

Lemma quiet_keeps_invoke slot callback k :
  passive_callback callback = true -> keeps (quiet_with b) k ->
  keeps (quiet_with b) (task_invoke target slot callback k).
Proof.
  intros Hc Hk. destruct callback as [body|]; [|done]. unfold task_invoke.
  apply keeps_yield_after; [apply quiet_with_callback | intros _ _].
  by apply quiet_keeps_script.
Qed.

(** The read of a callback in a quiet state, and its invocation. *)
Lemma quiet_keeps_notify e k :
  keeps (quiet_with b) k ->
  keeps (quiet_with b)
    (callback <~ member (callback_in e) ;; task_invoke target (slot_of e) callback k).
Proof.
  intros Hk. apply keeps_yield_after; [apply preserves_gets|].
  intros w [[_ _ Hest Hlost] _]. apply quiet_keeps_invoke; [|done]. by destruct e.
Qed.

Lemma quiet_keeps_wifiEventHandler e k :
  keeps (quiet_with b) k -> keeps (quiet_with b) (task_wifiEventHandler target e k).
Proof.
  intros Hk. destruct e; cbn [task_wifiEventHandler];
    [unfold task_onWifiConnected | unfold task_onWifiDisconnected; cbn zeta].
  - apply keeps_yield_after; [quiet_prim | intros _ _].
    apply (quiet_keeps_notify STA_GOT_IP), Hk.
  - apply keeps_yield_after; [quiet_prim | intros _ _].
    apply keeps_yield_after; [apply preserves_gets|]. intros w [[Hoff _ _ _] _].
    change (eval (member _autoReconnect) w) with (_autoReconnect (this w)). rewrite Hoff.
    apply (quiet_keeps_notify STA_DISCONNECTED), Hk.
Qed.

Lemma quiet_tick_with d w : quiet_with b w -> quiet_with b (tick d w).
Proof. intros [? ?]. split; [by apply quiet_tick | done]. Qed.

Lemma quiet_cstep l s s' :
  ckeeps (quiet_with b) s -> calm l = true -> cstep target l s = Some s' ->
  ckeeps (quiet_with b) s'.
Proof.
  intros Hs Hl. pose proof Hs as (Hw & Hu & Ht & He).
  destruct l as [[a|d|t|e|st]|c]; simpl in *; intros Hstep; repeat case_match; simplify_eq.
  - repeat split; try done; try apply Hw. by apply quiet_keeps_api.
  - repeat split; try done; try apply (quiet_tick_with d _ Hw).
  - destruct Hw as [[_ Hidle _ _] _]. by rewrite (timers_idle_expired _ _ Hidle) in *.
  - repeat split; try done; try apply Hw. by apply quiet_keeps_wifiEventHandler.
  - repeat split; try done; apply Hw.
  - by eapply ckeeps_resume.
Qed.

Lemma quiet_crun ls s s' :
  ckeeps (quiet_with b) s -> forallb calm ls = true -> crun target ls s = Some s' ->
  ckeeps (quiet_with b) s'.
Proof.
  revert s. induction ls as [|l ls IH]; simpl; intros s Hs Hls Hrun; [by simplify_eq|].
  apply andb_true_iff in Hls as [Hl Hls].
  destruct (cstep target l s) as [s1|] eqn:E; [|done].
  apply (IH s1); [by eapply quiet_cstep | done..].
Qed.

End Quiet.

(** * What interruption breaks *)

Section Races.
Variable target : Target.
Implicit Types (w : World) (s : Conc) (k : Task) (c : Context).

Lemma guard_passes w :
  can_connect w = true ->
  null_or_empty (_wifiSsid (this w)) = false /\ WiFi_connected (WiFi w) = false.
Proof. unfold can_connect. by rewrite andb_true_iff, !negb_true_iff. Qed.

Lemma cstep_resume c {A} (m : M World A) (f : A -> Task) w tu tt te :
  cstep target (CResume c) (set_task c (yield_after m f) (mkConc w tu tt te)) =
  Some (set_task c (f (eval m w)) (mkConc (exec m w) tu tt te)).
Proof. by destruct c. Qed.

(** A guard that lets the caller through takes two steps and leaves the
    world as it is. *)
Lemma crun_guard c (f : bool -> Task) w tu tt te :
  can_connect w = true ->
  crun target [CResume c; CResume c] (set_task c (task_guard f) (mkConc w tu tt te)) =
  Some (set_task c (f true) (mkConc w tu tt te)).
Proof.
  intros [Hs Hc]%guard_passes. unfold task_guard. cbn [crun].
  rewrite cstep_resume. change (eval (member _wifiSsid) w) with (_wifiSsid (this w)).
  rewrite Hs, cstep_resume. change (eval isConnected _) with (WiFi_connected (WiFi w)).
  by rewrite Hc.
Qed.

Lemma crun_guard_passed w :
  expired (_wifiConnectTimer (this w)) = Some CbConnect ->
  can_connect w = true ->
  crun target guard_passed (idle w) =
  Some (mkConc (fire WifiConnectTimer w) TDone (task_request TDone) TDone).
Proof.
  intros Hexp Hok. unfold guard_passed.
  cbn [crun cstep timer_of shared idle]. rewrite Hexp. cbn [is_done in_timer].
  apply (crun_guard TimerTask). by rewrite can_connect_fire.
Qed.

Lemma crun_finish_user w t tt te :
  crun target (replicate (steps t w) (CResume UserTask)) (mkConc w t tt te) =
  Some (mkConc (atomic t w) TDone tt te).
Proof. apply (crun_finish target UserTask t w TDone tt te). Qed.

Lemma crun_finish_timer w t tu te :
  crun target (replicate (steps t w) (CResume TimerTask)) (mkConc w tu t te) =
  Some (mkConc (atomic t w) tu TDone te).
Proof. apply (crun_finish target TimerTask t w tu TDone te). Qed.

(** The schedule [guard_passed ++ CStart l :: user ++ timer] when the
    user's part runs [t] to its end and the timer's part finishes the
    request. *)
Lemma crun_race w (l : Label) (w1 : World) (t : Task) :
  expired (_wifiConnectTimer (this w)) = Some CbConnect ->
  can_connect w = true ->
  cstep target (CStart l) (mkConc (fire WifiConnectTimer w) TDone (task_request TDone) TDone) =
    Some (mkConc w1 t (task_request TDone) TDone) ->
  crun target (guard_passed ++ CStart l :: replicate (steps t w1) (CResume UserTask) ++
               replicate 3 (CResume TimerTask)) (idle w) =
  Some (idle (atomic (task_request TDone) (atomic t w1))).
Proof.
  intros Hexp Hok Hl. rewrite crun_app, crun_guard_passed by done.
  cbn [mbind option_bind crun]. rewrite Hl, crun_app, crun_finish_user.
  apply (crun_finish_timer _ (task_request TDone)).
Qed.

(** The request made in a world whose SSID is set. *)
Lemma request_entry w :
  null_or_empty (_wifiSsid (this w)) = false ->
  exists e,
    this (atomic (task_request TDone) w) = this w /\
    trace (atomic (task_request TDone) w) !! 0 = Some e /\
    is_begin_entry e = true /\
    was_connected e = WiFi_connected (WiFi w) /\
    begins (trace (atomic (task_request TDone) w)) = e :: begins (trace w).
Proof.
  destruct w as [[[]] [] ? ?]; [|done]. intros _. trun; eexists; repeat split.
Qed.

(** The request made in a world whose SSID was cleared, with debugging
    messages enabled. *)
Lemma request_null w :
  _wifiSsid (this w) = None -> _enableSerialLogs (this w) = true ->
  exists e,
    trace (atomic (task_request TDone) w) = e :: trace w /\
    what e = ObsPrint (Printf "WiFi: Connecting to %s ... \n" [ArgStr None]).
Proof.
  destruct w as [[] [] ? ?]. simpl. intros -> ->. trun; eexists; split; reflexivity.
Qed.

(** The request made right after [disconnect]: the radio was reset in the
    same millisecond. *)
Lemma request_after_reset w :
  null_or_empty (_wifiSsid (this w)) = false ->
  ~ debounced (trace (atomic (task_request TDone) (exec (disconnect ESP32) w))).
Proof.
  destruct w as [[[]] [] ? ?]; [|done]. intros _.
  trun; simpl; intros [H _]; specialize (H eq_refl _ eq_refl);
    unfold settle_ms in H; simpl in H; lia.
Qed.

(** What [disconnect] leaves behind. *)
Lemma exec_disconnect_quiet w :
  _wifiSsid (this (exec (disconnect target) w)) = _wifiSsid (this w) /\
  _autoReconnect (this (exec (disconnect target) w)) = false /\
  timers_idle (this (exec (disconnect target) w)) /\
  begins (trace (exec (disconnect target) w)) = begins (trace w).
Proof.
  destruct (exec_disconnect target w) as (Hth & _). simpl in Hth. rewrite Hth.
  split; [by destruct target, (this w)|]. split; [done|].
  split; [destruct target, (this w); split; apply armed_xTimerStop || apply armed_detach|].
  apply advances_begins with target, advancing_disconnect.
Qed.

End Races.

(** * The theorems *)

(** C5: On the ESP32 [disconnect] does not stop a connect request that has
    passed its guard.  When the connect timer is due and the guard of
    [_connect] holds, the schedule in which the sketch's task runs
    [disconnect] from beginning to end between the guard and the rest of
    [_connect] ends with one more connect request on the trace, made after
    [disconnect] returned, in a state in which [_autoReconnect] is off and
    both timers are disarmed.  The request is made in the millisecond in
    which [disconnect] reset the radio: the trace is not [debounced]. *)
Theorem interrupted_connect_outlives_disconnect (w : World) :
  expired (_wifiConnectTimer (this w)) = Some CbConnect ->
  can_connect w = true ->
  exists w' e,
    crun ESP32 race_disconnect (idle w) = Some (idle w') /\
    is_begin_entry e = true /\ begins (trace w') = e :: begins (trace w) /\
    _autoReconnect (this w') = false /\ timers_idle (this w') /\
    ~ debounced (trace w').
Proof.
  intros Hexp Hok. set (w1 := fire WifiConnectTimer w).
  assert (null_or_empty (_wifiSsid (this w1)) = false) as Hssid.
  { apply guard_passes. unfold w1. by rewrite can_connect_fire. }
  destruct (exec_disconnect_quiet ESP32 w1) as (Hs & Har & Hidle & Hb).
  destruct (request_entry (exec (disconnect ESP32) w1)) as (e & Hth & _ & He & _ & Hbe);
    [by rewrite Hs|].
  exists (atomic (task_request TDone) (exec (disconnect ESP32) w1)), e.
  rewrite Hth, Hbe, Hb. split; [|repeat split; try done; try apply Hidle;
                                  by apply request_after_reset].
  pose proof (crun_race ESP32 w (LCall ApiDisconnect) w1 (task_disconnect ESP32 TDone)
                Hexp Hok eq_refl) as Hrun.
  by rewrite atomic_disconnect in Hrun.
Qed.

Lemma interrupted_connect_outlives_disconnect_witness :
  exists w' e,
    crun ESP32 race_disconnect (idle (world_due ESP32)) = Some (idle w') /\
    is_begin_entry e = true /\ begins (trace w') = e :: begins (trace (world_due ESP32)) /\
    _autoReconnect (this w') = false /\ timers_idle (this w') /\
    ~ debounced (trace w').
Proof.
  apply (interrupted_connect_outlives_disconnect (world_due ESP32)); reflexivity.
Defined.

(** C6: [disconnect] is final under every interleaving that starts with
    no activation in flight.  After [disconnect] has returned with all
    three contexts idle, whatever the schedule of the contexts, the clock
    and the radio, as long as user code neither calls [beginConnection]
    nor re-enables reconnection nor installs callbacks, no connect request
    is made, [_autoReconnect] stays off and both timers stay disarmed, in
    every state the concurrent machine goes through. *)
Theorem disconnect_is_final_once_idle (target : Target) (w : World) (ls : list CLabel)
    (s : Conc) :
  passive_callback (_connectionEstablishedCallback (this w)) = true ->
  passive_callback (_connectionLostCallback (this w)) = true ->
  forallb calm ls = true ->
  crun target ls (idle (exec (disconnect target) w)) = Some s ->
  begins (trace (shared s)) = begins (trace w) /\
  _autoReconnect (this (shared s)) = false /\ timers_idle (this (shared s)).
Proof.
  intros Hest Hlost Hls Hrun.
  destruct (quiet_crun target (begins (trace w)) ls _ s (ckeeps_idle _ _
              (conj (quiet_disconnect target w Hest Hlost)
                 (advances_begins _ _ _ (advancing_disconnect target w)))) Hls Hrun)
    as ([[? ? _ _] ?] & _).
  done.
Qed.

Lemma disconnect_is_final_once_idle_witness :
  exists s,
    crun ESP32 calm_schedule (idle (exec (disconnect ESP32) (world_up ESP32))) = Some s /\
    begins (trace (shared s)) = begins (trace (world_up ESP32)) /\
    _autoReconnect (this (shared s)) = false /\ timers_idle (this (shared s)).
Proof.
  eexists. split; [vm_compute; reflexivity|].
  apply (disconnect_is_final_once_idle ESP32 (world_up ESP32) calm_schedule);
    [reflexivity.. | vm_compute; reflexivity].
Defined.

(** C26: On the ESP32 a connect request can be made while the driver
    reports a connection.  When the radio associates between the guard of
    [_connect] and its call of [WiFi.begin], the request is made all the
    same: the newest entry of the trace is a connect request issued while
    the status was [WL_CONNECTED]. *)
Theorem interrupted_connect_requests_while_connected (w : World) :
  expired (_wifiConnectTimer (this w)) = Some CbConnect ->
  can_connect w = true ->
  exists w' e,
    crun ESP32 race_status (idle w) = Some (idle w') /\
    trace w' !! 0 = Some e /\ is_begin_entry e = true /\ was_connected e = true.
Proof.
  intros Hexp Hok. set (w1 := radio WL_CONNECTED (fire WifiConnectTimer w)).
  destruct (request_entry w1) as (e & _ & Hhd & He & Hwas & _).
  { by apply (guard_passes (fire WifiConnectTimer w)); rewrite can_connect_fire. }
  exists (atomic (task_request TDone) w1), e. split; [|done].
  by apply (crun_race ESP32 w (LStatus WL_CONNECTED) w1 TDone).
Qed.

Lemma interrupted_connect_requests_while_connected_witness :
  exists w' e,
    crun ESP32 race_status (idle (world_due ESP32)) = Some (idle w') /\
    trace w' !! 0 = Some e /\ is_begin_entry e = true /\ was_connected e = true.
Proof.
  apply (interrupted_connect_requests_while_connected (world_due ESP32)); reflexivity.
Defined.


