(* ===== verification/Scenarios.v ===== *)
(** * Scenarios: runs of the machine, by evaluation

    The scenarios the specification lists as testable properties, run on
    the model, and the runs in which the code departs from what the
    specification says of it.  Every statement here is closed and is
    proved by evaluating [run]. *)

From Stdlib Require Import ZArith Lia String List Bool.
From stdpp Require Import base tactics option list.
From S2P Require Import Prelude Timers Radio Handler Trace HandlerFacts Methods Machine Liveness.
Import ListNotations.
Open Scope string_scope.

(** What a scenario observes of a state: which timers are armed and for how
    long, [_autoReconnect], the driver calls with their time (newest
    first), the callbacks run. *)
Record Snapshot := mkSnapshot {
  first_timer : option nat;
  connect_timer : option nat;
  auto_reconnect : bool;
  calls : list (nat * WiFiCall);
  notified : list CallbackSlot
}.

Definition timed_calls (tr : list Entry) : list (nat * WiFiCall) :=
  omap (fun e => match what e with ObsWiFi c => Some (at_ms e, c) | _ => None end) tr.

Definition snapshot (w : World) : Snapshot :=
  {| first_timer := fst <$> armed (_firstConnectionTimer (this w));
     connect_timer := fst <$> armed (_wifiConnectTimer (this w));
     auto_reconnect := _autoReconnect (this w);
     calls := timed_calls (trace w);
     notified := callbacks_run (trace w) |}.

(** The snapshot after a run from a fresh handler, and the calls made
    since construction. *)
Definition observe_run (target : Target) (ls : list Label) (w : World) : option Snapshot :=
  snapshot <$> run target ls w.

Definition since (w : World) (s : Snapshot) : list (nat * WiFiCall) :=
  take (length (calls s) - length (timed_calls (trace w))) (calls s).

(** A handler for an open network, built without automatic connection. *)
Definition world_open (target : Target) : World :=
  new target (Some "net") (Some "") None false wifi_boot 0.

(** A connected handler whose user has switched reconnection off and
    registered a connection-lost callback that does nothing. *)
Definition world_manual (target : Target) : World :=
  after target [LCall (ApiSetAutoReconnect false); LCall (ApiOnConnectionLost (Some []))]
    (world_up target).

(** Both timers armed: a disassociation event one second after boot. *)
Definition early_loss : list Label :=
  [LElapse 1000; LEvent STA_DISCONNECTED].

(** Two calls of [beginConnection], each followed by the delay, with no
    event in between: the first attempt is still in progress. *)
Definition begin_twice : list Label :=
  LCall ApiBeginConnection :: retry_delay ++ LCall ApiBeginConnection :: retry_delay.

(** An early disassociation starts an attempt at two seconds; at three
    seconds the first-connection timer expires. *)
Definition disrupted_attempt : list Label :=
  early_loss ++ retry_delay ++ [LElapse 1000; LExpire FirstConnectionTimer] ++ retry_delay.

(** ** The scenarios of the specification *)

(** Scenario: constructed with ("net", "pw", no host name,
    autoConnect): the first-connection timer is armed for three seconds;
    after its expiry the connect timer is armed for one second and the
    radio has been reset; after its expiry a connect request with
    ("net", "pw") has been made. *)
Example scenario_auto_connect :
  snapshot (world_net ESP32) =
    mkSnapshot (Some 3000) None true
      [(0, OnEvent STA_DISCONNECTED); (0, OnEvent STA_GOT_IP)] [] /\
  (since (world_net ESP32) <$> observe_run ESP32 start_delay (world_net ESP32)) =
    Some [(3000, Mode 0); (3000, Disconnect32 false true); (3000, Mode 1)] /\
  (connect_timer <$> observe_run ESP32 start_delay (world_net ESP32)) = Some (Some 1000) /\
  (since (world_net ESP32) <$> observe_run ESP32 (start_delay ++ retry_delay) (world_net ESP32)) =
    Some [(4000, Begin "net" (Some "pw"));
          (3000, Mode 0); (3000, Disconnect32 false true); (3000, Mode 1)].
Proof. repeat split; vm_compute; reflexivity. Qed.

(** Scenario: constructed with ("net", empty password, no automatic
    connection): no timer is armed at construction; [beginConnection]
    makes no connect request at once, and after the delay an open connect
    request with "net" and no password. *)
Example scenario_open_network :
  first_timer (snapshot (world_open ESP8266)) = None /\
  connect_timer (snapshot (world_open ESP8266)) = None /\
  (since (world_open ESP8266) <$>
     observe_run ESP8266 [LCall ApiBeginConnection] (world_open ESP8266)) =
    Some [(0, Mode 1); (0, Disconnect8266 true)] /\
  (since (world_open ESP8266) <$>
     observe_run ESP8266 (LCall ApiBeginConnection :: retry_delay) (world_open ESP8266)) =
    Some [(1000, Begin "net" None); (0, Mode 1); (0, Disconnect8266 true)].
Proof. repeat split; vm_compute; reflexivity. Qed.

(** Scenario: connected, [_autoReconnect] off, then a disassociation
    event: no retry is scheduled, no driver call is made, and the
    connection-lost callback runs once. *)
Example scenario_loss_without_reconnect :
  let w := world_manual ESP32 in
  let s := observe_run ESP32 [LStatus WL_DISCONNECTED; LEvent STA_DISCONNECTED] w in
  (connect_timer <$> s) = Some None /\
  (since w <$> s) = Some [] /\
  (notified <$> s) = Some [ConnectionLost].
Proof. repeat split; vm_compute; reflexivity. Qed.

(** Scenario: a disassociation event delivered twice in immediate
    succession with [_autoReconnect] set: the radio is reset twice, one
    timer carries the retry, and one connect request follows. *)
Example scenario_double_loss :
  let w := after ESP32 (start_delay ++ retry_delay ++ [LStatus WL_CONNECTED; LEvent STA_GOT_IP])
             (world_net ESP32) in
  let s1 := observe_run ESP32
              [LStatus WL_DISCONNECTED; LEvent STA_DISCONNECTED; LEvent STA_DISCONNECTED] w in
  let s2 := observe_run ESP32
              ([LStatus WL_DISCONNECTED; LEvent STA_DISCONNECTED; LEvent STA_DISCONNECTED] ++
               retry_delay) w in
  (connect_timer <$> s1) = Some (Some 1000) /\
  (since w <$> s2) =
    Some [(5000, Begin "net" (Some "pw"));
          (4000, Disconnect32 false true); (4000, Disconnect32 false true)] /\
  observe_run ESP32
    ([LStatus WL_DISCONNECTED; LEvent STA_DISCONNECTED; LEvent STA_DISCONNECTED] ++
     retry_delay ++ [LExpire WifiConnectTimer]) w = None.
Proof. repeat split; vm_compute; reflexivity. Qed.

(** ** Where the code departs from the specification *)




(** On the ESP8266 [_reset] does not preserve the radio mode: a
    driver in access-point-and-station mode is left in station mode only,
    while on the ESP32 the access-point bit survives. *)
Example reset_drops_access_point :
  let r := mkWiFi WIFI_MODE_APSTA WL_CONNECTED None None 0 true true in
  wifi_mode (WiFi (exec (_reset ESP8266) (boot r 0))) = WIFI_MODE_STA /\
  wifi_mode (WiFi (exec (_reset ESP32) (boot r 0))) = WIFI_MODE_APSTA /\
  let a := mkWiFi WIFI_MODE_AP WL_IDLE_STATUS None None 0 true true in
  wifi_mode (WiFi (exec (_reset ESP8266) (boot a 0))) = WIFI_MODE_STA /\
  wifi_mode (WiFi (exec (_reset ESP32) (boot a 0))) = WIFI_MODE_AP.
Proof. repeat split; vm_compute; reflexivity. Qed.
