(* ===== verification/Abstract.v ===== *)
(** * Abstract: the connection supervisor of the specification

    The specification describes the handler as a state machine over two
    timers, the reconnection flag and the connection status.  This file
    defines that machine on its own, with no driver, no trace, no strings
    and no platform: [AState] keeps what decides the control flow, [astep]
    is its transition function over the labels of [Machine].  [Refinement]
    proves that both builds of the code implement it.

    The machine follows the code where the code and the wording of the
    specification differ: a disassociation event leaves the start timer
    running, and [a_begin] refuses only when connected. *)

From Stdlib Require Import ZArith Lia String List Bool.
From stdpp Require Import base tactics option list.
From S2P Require Import Prelude Timers Radio Handler Trace HandlerFacts Machine.
Import ListNotations.

Record AState := mkAState {
  a_configured : bool;       (* an SSID is set and is not empty *)
  a_auto : bool;             (* automatic reconnection *)
  a_established : Callback;  (* the connected notification *)
  a_lost : Callback;         (* the disconnected notification *)
  a_start : option nat;      (* the start timer: time left if armed *)
  a_retry : option nat;      (* the retry timer: time left if armed *)
  a_up : bool;               (* the platform reports a connection *)
  a_pending : bool;          (* a connect request is the last thing asked of the radio *)
  a_requests : nat           (* connect requests made so far *)
}.

(** The states of section 4 of the specification. *)
Inductive Phase :=
| Idle
| AwaitingInitialDelay
| AwaitingRetryDelay
| Connecting
| Connected.

#[export] Instance Phase_eq_dec : EqDecision Phase.
Proof. solve_decision. Defined.

Definition phase (s : AState) : Phase :=
  if a_up s then Connected
  else match a_retry s, a_start s with
       | Some _, _ => AwaitingRetryDelay
       | None, Some _ => AwaitingInitialDelay
       | None, None => if a_pending s then Connecting else Idle
       end.

(** ** Updates *)

Definition with_configured (b : bool) (s : AState) : AState :=
  mkAState b (a_auto s) (a_established s) (a_lost s) (a_start s) (a_retry s)
    (a_up s) (a_pending s) (a_requests s).

Definition with_auto (b : bool) (s : AState) : AState :=
  mkAState (a_configured s) b (a_established s) (a_lost s) (a_start s) (a_retry s)
    (a_up s) (a_pending s) (a_requests s).

Definition with_established (c : Callback) (s : AState) : AState :=
  mkAState (a_configured s) (a_auto s) c (a_lost s) (a_start s) (a_retry s)
    (a_up s) (a_pending s) (a_requests s).

Definition with_lost (c : Callback) (s : AState) : AState :=
  mkAState (a_configured s) (a_auto s) (a_established s) c (a_start s) (a_retry s)
    (a_up s) (a_pending s) (a_requests s).

Definition with_timers (start retry : option nat) (s : AState) : AState :=
  mkAState (a_configured s) (a_auto s) (a_established s) (a_lost s) start retry
    (a_up s) (a_pending s) (a_requests s).

Definition with_up (b : bool) (s : AState) : AState :=
  mkAState (a_configured s) (a_auto s) (a_established s) (a_lost s) (a_start s) (a_retry s)
    b (a_pending s) (a_requests s).

(** ** Operations *)

(** canAttempt(). *)
Definition a_can (s : AState) : bool := a_configured s && negb (a_up s).

(** reset(): the association is torn down. *)
Definition a_reset (s : AState) : AState :=
  mkAState (a_configured s) (a_auto s) (a_established s) (a_lost s) (a_start s) (a_retry s)
    false false (a_requests s).

(** scheduleAttempt(): reset, then arm the retry timer. *)
Definition a_schedule (s : AState) : AState :=
  with_timers (a_start s) (Some settle_ms) (a_reset s).

(** beginConnection(). *)
Definition a_begin (s : AState) : AState :=
  if a_can s then a_schedule (with_timers None None s) else s.

(** disconnect(). *)
Definition a_disconnect (s : AState) : AState :=
  a_reset (with_timers None None (with_auto false s)).

(** attemptConnect(). *)
Definition a_connect (s : AState) : AState :=
  if a_can s then
    mkAState (a_configured s) (a_auto s) (a_established s) (a_lost s) (a_start s) (a_retry s)
      (a_up s) true (S (a_requests s))
  else s.

(** One call of the public surface. *)
Definition a_api (a : ApiCall) (s : AState) : AState :=
  match a with
  | ApiEnableDebuggingMessages _ | ApiIsConnected | ApiSetHostname _ => s
  | ApiSetWifiInfos wifiSsid _ => with_configured (negb (null_or_empty wifiSsid)) s
  | ApiSetAutoReconnect autoReconnect => with_auto autoReconnect s
  | ApiOnConnectionEstablished callback => with_established callback s
  | ApiOnConnectionLost callback => with_lost callback s
  | ApiBeginConnection => a_begin s
  | ApiDisconnect => a_disconnect s
  end.

(** A notification: the user's code calls the public surface. *)
Fixpoint a_script (body : list ApiCall) (s : AState) : AState :=
  match body with
  | [] => s
  | a :: rest => a_script rest (a_api a s)
  end.

Definition a_invoke (c : Callback) (s : AState) : AState :=
  match c with
  | Some body => a_script body s
  | None => s
  end.

(** onAssociated() and onDisassociated(). *)
Definition a_event (e : WiFiEvent) (s : AState) : AState :=
  match e with
  | STA_GOT_IP => a_invoke (a_established s) s
  | STA_DISCONNECTED =>
      a_invoke (a_lost s) (if a_auto s then a_schedule s else s)
  end.

Definition a_tick (d : nat) (s : AState) : AState :=
  with_timers ((fun r => r - d) <$> a_start s) ((fun r => r - d) <$> a_retry s) s.

(** A timer expires: it is disarmed and its operation runs. *)
Definition a_expire (t : TimerName) (s : AState) : option AState :=
  match t with
  | FirstConnectionTimer =>
      match a_start s with
      | Some 0 => Some (a_begin (with_timers None (a_retry s) s))
      | _ => None
      end
  | WifiConnectTimer =>
      match a_retry s with
      | Some 0 => Some (a_connect (with_timers (a_start s) None s))
      | _ => None
      end
  end.

Definition astep (l : Label) (s : AState) : option AState :=
  match l with
  | LCall a => Some (a_api a s)
  | LElapse d => Some (a_tick d s)
  | LExpire t => a_expire t s
  | LEvent e => Some (a_event e s)
  | LStatus st => Some (with_up (bool_decide (st = WL_CONNECTED)) s)
  end.

Fixpoint arun (ls : list Label) (s : AState) : option AState :=
  match ls with
  | [] => Some s
  | l :: ls' =>
      match astep l s with
      | Some s' => arun ls' s'
      | None => None
      end
  end.

(** Construction: configured or not, with or without automatic connection,
    on a platform that is connected or not. *)
Definition a_new (configured autoConnect up : bool) : AState :=
  mkAState configured true None None
    (if autoConnect then Some (WIFI_DELAY_BEFORE_FIRST_CONNECTION * 1000) else None)
    None up false 0.

Inductive areachable : AState -> Prop :=
| areachable_new configured autoConnect up :
    areachable (a_new configured autoConnect up)
| areachable_step s l s' :
    areachable s -> astep l s = Some s' -> areachable s'.

(** ** The phases of the operations *)

Section Phases.
Implicit Types (s : AState) (a : ApiCall).

Lemma phase_reset_idle s :
  a_start s = None -> a_retry s = None -> phase (a_reset s) = Idle.
Proof. unfold phase. simpl. by intros -> ->. Qed.

Lemma phase_disconnect s : phase (a_disconnect s) = Idle.
Proof. reflexivity. Qed.

Lemma phase_schedule s : phase (a_schedule s) = AwaitingRetryDelay.
Proof. reflexivity. Qed.

Lemma phase_begin s :
  phase (a_begin s) = if a_can s then AwaitingRetryDelay else phase s.
Proof. unfold a_begin. by destruct (a_can s). Qed.

Lemma a_can_phase s : a_can s = true -> phase s <> Connected.
Proof.
  unfold a_can, phase. rewrite andb_true_iff, negb_true_iff. intros [_ ->].
  by repeat case_match.
Qed.

Lemma phase_connect s :
  a_start s = None -> a_retry s = None ->
  phase (a_connect s) = if a_can s then Connecting else phase s.
Proof.
  unfold a_connect. destruct (a_can s) eqn:E; [|done].
  apply andb_true_iff in E as [_ E%negb_true_iff]. unfold phase. simpl. by intros -> ->; rewrite E.
Qed.

(** ** What never changes *)

Lemma a_api_requests a s : a_requests (a_api a s) = a_requests s.
Proof. destruct a; try done; simpl; unfold a_begin; by destruct (a_can s). Qed.

Lemma a_script_requests body s : a_requests (a_script body s) = a_requests s.
Proof.
  revert s. induction body as [|a body IH]; intros s; simpl; [done|].
  by rewrite IH, a_api_requests.
Qed.

Lemma a_invoke_requests c s : a_requests (a_invoke c s) = a_requests s.
Proof. destruct c; [apply a_script_requests | done]. Qed.

Lemma a_event_requests e s : a_requests (a_event e s) = a_requests s.
Proof. destruct e; simpl; rewrite a_invoke_requests; [done | by destruct (a_auto s)]. Qed.

(** Connect requests are made at the expiry of the retry timer and nowhere
    else, and only while the platform reports no connection. *)
Lemma astep_requests l s s' :
  astep l s = Some s' ->
  a_requests s' = a_requests s \/
  (l = LExpire WifiConnectTimer /\ a_requests s' = S (a_requests s) /\
   a_up s = false /\ a_pending s' = true).
Proof.
  destruct l as [a|d|[]|e|st]; simpl; intros H; repeat case_match; simplify_eq.
  - left. apply a_api_requests.
  - by left.
  - left. unfold a_begin. by case_match.
  - unfold a_connect. destruct (a_can _) eqn:E; [right | by left].
    apply andb_true_iff in E as [_ E%negb_true_iff]. done.
  - left. apply a_event_requests.
  - by left.
Qed.

Lemma arun_app ls1 ls2 s : arun (ls1 ++ ls2) s = arun ls1 s ≫= arun ls2.
Proof.
  revert s. induction ls1 as [|l ls1 IH]; intros s; simpl; [done|].
  destruct (astep l s); simpl; [apply IH | done].
Qed.

Lemma areachable_run ls s s' : areachable s -> arun ls s = Some s' -> areachable s'.
Proof.
  revert s. induction ls as [|l ls IH]; simpl; intros s Hs H; [by simplify_eq|].
  destruct (astep l s) as [s1|] eqn:E; [|done].
  eapply IH; [|done]. by eapply areachable_step.
Qed.

End Phases.
