(* ===== verification/Refinement.v ===== *)
(** * Refinement: the code implements the abstract supervisor

    [abs] reads from a [World] what the abstract machine keeps: whether an
    SSID is configured, the reconnection flag, the callbacks, the time left
    on each timer, whether the driver reports a connection, whether the
    newest driver call is a connect request, and how many connect requests
    were made.  Every method of the handler commutes with [abs]; so every
    transition of the concrete machine, on either platform, is the
    transition of the abstract machine under the same label, and the
    abstract machine can make a transition exactly when the code can. *)

From Stdlib Require Import ZArith Lia String List Bool.
From stdpp Require Import base tactics option list.
From S2P Require Import Prelude Timers Radio Handler Trace HandlerFacts Methods Machine Safety.
From S2P Require Import Abstract.
Import ListNotations.

Definition newest_is_begin (cs : list WiFiCall) : bool :=
  match cs with
  | c :: _ => is_begin c
  | [] => false
  end.

(** The abstract state of a handler [h] on a driver that reports [up] after
    the driver calls [cs]. *)
Definition abs_of (h : EspSimpleWifiHandler) (up : bool) (cs : list WiFiCall) : AState :=
  {| a_configured := negb (null_or_empty (_wifiSsid h));
     a_auto := _autoReconnect h;
     a_established := _connectionEstablishedCallback h;
     a_lost := _connectionLostCallback h;
     a_start := fst <$> armed (_firstConnectionTimer h);
     a_retry := fst <$> armed (_wifiConnectTimer h);
     a_up := up;
     a_pending := newest_is_begin cs;
     a_requests := length (List.filter is_begin cs) |}.

Definition abs (w : World) : AState :=
  abs_of (this w) (WiFi_connected (WiFi w)) (wifi_calls (trace w)).

(** The phases a run goes through, from its first state on. *)
Fixpoint trail (target : Target) (ls : list Label) (w : World) : list Phase :=
  phase (abs w) ::
  match ls with
  | [] => []
  | l :: ls' =>
      match step target l w with
      | Some w' => trail target ls' w'
      | None => []
      end
  end.

(** A connection is made, lost, made again and given up. *)
Definition lifecycle : list Label :=
  first_attempt ++ link_lost ++
  [LElapse (WIFI_DELAY_BETWEEN_CONNECTIONS * 1000); LExpire WifiConnectTimer;
   LStatus WL_CONNECTED; LEvent STA_GOT_IP; LCall ApiDisconnect].

Section Refinement.
Variable target : Target.
Implicit Types (w : World) (h : EspSimpleWifiHandler) (cs : list WiFiCall) (s : AState).

(** ** Driver calls that are no connect request *)

Lemma reset_calls_cons m : exists c cs, reset_calls target m = c :: cs /\ is_begin c = false.
Proof. unfold reset_calls. destruct target; [|case_match]; by eexists _, _. Qed.

Lemma filter_begin_reset m cs :
  List.filter is_begin (reset_calls target m ++ cs) = List.filter is_begin cs.
Proof. unfold reset_calls. destruct target; [|case_match]; done. Qed.

Lemma filter_begin_hostname hostname cs :
  List.filter is_begin (hostname_calls target hostname ++ cs) = List.filter is_begin cs.
Proof. by destruct target, hostname. Qed.

(** ** How [abs_of] changes with its arguments *)

(** Driver calls that are no connect request reset the abstract state,
    provided the driver reports no connection afterwards. *)
Lemma abs_of_calls h up cs0 cs :
  cs0 <> [] -> List.filter is_begin cs0 = [] ->
  abs_of h false (cs0 ++ cs) = a_reset (abs_of h up cs).
Proof.
  intros Hne Hnb. unfold abs_of, a_reset. simpl.
  rewrite List.filter_app, Hnb. simpl. f_equal.
  destruct cs0 as [|c cs0]; [done|]. simpl in *. by destruct (is_begin c).
Qed.

Lemma abs_of_reset h up m cs :
  abs_of h false (reset_calls target m ++ cs) = a_reset (abs_of h up cs).
Proof.
  apply abs_of_calls; unfold reset_calls; destruct target; try case_match; done.
Qed.

Lemma abs_of_reset_hostname h up m hostname cs :
  abs_of h false (reset_calls target m ++ hostname_calls target hostname ++ cs) =
  a_reset (abs_of h up cs).
Proof.
  rewrite app_assoc. apply abs_of_calls.
  - unfold reset_calls. destruct target; [|case_match]; done.
  - unfold reset_calls. destruct target, hostname; try case_match; done.
Qed.

Lemma abs_of_stopped h up cs :
  abs_of (stopped target h) up cs = with_timers None None (abs_of h up cs).
Proof.
  destruct (stopped_members target h) as (E1 & _ & _ & E2 & _ & E3 & E4).
  destruct (stopped_idle target h) as [F1 F2].
  unfold abs_of, with_timers. simpl. by rewrite E1, E2, E3, E4, F1, F2.
Qed.

Lemma abs_of_scheduled h up cs :
  wf target h ->
  abs_of (scheduled target h) up cs =
  with_timers (a_start (abs_of h up cs)) (Some settle_ms) (abs_of h up cs).
Proof.
  intros Hwf. destruct (scheduled_members target h) as (E1 & _ & _ & E2 & _ & E3 & E4).
  unfold abs_of, with_timers. simpl.
  by rewrite E1, E2, E3, E4, scheduled_first, scheduled_armed.
Qed.

Lemma abs_of_set_autoReconnect b h up cs :
  abs_of (set_autoReconnect b h) up cs = with_auto b (abs_of h up cs).
Proof. by destruct h. Qed.

Lemma abs_silent w w' : silent w w' -> abs w' = abs w.
Proof.
  intros Hs. pose proof Hs as (Hth & HW & _). unfold abs.
  by rewrite Hth, HW, (silent_wifi_calls _ _ Hs).
Qed.

Lemma abs_can w : a_can (abs w) = can_connect w.
Proof. reflexivity. Qed.

(** ** The methods commute with [abs] *)

Lemma abs_scheduleConnection w :
  wf target (this w) -> abs (exec (_scheduleConnection target) w) = a_schedule (abs w).
Proof.
  intros Hwf. destruct (exec_scheduleConnection target w) as (Hth & _ & HW & Hcalls & _).
  unfold abs. rewrite Hth, HW, Hcalls, (proj1 (WiFi_run_reset target (WiFi w))).
  by rewrite (abs_of_reset _ (WiFi_connected (WiFi w))), abs_of_scheduled.
Qed.

Lemma abs_beginConnection w :
  wf target (this w) -> abs (exec (beginConnection target) w) = a_begin (abs w).
Proof.
  intros Hwf. unfold a_begin. rewrite abs_can. destruct (can_connect w) eqn:Hcan.
  - destruct (exec_beginConnection_ok target w Hcan) as (Hth & _ & HW & Hcalls & _).
    unfold abs. rewrite Hth, HW, Hcalls.
    rewrite WiFi_run_reset_connected by apply wifi_mode_hostname_calls.
    rewrite (abs_of_reset_hostname _ (WiFi_connected (WiFi w))).
    by rewrite abs_of_scheduled, abs_of_stopped by by apply wf_stopped.
  - by apply abs_silent, exec_beginConnection_refused.
Qed.

Lemma abs_disconnect w : abs (exec (disconnect target) w) = a_disconnect (abs w).
Proof.
  destruct (exec_disconnect target w) as (Hth & _ & HW & Hcalls & _).
  unfold abs. rewrite Hth, HW, Hcalls, (proj1 (WiFi_run_reset target (WiFi w))).
  rewrite (abs_of_reset _ (WiFi_connected (WiFi w))).
  by rewrite abs_of_set_autoReconnect, abs_of_stopped.
Qed.

Lemma abs_connect w : abs (exec _connect w) = a_connect (abs w).
Proof.
  unfold a_connect. rewrite abs_can. destruct (can_connect w) eqn:Hcan.
  - destruct (can_connect_requested w Hcan) as (c & Hreq & Hc).
    destruct (exec_connect_ok w c Hcan Hreq) as (Hth & _ & HW & Hcalls & _).
    unfold abs. rewrite Hth, HW, Hcalls. by destruct c.
  - by apply abs_silent, exec_connect_refused.
Qed.

Lemma abs_api a w :
  wf target (this w) -> abs (exec (api target a) w) = a_api a (abs w).
Proof.
  intros Hwf. destruct a; simpl;
    [by destruct w as [[] ? ? ?]..| by apply abs_beginConnection | apply abs_disconnect].
Qed.

Lemma abs_runScript body w :
  wf target (this w) -> abs (exec (runScript target body) w) = a_script body (abs w).
Proof.
  revert w. induction body as [|a body IH]; intros w Hwf; simpl; [done|].
  rewrite exec_bind, IH, abs_api; [done | done |].
  by apply (adv_wf _ _ _ (advancing_api target a w)).
Qed.

Lemma abs_invoke slot callback w :
  wf target (this w) ->
  abs (exec (invoke target slot callback) w) = a_invoke callback (abs w).
Proof.
  intros Hwf. rewrite exec_invoke. destruct callback as [body|]; [|done].
  by rewrite abs_runScript.
Qed.

Lemma abs_event e w :
  wf target (this w) -> abs (exec (wifiEventHandler target e) w) = a_event e (abs w).
Proof.
  intros Hwf. destruct e; simpl.
  - rewrite exec_onWifiConnected, abs_invoke.
    + by rewrite (abs_silent _ _ (exec_log_silent _ _)).
    + by rewrite (proj1 (exec_log_silent _ _)).
  - rewrite exec_onWifiDisconnected, abs_invoke.
    + rewrite exec_when.
      assert (wf target (this (exec (log (Printf "WiFi! Lost connection (%fs). \n"
                                       [ArgSeconds (millis w)])) w))) as Hwf'
        by by rewrite (proj1 (exec_log_silent _ _)).
      destruct (_autoReconnect (this w));
        by rewrite ?abs_scheduleConnection, (abs_silent _ _ (exec_log_silent _ _)).
    + apply (adv_wf _ _ _ (advancing_when target _ _ (advancing_scheduleConnection target) _)).
      by rewrite (proj1 (exec_log_silent _ _)).
Qed.

(** ** The platform's transitions commute with [abs] *)

Lemma abs_tick d w : abs (tick d w) = a_tick d (abs w).
Proof.
  unfold abs, abs_of, a_tick, with_timers. simpl. rewrite !armed_elapse.
  f_equal; by destruct (armed _) as [[]|].
Qed.

Lemma abs_radio st w : abs (radio st w) = with_up (bool_decide (st = WL_CONNECTED)) (abs w).
Proof. by destruct w as [? [] ? ?]. Qed.

Lemma abs_fire t w :
  wf target (this w) ->
  abs (fire t w) =
  match t with
  | FirstConnectionTimer => with_timers None (a_retry (abs w)) (abs w)
  | WifiConnectTimer => with_timers (a_start (abs w)) None (abs w)
  end.
Proof.
  intros (H1 & H2 & _). unfold abs, abs_of, with_timers.
  destruct t, w as [[] ? ? ?]; simpl in *;
    by erewrite timer_ok_armed_fired by done.
Qed.

Lemma abs_expired t w cb :
  expired (timer_of t (this w)) = Some cb ->
  match t with FirstConnectionTimer => a_start (abs w) | WifiConnectTimer => a_retry (abs w) end
  = Some 0.
Proof. intros H%expired_armed. destruct t; simpl in *; by rewrite H. Qed.

(** ** Construction *)

Lemma abs_new ssid password hostname autoConnect wifi now :
  abs (new target ssid password hostname autoConnect wifi now) =
  a_new (negb (null_or_empty ssid)) autoConnect (WiFi_connected wifi).
Proof. unfold new. by destruct target, autoConnect. Qed.

(** ** One transition *)

Lemma refines_step l w w' :
  wf target (this w) -> step target l w = Some w' -> astep l (abs w) = Some (abs w').
Proof.
  intros Hwf. destruct l as [a|d|t|e|st]; cbn [step astep]; intros H.
  - simplify_eq. by rewrite abs_api.
  - simplify_eq. by rewrite abs_tick.
  - destruct (expired (timer_of t (this w))) as [cb|] eqn:E; [|done]. simplify_eq.
    pose proof (wf_expired target _ _ _ Hwf E) as ->.
    pose proof (abs_expired _ _ _ E) as H0.
    pose proof (adv_wf _ _ _ (advances_fire target t w Hwf) Hwf) as Hwf'.
    destruct t; simpl in *; rewrite H0.
    + by rewrite abs_beginConnection, abs_fire.
    + by rewrite abs_connect, abs_fire.
  - destruct (registered e (WiFi w)); [|done]. simplify_eq. by rewrite abs_event.
  - simplify_eq. by rewrite abs_radio.
Qed.

(** The abstract machine is enabled only where the code is. *)
Lemma enabled_step l w s' :
  Inv target w -> astep l (abs w) = Some s' -> is_Some (step target l w).
Proof.
  intros I. destruct l as [a|d|t|e|st]; simpl; try by eexists.
  - intros H. destruct t; simpl in *.
    + destruct (armed (_firstConnectionTimer (this w))) as [[[|r] cb]|] eqn:E; try done.
      apply expired_armed in E. rewrite E. by eexists.
    + destruct (armed (_wifiConnectTimer (this w))) as [[[|r] cb]|] eqn:E; try done.
      apply expired_armed in E. rewrite E. by eexists.
  - intros _. rewrite (inv_registered _ _ I). by eexists.
Qed.

End Refinement.

(** * The theorems *)

(** C3: Forward simulation.  Every transition of the code from a reachable
    state, on the ESP8266 and on the ESP32, is the transition of the
    abstract supervisor under the same label: the abstract state read off
    the state after is the abstract successor of the abstract state read
    off the state before. *)
Theorem refinement (target : Target) (l : Label) (w w' : World) :
  reachable target w -> step target l w = Some w' ->
  astep l (abs w) = Some (abs w').
Proof. intros Hw%Inv_reachable. apply refines_step, Hw. Qed.

Lemma refinement_witness :
  let w := after ESP8266 (firstn 3 first_attempt) (world_net ESP8266) in
  astep (LExpire WifiConnectTimer) (abs w) =
  Some (abs (after ESP8266 [LExpire WifiConnectTimer] w)).
Proof.
  apply (refinement ESP8266 (LExpire WifiConnectTimer) _ _ (reachable_after_net ESP8266 _)).
  vm_compute; reflexivity.
Defined.

(** C21: A freshly constructed handler is an initial state of the abstract
    supervisor, and the abstract supervisor can make a transition from the
    abstraction of a reachable state exactly when the code can: the code
    has all the behaviours of the abstract machine and no others. *)
Theorem refinement_complete (target : Target) (l : Label) (w : World) (s' : AState) :
  reachable target w -> astep l (abs w) = Some s' ->
  exists w', step target l w = Some w' /\ abs w' = s'.
Proof.
  intros Hw%Inv_reachable Ha. destruct (enabled_step target l w s' Hw Ha) as [w' Hs].
  exists w'. split; [done|]. pose proof (refines_step target l w w' (inv_wf _ _ Hw) Hs).
  congruence.
Qed.

Lemma refinement_complete_witness :
  let w := world_net ESP32 in
  exists w', step ESP32 (LEvent STA_DISCONNECTED) w = Some w' /\
             abs w' = a_event STA_DISCONNECTED (abs w).
Proof.
  apply (refinement_complete ESP32 (LEvent STA_DISCONNECTED) (world_net ESP32));
    [unfold world_net; apply reachable_new | reflexivity].
Defined.

(** Every state the code reaches abstracts to a state the abstract
    supervisor reaches, and a run of the code from construction is the run
    of the abstract supervisor under the same labels. *)
Theorem refinement_run (target : Target) (ls : list Label) (w w' : World) :
  reachable target w -> run target ls w = Some w' ->
  arun ls (abs w) = Some (abs w').
Proof.
  revert w. induction ls as [|l ls IH]; simpl; intros w Hw Hrun; [by simplify_eq|].
  destruct (step target l w) as [w1|] eqn:E; [|done].
  rewrite (refines_step target l w w1 (inv_wf _ _ (Inv_reachable _ _ Hw)) E).
  apply IH; [|done]. eapply reachable_step; [done | by apply step_Step].
Qed.

Lemma refinement_run_witness :
  arun first_attempt (abs (world_net ESP32)) =
  Some (abs (after ESP32 first_attempt (world_net ESP32))).
Proof.
  apply (refinement_run ESP32 first_attempt (world_net ESP32));
    [unfold world_net; apply reachable_new | vm_compute; reflexivity].
Defined.

(** C22: All connection attempts funnel through one operation: along any
    transition from a reachable state the number of connect requests stays
    the same, except at an expiry of the connect timer, where it may grow
    by one, and then the driver did not report a connection.  Proved on the
    abstract supervisor and carried to the code by the refinement. *)
Theorem connect_only_on_timer_expiry (target : Target) (l : Label) (w w' : World) :
  reachable target w -> step target l w = Some w' ->
  length (begins (trace w')) = length (begins (trace w)) \/
  (l = LExpire WifiConnectTimer /\
   length (begins (trace w')) = S (length (begins (trace w))) /\
   WiFi_connected (WiFi w) = false).
Proof.
  intros Hw%Inv_reachable Hs. rewrite !wifi_calls_begins.
  pose proof (refines_step target l w w' (inv_wf _ _ Hw) Hs) as Ha.
  destruct (astep_requests _ _ _ Ha) as [? | (? & ? & ? & _)]; [by left | by right].
Qed.

Lemma connect_only_on_timer_expiry_witness :
  let w := after ESP32 (firstn 3 first_attempt) (world_net ESP32) in
  let w' := after ESP32 [LExpire WifiConnectTimer] w in
  length (begins (trace w')) = length (begins (trace w)) \/
  (LExpire WifiConnectTimer = LExpire WifiConnectTimer /\
   length (begins (trace w')) = S (length (begins (trace w))) /\
   WiFi_connected (WiFi w) = false).
Proof.
  apply (connect_only_on_timer_expiry ESP32 (LExpire WifiConnectTimer) _ _
           (reachable_after_net ESP32 _)).
  vm_compute; reflexivity.
Defined.

(** The life cycle of the specification, on the code: built with
    automatic connection the handler awaits the initial delay, then the
    retry delay, is connecting, connected; when the connection is lost it
    awaits the retry delay, is connecting and connected again; and
    [disconnect] brings it to idle.  Both platforms go through the same
    phases. *)
Example lifecycle_phases :
  trail ESP32 lifecycle (world_net ESP32) =
    [AwaitingInitialDelay; AwaitingInitialDelay; AwaitingRetryDelay; AwaitingRetryDelay;
     Connecting; Connected; Connected; Connecting; AwaitingRetryDelay; AwaitingRetryDelay;
     Connecting; Connected; Connected; Idle] /\
  trail ESP8266 lifecycle (world_net ESP8266) = trail ESP32 lifecycle (world_net ESP32).
Proof. split; vm_compute; reflexivity. Qed.
